(** * amazon-autopilot front end: a shallow embedding of its client-side logic

    The repository is a React dashboard.  Its logic worth stating lives in a
    handful of event handlers: CSV export and CSV/JSON import of the product
    list ([Products]), the ASIN check of the research page ([Research]), the
    HTTP helper [apiRequest] ([Api]), the blacklist page ([Blacklist]) and the
    statistics of the dashboard ([Dashboard]).

    JavaScript strings are sequences of UTF-16 code units, so a string is a
    [list N] here; values are the values JSON carries; a handler becomes a
    function from its inputs (the content of a field, the text of a file,
    what an awaited request settles to) to the list of effects it performs,
    in order: toasts, state updates, requests, downloads.  Code that can
    throw returns a [Result].

    The first part holds the model, a sample runtime to run it on, the
    claims of the specification restated over the model ([Spec]) and the
    shapes that further theorems speak of ([Shape]); the second part
    holds the proofs, module by module: first those of the claims, then
    further facts about the same handlers and about the rest of the
    pages (loading and searching the product list, pausing and deleting
    a listing, typing into the dialog, checking an ASIN against the
    blacklist and deleting an entry of it). *)

From Stdlib Require Import Ascii String DecimalString.
From Stdlib Require Import List NArith ZArith Bool Lia.
Import ListNotations.

Set Implicit Arguments.
Set Warnings "-register-all".

(* ================================================================== *)
(** * JavaScript strings                                              *)
(* ================================================================== *)

Module JS.

Definition char := N.
Definition jsstring := list char.

Open Scope N_scope.

(** ** Literals: the UTF-8 bytes of a source literal decoded to UTF-16. *)

Definition bytes_of (s : string) : list N :=
  List.map N_of_ascii (list_ascii_of_string s).

Fixpoint utf8_decode (bs : list N) : jsstring :=
  match bs with
  | [] => []
  | b0 :: r0 =>
    if b0 <? 128 then b0 :: utf8_decode r0
    else match r0 with
    | [] => []
    | b1 :: r1 =>
      if b0 <? 224 then ((b0 - 192) * 64 + (b1 - 128)) :: utf8_decode r1
      else match r1 with
      | [] => []
      | b2 :: r2 =>
        if b0 <? 240
        then ((b0 - 224) * 4096 + (b1 - 128) * 64 + (b2 - 128)) :: utf8_decode r2
        else match r2 with
        | [] => []
        | b3 :: r3 =>
          let cp := (b0 - 240) * 262144 + (b1 - 128) * 4096
                    + (b2 - 128) * 64 + (b3 - 128) in
          (55296 + (cp - 65536) / 1024)
            :: (56320 + (cp - 65536) mod 1024) :: utf8_decode r3
        end
      end
    end
  end.

Definition lit (s : string) : jsstring := utf8_decode (bytes_of s).

(** ** Characters the handlers look at. *)

Definition QUOTE : char := 34.   (* the double quote *)
Definition COMMA : char := 44.
Definition LF : char := 10.
Definition CR : char := 13.
Definition BOM : char := 65279.  (* U+FEFF *)
Definition IDEOGRAPHIC_COMMA : char := 12289.  (* U+3001 *)

(** ECMAScript LineTerminator: what the regular expression [.] refuses. *)
Definition is_line_terminator (c : char) : bool :=
  (c =? 10) || (c =? 13) || (c =? 8232) || (c =? 8233).

(** ECMAScript WhiteSpace and LineTerminator: what [trim] removes and what
    the regular expression [\s] accepts. *)
Definition is_ws (c : char) : bool :=
  (c =? 9) || (c =? 10) || (c =? 11) || (c =? 12) || (c =? 13) || (c =? 32)
  || (c =? 160) || (c =? 5760) || ((8192 <=? c) && (c <=? 8202))
  || (c =? 8232) || (c =? 8233) || (c =? 8239) || (c =? 8287)
  || (c =? 12288) || (c =? 65279).

(** ** String equality, [trim], [join], [split]. *)

Fixpoint str_eqb (a b : jsstring) : bool :=
  match a, b with
  | [], [] => true
  | x :: a', y :: b' => (x =? y) && str_eqb a' b'
  | _, _ => false
  end.

Fixpoint trimStart (s : jsstring) : jsstring :=
  match s with
  | [] => []
  | c :: r => if is_ws c then trimStart r else s
  end.

Definition trimEnd (s : jsstring) : jsstring := rev (trimStart (rev s)).

Definition trim (s : jsstring) : jsstring := trimEnd (trimStart s).

(** [parts.join(sep)]. *)
Fixpoint join (sep : jsstring) (parts : list jsstring) : jsstring :=
  match parts with
  | [] => []
  | [p] => p
  | p :: rest => p ++ sep ++ join sep rest
  end.

(** [s.split(c)] for a one-character separator: always at least one piece. *)
Fixpoint split_char (sep : char -> bool) (s : jsstring) : list jsstring :=
  match s with
  | [] => [[]]
  | c :: r =>
    if sep c then [] :: split_char sep r
    else match split_char sep r with
         | p :: ps => (c :: p) :: ps
         | [] => [[c]]
         end
  end.

Definition starts_with_LF (s : jsstring) : bool :=
  match s with c :: _ => c =? LF | [] => false end.

(** [s.split(/\r?\n/)]: a line feed, or a carriage return directly followed
    by one, separates; the carriage return of such a pair belongs to the
    separator, so it is dropped and the line feed after it cuts. *)
Fixpoint split_lines (s : jsstring) : list jsstring :=
  match s with
  | [] => [[]]
  | c :: r =>
    if c =? LF then [] :: split_lines r
    else if (c =? CR) && starts_with_LF r then split_lines r
    else match split_lines r with
         | p :: ps => (c :: p) :: ps
         | [] => [[c]]
         end
  end.

(** [String.replace] of every double quote by two of them (the [g] flag). *)
Fixpoint double_quotes (s : jsstring) : jsstring :=
  match s with
  | [] => []
  | c :: r => if c =? QUOTE then QUOTE :: QUOTE :: double_quotes r
              else c :: double_quotes r
  end.

(** [String.replace] of every pair of double quotes by one: leftmost pairs,
    not overlapping. *)
Fixpoint undouble_quotes (s : jsstring) : jsstring :=
  match s with
  | [] => []
  | c1 :: t =>
    match t with
    | c2 :: r => if (c1 =? QUOTE) && (c2 =? QUOTE)
                 then QUOTE :: undouble_quotes r
                 else c1 :: undouble_quotes t
    | [] => [c1]
    end
  end.

(** [String.replace] with the pattern start-anchored quote or end-anchored
    quote, flag [g], by the empty string: a quote at the very start goes,
    then a quote at the very end of what is left after it goes. *)
Definition drop_leading_quote (s : jsstring) : jsstring :=
  match s with
  | c :: r => if c =? QUOTE then r else s
  | [] => []
  end.

Definition drop_trailing_quote (s : jsstring) : jsstring :=
  rev (drop_leading_quote (rev s)).

Definition strip_quotes (s : jsstring) : jsstring :=
  drop_trailing_quote (drop_leading_quote s).

Close Scope N_scope.

(* ================================================================== *)
(** ** JavaScript values                                                *)
(* ================================================================== *)

(** Numbers are IEEE doubles in the browser.  The handlers only add them,
    test them for zero and NaN, print them and read them from strings, so
    the number type is an interface with these operations; every theorem
    holds for any implementation of it. *)
Class JSNumber (Num : Type) : Type := {
  num_of_Z : Z -> Num;                   (* an integer literal *)
  num_nan : Num;
  num_add : Num -> Num -> Num;
  num_is_zero : Num -> bool;             (* [x === 0] *)
  num_is_nan : Num -> bool;
  num_to_string : Num -> jsstring;       (* [String(x)] *)
  num_of_string : jsstring -> Num;       (* [Number(s)] *)
  num_of_Z_is_zero : forall z, num_is_zero (num_of_Z z) = (z =? 0)%Z;
  num_of_Z_is_nan : forall z, num_is_nan (num_of_Z z) = false
}.

Section Values.

Context {Num : Type} {NumOps : JSNumber Num}.

(** The values JSON can carry, and [undefined]. An object keeps its
    properties in insertion order. *)
Inductive JSValue : Type :=
| JUndefined
| JNull
| JBool (b : bool)
| JNum (n : Num)
| JStr (s : jsstring)
| JArr (items : list JSValue)
| JObj (props : list (jsstring * JSValue)).

Definition jsobject := list (jsstring * JSValue).

(** [Boolean(v)]. *)
Definition truthy (v : JSValue) : bool :=
  match v with
  | JUndefined | JNull => false
  | JBool b => b
  | JNum n => negb (num_is_zero n || num_is_nan n)
  | JStr s => negb (Nat.eqb (length s) 0)
  | JArr _ | JObj _ => true
  end.

Definition nullish (v : JSValue) : bool :=
  match v with JUndefined | JNull => true | _ => false end.

(** [a || b] and [a ?? b]. *)
Definition js_or (a b : JSValue) : JSValue := if truthy a then a else b.
Definition js_coalesce (a b : JSValue) : JSValue := if nullish a then b else a.

(** [v === s] for a string literal [s]. *)
Definition is_string (v : JSValue) (s : jsstring) : bool :=
  match v with JStr t => str_eqb t s | _ => false end.

(** [v !== 0]. *)
Definition not_zero (v : JSValue) : bool :=
  match v with JNum n => negb (num_is_zero n) | _ => true end.

(** [typeof v === 'object']: true of [null] too. *)
Definition typeof_object (v : JSValue) : bool :=
  match v with JNull | JArr _ | JObj _ => true | _ => false end.

(** [String(v)]; an array prints its elements joined by commas, with
    [null] and [undefined] elements printed as nothing. *)
Fixpoint to_string (v : JSValue) : jsstring :=
  match v with
  | JUndefined => lit "undefined"
  | JNull => lit "null"
  | JBool true => lit "true"
  | JBool false => lit "false"
  | JNum n => num_to_string n
  | JStr s => s
  | JArr items =>
    (fix elems (l : list JSValue) : jsstring :=
       match l with
       | [] => []
       | x :: r =>
         let sx := match x with
                   | JUndefined | JNull => []
                   | _ => to_string x
                   end in
         match r with
         | [] => sx
         | _ :: _ => sx ++ [COMMA] ++ elems r
         end
       end) items
  | JObj _ => lit "[object Object]"
  end.

(** [Number(v)]. *)
Definition to_number (v : JSValue) : Num :=
  match v with
  | JUndefined => num_nan
  | JNull => num_of_Z 0
  | JBool true => num_of_Z 1
  | JBool false => num_of_Z 0
  | JNum n => n
  | _ => num_of_string (to_string v)
  end.

(** [Number(v) || d]. *)
Definition number_or (v : JSValue) (d : Z) : Num :=
  let n := to_number v in
  if num_is_zero n || num_is_nan n then num_of_Z d else n.

(** [a + b]: when either side is a string, or an array or object (which
    turn into strings first), the texts are concatenated; else the numbers
    are added. *)
Definition is_stringy (v : JSValue) : bool :=
  match v with JStr _ | JArr _ | JObj _ => true | _ => false end.

Definition js_add (a b : JSValue) : JSValue :=
  if is_stringy a || is_stringy b then JStr (to_string a ++ to_string b)
  else JNum (num_add (to_number a) (to_number b)).

(** [items.join(sep)]. *)
Definition array_join (sep : jsstring) (items : list JSValue) : jsstring :=
  join sep (List.map (fun x => if nullish x then [] else to_string x) items).

(** [o[k]] on an object: [undefined] when [k] is no property of it. *)
Fixpoint get (o : jsobject) (k : jsstring) : JSValue :=
  match o with
  | [] => JUndefined
  | (k', v) :: r => if str_eqb k' k then v else get r k
  end.

(** [o[k] = v]: an existing property keeps its place. *)
Fixpoint set (o : jsobject) (k : jsstring) (v : JSValue) : jsobject :=
  match o with
  | [] => [(k, v)]
  | (k', v') :: r => if str_eqb k' k then (k', v) :: r
                     else (k', v') :: set r k v
  end.

(** [v.k] on any value that is not [null] or [undefined] (on those the
    access throws [TypeError]: [None]). None of the keys read here is a
    property of a primitive or of an array. *)
Definition get_prop (v : JSValue) (k : jsstring) : option JSValue :=
  match v with
  | JUndefined | JNull => None
  | JObj o => Some (get o k)
  | _ => Some JUndefined
  end.

End Values.

Arguments JSValue Num : clear implicits.
Arguments jsobject Num : clear implicits.

End JS.

(* ================================================================== *)
(** * lib/api.ts: the HTTP helper                                     *)
(* ================================================================== *)

Module Api.
Import JS.

Section WithNumbers.

Context {Num : Type} {NumOps : JSNumber Num}.

Definition API_BASE_URL : jsstring := lit "/api".

(** What a caller passes as [options], and what [fetch] is called with.
    [body] is the value whose [JSON.stringify] text is sent. *)
Record RequestInit : Type := {
  init_method : option jsstring;
  init_headers : option (list (jsstring * jsstring));
  init_body : option (JSValue Num)
}.

Record Request : Type := {
  req_url : jsstring;
  req_method : option jsstring;
  req_headers : list (jsstring * jsstring);
  req_body : option (JSValue Num)
}.

(** A received response: [response.ok], [response.status] and what
    [response.json()] resolves to ([None]: the body is no JSON and the
    promise rejects with a [SyntaxError]). *)
Record Response : Type := {
  resp_ok : bool;
  resp_status : Num;
  resp_json : option (JSValue Num)
}.

Inductive Fetched : Type :=
| Received (r : Response)
| NetworkFailure.

(** What a promise rejects with. [ApiError] is the class of api.ts,
    [PlainError] an [Error] made with [new Error(message)]; the others are
    errors the runtime throws. *)
Inductive Exn : Type :=
| ApiError (message : jsstring) (status : Num) (details : JSValue Num)
| PlainError (message : jsstring)
| TypeError
| SyntaxError.

Inductive Result (A : Type) : Type :=
| Return (a : A)
| Throw (e : Exn).

Arguments Return {A} a.
Arguments Throw {A} e.

Definition bind {A B : Type} (r : Result A) (k : A -> Result B) : Result B :=
  match r with
  | Return a => k a
  | Throw e => Throw e
  end.

(** [xs.map(f)] where [f] may throw: the first throw ends the loop. *)
Fixpoint map_result {A B : Type} (f : A -> Result B) (xs : list A)
  : Result (list B) :=
  match xs with
  | [] => Return []
  | x :: r => bind (f x) (fun y =>
              bind (map_result f r) (fun ys => Return (y :: ys)))
  end.

(** [xs.filter(p)] where [p] may throw. *)
Fixpoint filter_result {A : Type} (p : A -> Result bool) (xs : list A)
  : Result (list A) :=
  match xs with
  | [] => Return []
  | x :: r => bind (p x) (fun keep =>
              bind (filter_result p r) (fun ys =>
              Return (if keep then x :: ys else ys)))
  end.

(** [url] and [defaultOptions]: the spread of [options] comes after
    [headers], so when a caller passes [headers] they replace the merged
    ones; without them the content type alone is sent. *)
Definition request_of (endpoint : jsstring) (options : RequestInit) : Request :=
  {| req_url := API_BASE_URL ++ endpoint;
     req_method := init_method options;
     req_headers := match init_headers options with
                    | Some h => h
                    | None => [(lit "Content-Type", lit "application/json")]
                    end;
     req_body := init_body options |}.

Definition http_error_message (status : Num) : jsstring :=
  lit "HTTP error! status: " ++ num_to_string status.

(** The [message] expression of the failure branch, on a body that is not
    [null]: two [||], so a falsy alternative falls through. *)
Definition error_message (data : JSValue Num) (status : Num)
  : option (JSValue Num) :=
  match get_prop data (lit "error"), get_prop data (lit "errors") with
  | Some err, Some errs =>
    Some (js_or (js_or err
                   (match errs with
                    | JArr items => JStr (array_join (lit ", ") items)
                    | _ => JUndefined
                    end))
                (JStr (http_error_message status)))
  | _, _ => None
  end.

Definition apiRequest (fetch : Request -> Fetched)
    (endpoint : jsstring) (options : RequestInit) : Result (JSValue Num) :=
  match fetch (request_of endpoint options) with
  | NetworkFailure => Throw TypeError
  | Received response =>
    match resp_json response with
    | None => Throw SyntaxError
    | Some data =>
      if negb (resp_ok response) then
        match error_message data (resp_status response) with
        | None => Throw TypeError
        | Some message =>
          Throw (ApiError (to_string message) (resp_status response) data)
        end
      else Return data
    end
  end.


Definition post (body : JSValue Num) : RequestInit :=
  {| init_method := Some (lit "POST"); init_headers := None;
     init_body := Some body |}.


Definition blacklistApi_create (fetch : Request -> Fetched)
    (data : JSValue Num) : Result (JSValue Num) :=
  apiRequest fetch (lit "/blacklist") (post data).

End WithNumbers.

Arguments Exn Num : clear implicits.
Arguments Result Num A : clear implicits.
Arguments Return {Num A} a.
Arguments Throw {Num A} e.

End Api.

(* ================================================================== *)
(** * The product list page (Products)                                *)
(* ================================================================== *)

Module Products.
Import JS Api.

Section WithRuntime.

Context {Num : Type} {NumOps : JSNumber Num}.

(** Built-ins of the browser the page calls, taken as given:
    [JSON.parse] ([None]: it throws [SyntaxError]); the string a member
    inherited from [Object.prototype] turns into when used as a property
    key; the message text of an error. *)
Variable JSON_parse : jsstring -> option (JSValue Num).
Variable native_key : jsstring -> jsstring.
Variable error_text : Exn Num -> jsstring.

(** ** Export *)

Definition exportColumns : list (jsstring * jsstring) :=
  [ (lit "asin", lit "ASIN");
    (lit "title", lit "商品名");
    (lit "listing_price", lit "出品価格 (JPY)");
    (lit "profit", lit "利益 (JPY)");
    (lit "status", lit "ステータス");
    (lit "stock_status", lit "在庫ステータス");
    (lit "jp_price", lit "仕入れ価格 (JPY)");
    (lit "us_price", lit "仕入れ価格 (USD)") ].

Definition escapeCsv (value : JSValue Num) : jsstring :=
  if nullish value then [QUOTE; QUOTE]
  else [QUOTE] ++ double_quotes (to_string value) ++ [QUOTE].

(** One element of [rows]. *)
Definition export_row (listing : jsobject Num) : jsstring :=
  join [COMMA]
    (List.map (fun column =>
                 escapeCsv (js_coalesce (get listing (fst column)) (JStr [])))
              exportColumns).

Definition csvContent (listings : list (jsobject Num)) : jsstring :=
  join [LF]
    (join [COMMA] (List.map snd exportColumns) :: List.map export_row listings).


Inductive Effect : Type :=
| Toast (title description : jsstring) (destructive : bool)
| SetExporting (b : bool)
| SetImporting (b : bool)
| SetCreating (b : bool)
| SetFormErrors (errors : list (jsstring * jsstring))
| SetAddDialogOpen (b : bool)
| ResetFormData
| Download (filename mime content : jsstring)
| Create (payload : JSValue Num)
| LoadListings
| ResetFileInput.


(** ** Import: the field pattern

    The data lines are cut by one regular expression with the [g] flag: a
    group of two alternatives, a quote, any characters lazily, a quote; or
    one or more characters that are no quote, comma or white space,
    greedily; and after the group a lookahead for white space then a comma,
    or white space then the end of the line. *)

Definition starts_with_comma (s : jsstring) : bool :=
  match s with c :: _ => N.eqb c COMMA | [] => false end.

Definition at_end (s : jsstring) : bool :=
  match s with [] => true | _ :: _ => false end.

(** White space, greedily with backtracking, then [k]. *)
Fixpoint ws_then (k : jsstring -> bool) (s : jsstring) : bool :=
  match s with
  | c :: r => if is_ws c then ws_then k r || k s else k s
  | [] => k s
  end.

Definition lookahead (s : jsstring) : bool :=
  ws_then starts_with_comma s || ws_then at_end s.

(** After the opening quote: the shortest run of characters that are no
    line terminators, then a quote after which the lookahead holds. The
    result is the text consumed, closing quote included. *)
Fixpoint lazy_close (s : jsstring) : option jsstring :=
  match s with
  | [] => None
  | c :: r =>
    if N.eqb c QUOTE && lookahead r then Some [QUOTE]
    else if is_line_terminator c then None
    else option_map (cons c) (lazy_close r)
  end.

Definition quoted_field (s : jsstring) : option jsstring :=
  match s with
  | c :: r => if N.eqb c QUOTE then option_map (cons QUOTE) (lazy_close r)
              else None
  | [] => None
  end.

Definition is_bare (c : char) : bool :=
  negb (N.eqb c QUOTE || N.eqb c COMMA || is_ws c).

(** The longest run first, then shorter ones, until the lookahead holds. *)
Fixpoint bare_field (s : jsstring) : option jsstring :=
  match s with
  | [] => None
  | c :: r =>
    if is_bare c then
      match bare_field r with
      | Some m => Some (c :: m)
      | None => if lookahead r then Some [c] else None
      end
    else None
  end.

(** The pattern tried at the start of [s]: the text it matches. *)
Definition match_at (s : jsstring) : option jsstring :=
  match quoted_field s with
  | Some m => Some m
  | None => bare_field s
  end.

(** [line.match(pattern)] with the [g] flag: all matches from left to
    right. After a match the search resumes behind it, so [skip] counts
    the characters of the last match still to pass; where the pattern
    fails the search moves on by one character. *)
Fixpoint scan_fields (skip : nat) (s : jsstring) : list jsstring :=
  match s with
  | [] => []
  | _ :: r =>
    match skip with
    | S k => scan_fields k r
    | O => match match_at s with
           | Some m => m :: scan_fields (Nat.pred (length m)) r
           | None => scan_fields 0 r
           end
    end
  end.

Definition match_fields (line : jsstring) : list jsstring :=
  scan_fields 0 line.

(** What [map] makes of one match. *)
Definition clean_value (value : jsstring) : jsstring :=
  trim (undouble_quotes (strip_quotes value)).

(** ** Import: headers and records *)

Definition headerMappings : list (jsstring * jsstring) :=
  [ (lit "asin", lit "asin");
    (lit "ASIN", lit "asin");
    (lit "title", lit "title");
    (lit "商品名", lit "title");
    (lit "listing_price", lit "listing_price");
    (lit "listing_pri", lit "listing_price");
    (lit "listing_price (JPY)", lit "listing_price");
    (lit "出品価格", lit "listing_price");
    (lit "出品価格 (JPY)", lit "listing_price");
    (lit "profit", lit "profit");
    (lit "利益", lit "profit");
    (lit "status", lit "status");
    (lit "ステータス", lit "status");
    (lit "stock_status", lit "stock_status");
    (lit "stock_stat", lit "stock_status");
    (lit "在庫ステータス", lit "stock_status");
    (lit "jp_price", lit "jp_price");
    (lit "仕入れ価格 (JPY)", lit "jp_price");
    (lit "us_price", lit "us_price");
    (lit "仕入れ価格 (USD)", lit "us_price") ].

Fixpoint lookup (table : list (jsstring * jsstring)) (k : jsstring)
  : option jsstring :=
  match table with
  | [] => None
  | (k', v) :: r => if str_eqb k' k then Some v else lookup r k
  end.

(** [headerMappings] is an object literal: a name it does not define is
    still found when [Object.prototype] has it, and what is found there is
    truthy, so it becomes the header and then, as a property key, its
    string form. *)
Definition object_prototype_names : list jsstring :=
  List.map lit
    [ "constructor"; "hasOwnProperty"; "isPrototypeOf";
      "propertyIsEnumerable"; "toLocaleString"; "toString"; "valueOf";
      "__proto__"; "__defineGetter__"; "__defineSetter__";
      "__lookupGetter__"; "__lookupSetter__" ]%string.

Definition header_key (header : jsstring) : jsstring :=
  let cleaned := trim (strip_quotes header) in
  match lookup headerMappings cleaned with
  | Some mapped => mapped
  | None => if existsb (str_eqb cleaned) object_prototype_names
            then native_key cleaned
            else cleaned
  end.

(** [headers.forEach((header, index) => record[header] = values[index] ?? empty)]. *)
Fixpoint fill_record (headers : list jsstring) (index : nat)
    (values : list jsstring) (record : jsobject Num) : jsobject Num :=
  match headers with
  | [] => record
  | header :: rest =>
    let value := match nth_error values index with
                 | Some v => v
                 | None => []
                 end in
    fill_record rest (S index) values (set record header (JStr value))
  end.

(** The loop over the data lines, from index 1. *)
Fixpoint read_records (headers : list jsstring) (lines : list jsstring)
  : list (JSValue Num) :=
  match lines with
  | [] => []
  | line :: rest =>
    let values := List.map clean_value (match_fields line) in
    if Nat.eqb (length values) 0 then read_records headers rest
    else JObj (fill_record headers 0 values []) :: read_records headers rest
  end.

Definition non_blank (line : jsstring) : bool :=
  negb (Nat.eqb (length (trim line)) 0).

(** The CSV branch, on the trimmed text. *)
Definition parse_csv (text : jsstring) : Result Num (list (JSValue Num)) :=
  let lines := filter non_blank (split_lines text) in
  if Nat.eqb (length lines) 0 then Return []
  else match lines with
       | [] => Throw TypeError
       | first :: data =>
         let headers :=
           List.map header_key (split_char (N.eqb COMMA) first) in
         Return (read_records headers data)
       end.

(** What the [try] block returns, if it returns. *)
Definition parse_json (text : jsstring) : option (list (JSValue Num)) :=
  match JSON_parse text with
  | Some json =>
    match json with
    | JArr items => Some items
    | _ => if typeof_object json then Some [json] else None
    end
  | None => None
  end.

Definition parseImportedData (text : jsstring)
  : Result Num (list (JSValue Num)) :=
  let text := trim text in
  if Nat.eqb (length text) 0 then Return []
  else match parse_json text with
       | Some records => Return records
       | None => parse_csv text
       end.

(** ** Import: from records to create requests *)

Notation "x <- r ;; k" := (bind r (fun x => k))
  (at level 61, r at next level, right associativity).

(** [record.k] for [record : any]. *)
Definition field (record : JSValue Num) (k : string) : Result Num (JSValue Num) :=
  match get_prop record (lit k) with
  | Some v => Return v
  | None => Throw TypeError
  end.

(** [v?.trim()]: nothing is called on [null] and [undefined]; a value
    that is no string has no [trim] to call. *)
Definition opt_trim (v : JSValue Num) : Result Num (JSValue Num) :=
  match v with
  | JUndefined | JNull => Return JUndefined
  | JStr s => Return (JStr (trim s))
  | _ => Throw TypeError
  end.

Definition trimmed_field (record : JSValue Num) (k : string)
  : Result Num (JSValue Num) :=
  v <- field record k ;; opt_trim v.

(** [a ?? b] of two fields of the record. *)
Definition either_field (record : JSValue Num) (k1 k2 : string)
  : Result Num (JSValue Num) :=
  a <- field record k1 ;;
  if nullish a then field record k2 else Return a.

(** [createPayload]: [JNull] for [null], else the payload object. *)
Definition createPayload (record : JSValue Num) : Result Num (JSValue Num) :=
  asin <- trimmed_field record "asin" ;;
  title <- trimmed_field record "title" ;;
  listingPrice <- either_field record "listing_price" "listingPrice" ;;
  if negb (truthy asin) || negb (truthy title)
     || (negb (truthy listingPrice) && not_zero listingPrice)
  then Return JNull
  else
    jp_asin <- trimmed_field record "jp_asin" ;;
    us_asin <- trimmed_field record "us_asin" ;;
    jp_price <- either_field record "jp_price" "jpPrice" ;;
    us_price <- either_field record "us_price" "usPrice" ;;
    category <- trimmed_field record "category" ;;
    manufacturer <- trimmed_field record "manufacturer" ;;
    source_url <- trimmed_field record "source_url" ;;
    source_url' <- (if truthy source_url then Return source_url
                    else trimmed_field record "sourceUrl") ;;
    threshold <- either_field record "minimum_profit_threshold"
                              "minimumProfitThreshold" ;;
    Return (JObj
      [ (lit "asin", asin);
        (lit "jp_asin", js_or jp_asin asin);
        (lit "us_asin", js_or us_asin JUndefined);
        (lit "title", title);
        (lit "listing_price", JNum (number_or listingPrice 0));
        (lit "jp_price", JNum (number_or jp_price 0));
        (lit "us_price", JNum (number_or us_price 0));
        (lit "category", js_or category JUndefined);
        (lit "manufacturer", js_or manufacturer JUndefined);
        (lit "source_url", js_or source_url' JUndefined);
        (lit "minimum_profit_threshold", JNum (number_or threshold 3000));
        (lit "validate", JBool true) ]).

(** [result.status === 'fulfilled' && result.value?.success], as a boolean. *)
Definition succeeded (result : Result Num (JSValue Num)) : bool :=
  match result with
  | Return value =>
    match get_prop value (lit "success") with
    | Some s => truthy s
    | None => false
    end
  | Throw _ => false
  end.

Definition count_text (n : nat) : jsstring :=
  num_to_string (num_of_Z (Z.of_nat n)).

(** [handleImportFile]: [file] is the text of the chosen file, if one was
    chosen; [create i payload] is what the [i]-th create request settles
    to. *)
Definition import_body (text : jsstring)
    (create : nat -> JSValue Num -> Result Num (JSValue Num))
  : Result Num (list Effect) :=
  records <- parseImportedData text ;;
  if Nat.eqb (length records) 0 then
    Return [Toast (lit "注意") (lit "読み込めるデータがありませんでした") false]
  else
    created <- map_result createPayload records ;;
    let payloads := filter truthy created in
    if Nat.eqb (length payloads) 0 then
      Return [Toast (lit "注意")
                (lit "必須項目 (ASIN, 商品名, 出品価格) が揃っている行がありませんでした")
                false]
    else
      let results :=
        List.map (fun ip => create (fst ip) (snd ip))
                 (combine (seq 0 (length payloads)) payloads) in
      let successCount := length (filter succeeded results) in
      let failedCount := length payloads - successCount in
      let failed := negb (Nat.eqb failedCount 0) in
      Return (List.map Create payloads
              ++ [Toast (lit "インポート完了")
                    (count_text successCount ++ lit "件の商品の追加に成功"
                     ++ (if failed
                         then lit "、" ++ count_text failedCount ++ lit "件に失敗"
                         else [])
                     ++ lit "しました")
                    failed]
              ++ (if Nat.eqb successCount 0 then [] else [LoadListings])).

Definition handleImportFile (file : option jsstring)
    (create : nat -> JSValue Num -> Result Num (JSValue Num))
  : list Effect :=
  match file with
  | None => []
  | Some text =>
    [SetImporting true]
    ++ match import_body text create with
       | Return effects => effects
       | Throw _ =>
         [Toast (lit "エラー") (lit "商品のインポートに失敗しました") true]
       end
    ++ [SetImporting false; ResetFileInput]
  end.

(** ** The add-product dialog *)

Record ListingFormData : Type := {
  asin : jsstring;
  jp_asin : jsstring;
  us_asin : jsstring;
  title : jsstring;
  listing_price : jsstring;
  jp_price : jsstring;
  us_price : jsstring;
  category : jsstring;
  manufacturer : jsstring;
  source_url : jsstring;
  minimum_profit_threshold : jsstring
}.

Definition emptyFormState : ListingFormData :=
  {| asin := []; jp_asin := []; us_asin := []; title := [];
     listing_price := []; jp_price := []; us_price := []; category := [];
     manufacturer := []; source_url := [];
     minimum_profit_threshold := lit "3000" |}.

Definition blank (s : jsstring) : bool := Nat.eqb (length (trim s)) 0.

(** The [errors] object, properties in the order they are set. *)
Definition validateForm (formData : ListingFormData)
  : list (jsstring * jsstring) :=
  (if blank (asin formData)
   then [(lit "asin", lit "ASINは必須です")] else [])
  ++ (if blank (title formData)
      then [(lit "title", lit "商品名は必須です")] else [])
  ++ (if blank (listing_price formData)
      then [(lit "listing_price", lit "出品価格は必須です")] else []).

(** [s.trim() || undefined] and [s.trim() || other]. *)
Definition trimmed_or (s : jsstring) (other : JSValue Num) : JSValue Num :=
  js_or (JStr (trim s)) other.

Definition form_payload (formData : ListingFormData) : JSValue Num :=
  JObj
    [ (lit "asin", JStr (trim (asin formData)));
      (lit "jp_asin",
       trimmed_or (jp_asin formData) (JStr (trim (asin formData))));
      (lit "us_asin", trimmed_or (us_asin formData) JUndefined);
      (lit "title", JStr (trim (title formData)));
      (lit "listing_price",
       JNum (number_or (JStr (listing_price formData)) 0));
      (lit "jp_price", JNum (number_or (JStr (jp_price formData)) 0));
      (lit "us_price", JNum (number_or (JStr (us_price formData)) 0));
      (lit "category", trimmed_or (category formData) JUndefined);
      (lit "manufacturer", trimmed_or (manufacturer formData) JUndefined);
      (lit "source_url", trimmed_or (source_url formData) JUndefined);
      (lit "minimum_profit_threshold",
       JNum (number_or (JStr (minimum_profit_threshold formData)) 3000));
      (lit "validate", JBool true) ].

(** The toast text of the [catch] block. *)
Definition failure_description (error : Exn Num) : jsstring :=
  let fallback := lit "商品の追加に失敗しました" in
  let message := match error with
                 | ApiError m _ _ => m
                 | _ => error_text error
                 end in
  match error with
  | ApiError _ _ (JObj details) =>
    match get details (lit "errors") with
    | JArr items => array_join (lit "、") items
    | _ => if Nat.eqb (length message) 0 then fallback else message
    end
  | _ => if Nat.eqb (length message) 0 then fallback else message
  end.

(** [handleCreateListing]: [create payload] is what the create request
    settles to. *)
Definition handleCreateListing (formData : ListingFormData)
    (create : JSValue Num -> Result Num (JSValue Num)) : list Effect :=
  let errors := validateForm formData in
  if Nat.ltb 0 (length errors) then [SetFormErrors errors]
  else
    let payload := form_payload formData in
    [SetCreating true; Create payload]
    ++ match create payload with
       | Return response =>
         match get_prop response (lit "success") with
         | Some success =>
           if truthy success then
             [ Toast (lit "成功") (lit "商品を追加しました") false;
               SetAddDialogOpen false; ResetFormData; SetFormErrors [];
               LoadListings ]
           else
             [Toast (lit "エラー") (lit "商品の追加に失敗しました") true]
         | None => [Toast (lit "エラー") (failure_description TypeError) true]
         end
       | Throw error =>
         [Toast (lit "エラー") (failure_description error) true]
       end
    ++ [SetCreating false].

End WithRuntime.

End Products.

(* ================================================================== *)
(** * The research page (Research)                                    *)
(* ================================================================== *)

Module Research.
Import JS Api.

Section WithRuntime.

Context {Num : Type} {NumOps : JSNumber Num}.

(** The message text of an error the runtime throws. *)
Variable error_text : Exn Num -> jsstring.

Inductive Effect : Type :=
| Toast (title description : jsstring) (destructive : bool)
| SetLoading (b : bool)
| SetError (message : option jsstring)
| SetResults (data : option (JSValue Num))
| Fetch (request : Request (Num:=Num)).

(** The pattern of [handleSearch]: from the start of the input, [n]
    characters of the class, then the end of the input. *)
Fixpoint repeat_class (cls : char -> bool) (n : nat) (s : jsstring) : bool :=
  match n with
  | O => match s with [] => true | _ :: _ => false end
  | S n' => match s with
            | c :: r => cls c && repeat_class cls n' r
            | [] => false
            end
  end.

Definition is_upper_alnum (c : char) : bool :=
  (N.leb 65 c && N.leb c 90) || (N.leb 48 c && N.leb c 57).

Definition asin_pattern (s : jsstring) : bool :=
  repeat_class is_upper_alnum 10 s.

Definition compare_request (asin : jsstring) : Request :=
  {| req_url := lit "/api/compare/us-jp";
     req_method := Some (lit "POST");
     req_headers := [(lit "Content-Type", lit "application/json")];
     req_body := Some (JObj [ (lit "asin", JStr (trim asin));
                              (lit "us_asin", JStr (trim asin));
                              (lit "exchange_rate", JNum (num_of_Z 150)) ]) |}.

Definition search_failed : jsstring := lit "検索に失敗しました".

(** [new Error(data.error || fallback)], thrown. *)
Definition throw_error_of (data : JSValue Num) : Result Num (list Effect) :=
  match get_prop data (lit "error") with
  | None => Throw TypeError
  | Some err => Throw (PlainError (to_string (js_or err (JStr search_failed))))
  end.

(** The [try] block after the request went out. *)
Definition on_response (fetched : Fetched) : Result Num (list Effect) :=
  match fetched with
  | NetworkFailure => Throw TypeError
  | Received response =>
    match resp_json response with
    | None => Throw SyntaxError
    | Some data =>
      if negb (resp_ok response) then throw_error_of data
      else match get_prop data (lit "success") with
           | None => Throw TypeError
           | Some success =>
             if truthy success then
               Return [ SetResults (Some data);
                        Toast (lit "成功") (lit "商品情報を取得しました") false ]
             else throw_error_of data
           end
    end
  end.

Definition message_of (e : Exn Num) : jsstring :=
  match e with
  | ApiError m _ _ => m
  | PlainError m => m
  | _ => error_text e
  end.

(** [handleSearch]: [asin] is the input's content, [fetch] the network. *)
Definition handleSearch (asin : jsstring) (fetch : Request -> Fetched)
  : list Effect :=
  if Nat.eqb (length (trim asin)) 0 then
    [Toast (lit "エラー") (lit "ASINを入力してください") true]
  else if negb (asin_pattern (trim asin)) then
    [Toast (lit "エラー")
       (lit "有効なASINを入力してください（10文字の英数字）") true]
  else
    [ SetLoading true; SetError None; SetResults None;
      Fetch (compare_request asin) ]
    ++ match on_response (fetch (compare_request asin)) with
       | Return effects => effects
       | Throw err =>
         [ SetError (Some (message_of err));
           Toast (lit "エラー") (message_of err) true ]
       end
    ++ [SetLoading false].

End WithRuntime.

End Research.

(* ================================================================== *)
(** * The blacklist page (Blacklist)                                  *)
(* ================================================================== *)

Module Blacklist.
Import JS Api.

Section WithRuntime.

Context {Num : Type} {NumOps : JSNumber Num}.

(** [String.prototype.toUpperCase], a built-in. *)
Variable toUpperCase : jsstring -> jsstring.

Record BlacklistEntryItem : Type := {
  id : JSValue Num;
  value : JSValue Num;
  reason : JSValue Num;
  severity : JSValue Num;
  type : JSValue Num
}.

Record BlacklistState : Type := {
  asins : list BlacklistEntryItem;
  brands : list BlacklistEntryItem;
  keywords : list BlacklistEntryItem
}.

Inductive EntryType : Type := asin | brand | keyword.

Definition type_name (t : EntryType) : jsstring :=
  match t with
  | asin => lit "asin"
  | brand => lit "brand"
  | keyword => lit "keyword"
  end.

Record CreateRequest : Type := {
  create_type : EntryType;
  create_value : jsstring;
  create_reason : jsstring;
  create_severity : jsstring
}.

Inductive Effect : Type :=
| Toast (title description : jsstring) (destructive : bool)
| SetLoading (b : bool)
| SetBlacklist (state : BlacklistState)
| SetProcessingAction (action : option jsstring)
| Create (request : CreateRequest)
| ClearInput (t : EntryType)
| LoadBlacklist.

(** ** loadBlacklist *)

(** [e.k] for [e : any], with [undefined] where the read would throw;
    used only behind a read that did not. *)
Definition prop (e : JSValue Num) (k : string) : JSValue Num :=
  match get_prop e (lit k) with
  | Some v => v
  | None => JUndefined
  end.

Definition toEntry (entry : JSValue Num) : BlacklistEntryItem :=
  {| id := prop entry "entry_id";
     value := prop entry "value";
     reason := prop entry "reason";
     severity := prop entry "severity";
     type := prop entry "entry_type" |}.

(** A filter callback: it reads [e.entry_type], which throws on [null]. *)
Definition type_among (names : list string) (e : JSValue Num)
  : Result Num bool :=
  match get_prop e (lit "entry_type") with
  | None => Throw TypeError
  | Some t => Return (existsb (fun n => is_string t (lit n)) names)
  end.

(** [transformed], for [entries = response.entries || []]. *)
Definition transform (entries : JSValue Num) : Result Num BlacklistState :=
  match js_or entries (JArr []) with
  | JArr items =>
    bind (filter_result (type_among ["asin"%string]) items) (fun a =>
    bind (filter_result (type_among ["brand"; "manufacturer"]%string) items)
         (fun b =>
    bind (filter_result (type_among ["keyword"%string]) items) (fun k =>
    Return {| asins := List.map toEntry a;
              brands := List.map toEntry b;
              keywords := List.map toEntry k |})))
  | _ => Throw TypeError
  end.

(** [loadBlacklist]: [getAll] is what [blacklistApi.getAll()] settles to. *)
Definition loadBlacklist (getAll : Result Num (JSValue Num)) : list Effect :=
  let failed :=
    [Toast (lit "エラー") (lit "ブラックリストの読み込みに失敗しました") true] in
  [SetLoading true]
  ++ match getAll with
     | Throw _ => failed
     | Return response =>
       match get_prop response (lit "success"),
             get_prop response (lit "entries") with
       | Some success, Some entries =>
         if truthy success then
           match transform entries with
           | Return state => [SetBlacklist state]
           | Throw _ => failed
           end
         else []
       | _, _ => failed
       end
     end
  ++ [SetLoading false].

(** ** Adding entries *)

Definition defaultReasons (t : EntryType) : jsstring :=
  match t with
  | asin => lit "手動で登録されたASIN"
  | brand => lit "手動で登録されたブランド"
  | keyword => lit "手動で登録されたキーワード"
  end.

Definition create_request (t : EntryType) (v : jsstring) : CreateRequest :=
  {| create_type := t;
     create_value := v;
     create_reason := defaultReasons t;
     create_severity := match t with
                        | keyword => lit "medium"
                        | _ => lit "high"
                        end |}.

Definition count_text (n : nat) : jsstring :=
  num_to_string (num_of_Z (Z.of_nat n)).

(** The [for] loop with its [await]: the [index]-th request goes out, and
    when it rejects the loop is left for the [catch] block. [total] is
    [cleanedValues.length]. *)
Fixpoint create_each (t : EntryType) (total index : nat)
    (create : nat -> CreateRequest -> Result Num (JSValue Num))
    (values : list jsstring) : list Effect :=
  match values with
  | [] =>
    [ Toast (lit "成功") (count_text total ++ lit "件を追加しました") false;
      ClearInput t; LoadBlacklist ]
  | v :: rest =>
    Create (create_request t v)
    :: match create index (create_request t v) with
       | Return _ => create_each t total (S index) create rest
       | Throw _ =>
         [Toast (lit "エラー") (lit "ブラックリストの追加に失敗しました") true]
       end
  end.

Definition cleaned (values : list jsstring) : list jsstring :=
  filter (fun v => Nat.ltb 0 (length v)) (List.map trim values).

Definition handleAddEntries (t : EntryType) (values : list jsstring)
    (create : nat -> CreateRequest -> Result Num (JSValue Num))
  : list Effect :=
  let cleanedValues := cleaned values in
  if Nat.eqb (length cleanedValues) 0 then
    [Toast (lit "エラー") (lit "追加する内容を入力してください") true]
  else
    [SetProcessingAction (Some (lit "add-" ++ type_name t))]
    ++ create_each t (length cleanedValues) 0 create cleanedValues
    ++ [SetProcessingAction None].

(** [newKeyword.split] on a line feed with an optional carriage return
    before it, an ASCII comma, or an ideographic comma. *)
Fixpoint split_keywords (s : jsstring) : list jsstring :=
  match s with
  | [] => [[]]
  | c :: r =>
    if N.eqb c LF then [] :: split_keywords r
    else if N.eqb c CR && starts_with_LF r then split_keywords r
    else if N.eqb c COMMA || N.eqb c IDEOGRAPHIC_COMMA
    then [] :: split_keywords r
    else match split_keywords r with
         | p :: ps => (c :: p) :: ps
         | [] => [[c]]
         end
  end.

Definition handleAddAsin (newAsin : jsstring) :=
  handleAddEntries asin [toUpperCase newAsin].

Definition handleAddBrand (newBrand : jsstring) :=
  handleAddEntries brand [newBrand].

Definition handleAddKeywords (newKeyword : jsstring) :=
  handleAddEntries keyword (split_keywords newKeyword).

End WithRuntime.

End Blacklist.

(* ================================================================== *)
(** * The dashboard (Dashboard)                                       *)
(* ================================================================== *)

Module Dashboard.
Import JS Api.

Section WithRuntime.

Context {Num : Type} {NumOps : JSNumber Num}.

Record Stats : Type := {
  activeListings : nat;
  totalRevenue : JSValue Num;
  totalProfit : JSValue Num;
  outOfStock : nat
}.

Inductive Effect : Type :=
| SetLoading (b : bool)
| SetStats (stats : Stats).


(** [l.k], behind a filter that read a property of [l] already. *)
Definition prop (l : JSValue Num) (k : string) : JSValue Num :=
  match get_prop l (lit k) with
  | Some v => v
  | None => JUndefined
  end.

(** [listings.reduce((sum, l) => sum + (l.k || 0), 0)]. *)
Definition total (k : string) (listings : list (JSValue Num)) : JSValue Num :=
  fold_left (fun sum l => js_add sum (js_or (prop l k) (JNum (num_of_Z 0))))
            listings (JNum (num_of_Z 0)).



End WithRuntime.

End Dashboard.

(* ================================================================== *)
(** * The product list page: loading, searching, toggling, deleting   *)
(* ================================================================== *)

Module Listings.
Import JS Api.

Section WithRuntime.

Context {Num : Type} {NumOps : JSNumber Num}.

(** [String.prototype.toLowerCase], a built-in. *)
Variable toLowerCase : jsstring -> jsstring.

Inductive Effect : Type :=
| Toast (title description : jsstring) (destructive : bool)
| SetLoading (b : bool)
| SetListings (listings : list (jsobject Num))
| AddProcessing (id : jsstring)
| RemoveProcessing (id : jsstring)
| Update (id : jsstring) (body : JSValue Num)
| Delete (id : jsstring)
| LoadListings.

(** ** loadListings *)

(** The callback of [map]: it reads [listing.listing_id] first, which
    throws on [null]; the other reads are behind it. *)
Definition normalize (listing : JSValue Num) : Result Num (jsobject Num) :=
  match get_prop listing (lit "listing_id") with
  | None => Throw TypeError
  | Some listing_id =>
    let read k := match get_prop listing (lit k) with
                  | Some v => v
                  | None => JUndefined
                  end in
    Return [ (lit "id", listing_id);
             (lit "asin", read "asin"%string);
             (lit "title", read "title"%string);
             (lit "listing_price",
              js_coalesce (read "listing_price"%string) (JNum (num_of_Z 0)));
             (lit "profit", read "profit_amount"%string);
             (lit "status", read "status"%string);
             (lit "stock_status", read "stock_status"%string);
             (lit "jp_price", read "jp_price"%string);
             (lit "us_price", read "us_price"%string) ]
  end.

(** [response.listings.map(...)]: what has no [map] cannot be called. *)
Definition normalized (listings : JSValue Num)
  : Result Num (list (jsobject Num)) :=
  match listings with
  | JArr items => map_result normalize items
  | _ => Throw TypeError
  end.

(** [loadListings]: [getAll] is what [listingsApi.getAll()] settles to. *)
Definition loadListings (getAll : Result Num (JSValue Num)) : list Effect :=
  let failed :=
    [Toast (lit "エラー") (lit "商品一覧の読み込みに失敗しました") true] in
  [SetLoading true]
  ++ match getAll with
     | Throw _ => failed
     | Return response =>
       match get_prop response (lit "success"),
             get_prop response (lit "listings") with
       | Some success, Some listings =>
         if truthy success && truthy listings then
           match normalized listings with
           | Return l => [SetListings l]
           | Throw _ => failed
           end
         else []
       | _, _ => failed
       end
     end
  ++ [SetLoading false].

(** ** filteredListings *)

Fixpoint starts_with (t s : jsstring) : bool :=
  match t with
  | [] => true
  | x :: t' => match s with
               | y :: s' => N.eqb x y && starts_with t' s'
               | [] => false
               end
  end.

(** [s.includes(t)]. *)
Fixpoint includes (s t : jsstring) : bool :=
  starts_with t s
  || match s with
     | [] => false
     | _ :: r => includes r t
     end.

(** [listing.k.toLowerCase().includes(term)]: only a string has
    [toLowerCase]. *)
Definition field_includes (listing : jsobject Num) (k : string)
    (term : jsstring) : Result Num bool :=
  match get listing (lit k) with
  | JStr s => Return (includes (toLowerCase s) term)
  | _ => Throw TypeError
  end.

(** The callback of [filter]. *)
Definition matches (searchTerm : jsstring) (listing : jsobject Num)
  : Result Num bool :=
  if Nat.eqb (length searchTerm) 0 then Return true
  else
    let term := toLowerCase searchTerm in
    bind (field_includes listing "asin" term) (fun in_asin =>
    if in_asin then Return true else field_includes listing "title" term).

Definition filteredListings (searchTerm : jsstring)
    (listings : list (jsobject Num)) : Result Num (list (jsobject Num)) :=
  filter_result (matches searchTerm) listings.

(** ** processingIds, a [Set] of listing ids in insertion order *)

Definition has (ids : list jsstring) (id : jsstring) : bool :=
  existsb (str_eqb id) ids.

(** [new Set(prev).add(id)]. *)
Definition add (ids : list jsstring) (id : jsstring) : list jsstring :=
  if has ids id then ids else ids ++ [id].

(** [next.delete(id)] on a copy. *)
Definition delete (ids : list jsstring) (id : jsstring) : list jsstring :=
  filter (fun x => negb (str_eqb id x)) ids.

(** The [processingIds] after the updates among [effects], applied in
    order to [prev]. *)
Fixpoint processing_after (effects : list Effect) (prev : list jsstring)
  : list jsstring :=
  match effects with
  | [] => prev
  | AddProcessing id :: rest => processing_after rest (add prev id)
  | RemoveProcessing id :: rest => processing_after rest (delete prev id)
  | _ :: rest => processing_after rest prev
  end.

(** ** handleToggleStatus and handleDelete *)

Definition newStatus (status : JSValue Num) : jsstring :=
  if is_string status (lit "active") then lit "paused" else lit "active".

(** [handleToggleStatus]: [id] and [status] are the two fields read of
    the listing; [update] is what [listingsApi.update] settles to. *)
Definition handleToggleStatus (id : jsstring) (status : JSValue Num)
    (update : Result Num (JSValue Num)) : list Effect :=
  [ AddProcessing id;
    Update id (JObj [(lit "status", JStr (newStatus status))]) ]
  ++ match update with
     | Return _ =>
       [ Toast (lit "成功")
           (lit "商品を"
            ++ (if str_eqb (newStatus status) (lit "active")
                then lit "再開" else lit "停止")
            ++ lit "しました") false;
         LoadListings ]
     | Throw _ =>
       [Toast (lit "エラー") (lit "ステータスの更新に失敗しました") true]
     end
  ++ [RemoveProcessing id].

(** [handleDelete]: [confirmed] is the answer to the [confirm] box. *)
Definition handleDelete (confirmed : bool) (listingId : jsstring)
    (deleted : Result Num (JSValue Num)) : list Effect :=
  if negb confirmed then []
  else
    [AddProcessing listingId; Delete listingId]
    ++ match deleted with
       | Return _ =>
         [Toast (lit "成功") (lit "商品を削除しました") false; LoadListings]
       | Throw _ =>
         [Toast (lit "エラー") (lit "商品の削除に失敗しました") true]
       end
    ++ [RemoveProcessing listingId].

End WithRuntime.

End Listings.

(* ================================================================== *)
(** * The add-product dialog: typing and closing                      *)
(* ================================================================== *)

Module Form.
Import JS Api Products.

(** [keyof ListingFormData]. *)
Inductive Field : Type :=
| f_asin | f_jp_asin | f_us_asin | f_title | f_listing_price | f_jp_price
| f_us_price | f_category | f_manufacturer | f_source_url
| f_minimum_profit_threshold.

Definition field_name (f : Field) : jsstring :=
  match f with
  | f_asin => lit "asin"
  | f_jp_asin => lit "jp_asin"
  | f_us_asin => lit "us_asin"
  | f_title => lit "title"
  | f_listing_price => lit "listing_price"
  | f_jp_price => lit "jp_price"
  | f_us_price => lit "us_price"
  | f_category => lit "category"
  | f_manufacturer => lit "manufacturer"
  | f_source_url => lit "source_url"
  | f_minimum_profit_threshold => lit "minimum_profit_threshold"
  end.

(** [formData[field]]. *)
Definition read (fd : ListingFormData) (f : Field) : jsstring :=
  match f with
  | f_asin => asin fd
  | f_jp_asin => jp_asin fd
  | f_us_asin => us_asin fd
  | f_title => title fd
  | f_listing_price => listing_price fd
  | f_jp_price => jp_price fd
  | f_us_price => us_price fd
  | f_category => category fd
  | f_manufacturer => manufacturer fd
  | f_source_url => source_url fd
  | f_minimum_profit_threshold => minimum_profit_threshold fd
  end.

(** The spread of [prev] with [field] replaced by [value]. *)
Definition write (fd : ListingFormData) (f : Field) (v : jsstring)
  : ListingFormData :=
  let pick g := if match f, g with
                   | f_asin, f_asin | f_jp_asin, f_jp_asin
                   | f_us_asin, f_us_asin | f_title, f_title
                   | f_listing_price, f_listing_price
                   | f_jp_price, f_jp_price | f_us_price, f_us_price
                   | f_category, f_category
                   | f_manufacturer, f_manufacturer
                   | f_source_url, f_source_url
                   | f_minimum_profit_threshold, f_minimum_profit_threshold
                     => true
                   | _, _ => false
                   end
                then v else read fd g in
  {| asin := pick f_asin;
     jp_asin := pick f_jp_asin;
     us_asin := pick f_us_asin;
     title := pick f_title;
     listing_price := pick f_listing_price;
     jp_price := pick f_jp_price;
     us_price := pick f_us_price;
     category := pick f_category;
     manufacturer := pick f_manufacturer;
     source_url := pick f_source_url;
     minimum_profit_threshold := pick f_minimum_profit_threshold |}.

(** The updater of [setFormErrors]: when [prev] has no message for the
    field (none, or an empty one) it is returned as it is, else a copy
    without the field. *)
Definition clear_error (prev : list (jsstring * jsstring)) (f : Field)
  : list (jsstring * jsstring) :=
  match lookup prev (field_name f) with
  | Some (_ :: _) =>
    filter (fun kv => negb (str_eqb (fst kv) (field_name f))) prev
  | _ => prev
  end.

(** [handleInputChange] on the pair of [formData] and [formErrors]. *)
Definition handleInputChange (f : Field) (v : jsstring)
    (state : ListingFormData * list (jsstring * jsstring))
  : ListingFormData * list (jsstring * jsstring) :=
  (write (fst state) f v, clear_error (snd state) f).

(** [onOpenChange] of the dialog on [addDialogOpen], [formData] and
    [formErrors]: closing empties the form and its errors. *)
Definition onOpenChange (open : bool)
    (state : bool * ListingFormData * list (jsstring * jsstring))
  : bool * ListingFormData * list (jsstring * jsstring) :=
  if open then (open, snd (fst state), snd state)
  else (open, emptyFormState, []).

(** The same three pieces of state after the updates among the effects
    of a handler of the page, applied in order. *)
Fixpoint dialog_after {Num : Type} (effects : list (Effect (Num:=Num)))
    (state : bool * ListingFormData * list (jsstring * jsstring))
  : bool * ListingFormData * list (jsstring * jsstring) :=
  match effects with
  | [] => state
  | SetAddDialogOpen open :: rest =>
    dialog_after rest (open, snd (fst state), snd state)
  | ResetFormData :: rest =>
    dialog_after rest (fst (fst state), emptyFormState, snd state)
  | SetFormErrors errors :: rest => dialog_after rest (fst state, errors)
  | _ :: rest => dialog_after rest state
  end.

End Form.

(* ================================================================== *)
(** * The blacklist page: checking and deleting                       *)
(* ================================================================== *)

Module BlacklistActions.
Import JS Api.

Section WithRuntime.

Context {Num : Type} {NumOps : JSNumber Num}.

Inductive Effect : Type :=
| Toast (title description : jsstring) (destructive : bool)
| SetProcessingAction (action : option jsstring)
| CheckAsin (asin : jsstring)
| SetDeletingId (id : option jsstring)
| Delete (entryId : jsstring)
| LoadBlacklist.

(** [response.success && response.result && response.result.is_blacklisted],
    as a condition; reading [response.success] throws on [null]. *)
Definition is_blacklisted (response : JSValue Num) : Result Num bool :=
  match get_prop response (lit "success"),
        get_prop response (lit "result") with
  | Some success, Some result =>
    Return (truthy success && truthy result
            && match get_prop result (lit "is_blacklisted") with
               | Some b => truthy b
               | None => false
               end)
  | _, _ => Throw TypeError
  end.

(** [handleCheckAsin]: [check] is what [blacklistApi.check] settles to. *)
Definition handleCheckAsin (newAsin : jsstring)
    (check : Result Num (JSValue Num)) : list Effect :=
  if Nat.eqb (length (trim newAsin)) 0 then
    [Toast (lit "エラー") (lit "ASINを入力してください") true]
  else
    [SetProcessingAction (Some (lit "check")); CheckAsin (trim newAsin)]
    ++ match bind check is_blacklisted with
       | Return true =>
         [Toast (lit "警告")
            (lit "ASIN " ++ newAsin ++ lit " はブラックリストに登録されています")
            true]
       | Return false =>
         [Toast (lit "確認")
            (lit "ASIN " ++ newAsin ++ lit " はブラックリストに登録されていません")
            false]
       | Throw _ =>
         [Toast (lit "エラー") (lit "ASINのチェックに失敗しました") true]
       end
    ++ [SetProcessingAction None].

(** [handleDeleteEntry]: [deleted] is what [blacklistApi.delete] settles
    to. *)
Definition handleDeleteEntry (entryId : jsstring)
    (deleted : Result Num (JSValue Num)) : list Effect :=
  [SetDeletingId (Some entryId); Delete entryId]
  ++ match deleted with
     | Return _ =>
       [ Toast (lit "成功") (lit "ブラックリストから削除しました") false;
         LoadBlacklist ]
     | Throw _ =>
       [Toast (lit "エラー") (lit "ブラックリストの削除に失敗しました") true]
     end
  ++ [SetDeletingId None].

(** The [processingAction] and the [deletingId] after the updates among
    [effects], applied in order. *)
Fixpoint action_after (effects : list Effect) (prev : option jsstring)
  : option jsstring :=
  match effects with
  | [] => prev
  | SetProcessingAction action :: rest => action_after rest action
  | _ :: rest => action_after rest prev
  end.

Fixpoint deleting_after (effects : list Effect) (prev : option jsstring)
  : option jsstring :=
  match effects with
  | [] => prev
  | SetDeletingId id :: rest => deleting_after rest id
  | _ :: rest => deleting_after rest prev
  end.

End WithRuntime.

End BlacklistActions.

(* ================================================================== *)
(** * A sample runtime                                                *)
(* ================================================================== *)

(** One implementation of what the model takes from the browser, to run
    the handlers on concrete inputs: the integers among the numbers, with
    NaN, and a JSON reader for documents whose numbers are integers. *)

Module Sample.
Import JS Api.

Inductive IntNum : Type :=
| Int (z : Z)
| NaN.

Definition ascii_text (s : jsstring) : string :=
  string_of_list_ascii (List.map ascii_of_N s).

Definition print_int (n : IntNum) : jsstring :=
  match n with
  | Int z => lit (DecimalString.NilZero.string_of_int (Z.to_int z))
  | NaN => lit "NaN"
  end.

(** [Number(s)] on decimal integers; the empty text reads as zero. *)
Definition read_int (s : jsstring) : IntNum :=
  match trim s with
  | [] => Int 0
  | t => match DecimalString.NilZero.int_of_string (ascii_text t) with
         | Some d => Int (Z.of_int d)
         | None => NaN
         end
  end.

Definition add_int (a b : IntNum) : IntNum :=
  match a, b with
  | Int x, Int y => Int (x + y)
  | _, _ => NaN
  end.

#[global] Instance IntNumber : JSNumber IntNum.
Proof.
  refine {| num_of_Z := Int;
            num_nan := NaN;
            num_add := add_int;
            num_is_zero := fun n => match n with
                                    | Int z => Z.eqb z 0
                                    | NaN => false
                                    end;
            num_is_nan := fun n => match n with
                                   | Int _ => false
                                   | NaN => true
                                   end;
            num_to_string := print_int;
            num_of_string := read_int |}; reflexivity.
Defined.

Definition value := JSValue IntNum.

(** ** A JSON reader *)

Open Scope N_scope.

Fixpoint skip_ws (s : jsstring) : jsstring :=
  match s with
  | c :: r => if (c =? 32) || (c =? 9) || (c =? 10) || (c =? 13)
              then skip_ws r else s
  | [] => []
  end.

Fixpoint expect (word rest : jsstring) : option jsstring :=
  match word with
  | [] => Some rest
  | w :: word' => match rest with
                  | c :: rest' => if c =? w then expect word' rest' else None
                  | [] => None
                  end
  end.

Definition is_digit (c : char) : bool := (48 <=? c) && (c <=? 57).

Fixpoint read_digits (acc : Z) (s : jsstring) : Z * jsstring :=
  match s with
  | c :: r => if is_digit c
              then read_digits (acc * 10 + Z.of_N (c - 48))%Z r
              else (acc, s)
  | [] => (acc, [])
  end.

(** Digits without a leading zero, and no fraction or exponent after. *)
Definition read_number (negative : bool) (s : jsstring)
  : option (value * jsstring) :=
  match s with
  | c :: r =>
    if is_digit c then
      let '(z, rest) := if c =? 48 then (0%Z, r) else read_digits 0 s in
      match rest with
      | d :: _ => if is_digit d || (d =? 46) || (d =? 101) || (d =? 69)
                  then None
                  else Some (JNum (Int (if negative then - z else z)), rest)
      | [] => Some (JNum (Int (if negative then - z else z)), rest)
      end
    else None
  | [] => None
  end.

Definition hex_digit (c : char) : option N :=
  if is_digit c then Some (c - 48)
  else if (97 <=? c) && (c <=? 102) then Some (c - 87)
  else if (65 <=? c) && (c <=? 70) then Some (c - 55)
  else None.

(** After the opening quote, up to the closing one. *)
Fixpoint read_string (s : jsstring) : option (jsstring * jsstring) :=
  match s with
  | [] => None
  | c :: r =>
    if c =? QUOTE then Some ([], r)
    else if c <? 32 then None
    else if c =? 92 then
      match r with
      | e :: r1 =>
        let plain (x : char) :=
          option_map (fun p => (x :: fst p, snd p)) (read_string r1) in
        if e =? 34 then plain 34 else if e =? 92 then plain 92
        else if e =? 47 then plain 47 else if e =? 98 then plain 8
        else if e =? 102 then plain 12 else if e =? 110 then plain 10
        else if e =? 114 then plain 13 else if e =? 116 then plain 9
        else if e =? 117 then
          match r1 with
          | h1 :: ((h2 :: ((h3 :: ((h4 :: r5) as r4)) as r3)) as r2) =>
            match hex_digit h1, hex_digit h2, hex_digit h3, hex_digit h4 with
            | Some a, Some b, Some c', Some d =>
              option_map
                (fun p => ((a * 4096 + b * 256 + c' * 16 + d) :: fst p, snd p))
                (read_string r5)
            | _, _, _, _ => None
            end
          | _ => None
          end
        else None
      | [] => None
      end
    else option_map (fun p => (c :: fst p, snd p)) (read_string r)
  end.

(** A member before the members read after it: the key keeps its first
    place, and a later member of the same key gives the value. *)
Definition add_member (k : jsstring) (v : value)
    (later : list (jsstring * value)) : list (jsstring * value) :=
  let others := filter (fun kv => negb (str_eqb (fst kv) k)) later in
  match filter (fun kv => str_eqb (fst kv) k) later with
  | (_, v') :: _ => (k, v') :: others
  | [] => (k, v) :: others
  end.

(** A value at the start of [s], with what follows it; [fuel] bounds the
    nesting and the number of elements read. *)
Fixpoint read_value (fuel : nat) (s : jsstring) : option (value * jsstring) :=
  match fuel with
  | O => None
  | S fuel' =>
    match skip_ws s with
    | [] => None
    | c :: r =>
      if c =? 110 then option_map (pair JNull) (expect (lit "ull") r)
      else if c =? 116 then option_map (pair (JBool true)) (expect (lit "rue") r)
      else if c =? 102 then option_map (pair (JBool false)) (expect (lit "alse") r)
      else if c =? QUOTE then
        option_map (fun p => (JStr (fst p), snd p)) (read_string r)
      else if c =? 45 then read_number true r
      else if is_digit c then read_number false (c :: r)
      else if c =? 91 then
        match skip_ws r with
        | 93 :: rest => Some (JArr [], rest)
        | _ => option_map (fun p => (JArr (fst p), snd p)) (read_items fuel' r)
        end
      else if c =? 123 then
        match skip_ws r with
        | 125 :: rest => Some (JObj [], rest)
        | _ => option_map (fun p => (JObj (fst p), snd p)) (read_members fuel' r)
        end
      else None
    end
  end

with read_items (fuel : nat) (s : jsstring)
  : option (list value * jsstring) :=
  match fuel with
  | O => None
  | S fuel' =>
    match read_value fuel' s with
    | Some (v, rest) =>
      match skip_ws rest with
      | 93 :: rest' => Some ([v], rest')
      | 44 :: rest' =>
        option_map (fun p => (v :: fst p, snd p)) (read_items fuel' rest')
      | _ => None
      end
    | None => None
    end
  end

with read_members (fuel : nat) (s : jsstring)
  : option (list (jsstring * value) * jsstring) :=
  match fuel with
  | O => None
  | S fuel' =>
    match skip_ws s with
    | 34 :: r =>
      match read_string r with
      | Some (k, rest) =>
        match skip_ws rest with
        | 58 :: rest1 =>
          match read_value fuel' rest1 with
          | Some (v, rest2) =>
            match skip_ws rest2 with
            | 125 :: rest' => Some ([(k, v)], rest')
            | 44 :: rest' =>
              option_map (fun p => (add_member k v (fst p), snd p))
                         (read_members fuel' rest')
            | _ => None
            end
          | None => None
          end
        | _ => None
        end
      | None => None
      end
    | _ => None
    end
  end.

Close Scope N_scope.

(** The whole text must be one value. The fuel is twice the length of the
    text: a level of nesting takes two units and at least two characters,
    its brackets. *)
Definition JSON_parse (text : jsstring) : option value :=
  match read_value (2 * length text + 2) text with
  | Some (v, rest) => match skip_ws rest with
                      | [] => Some v
                      | _ :: _ => None
                      end
  | None => None
  end.

Definition native_key (name : jsstring) : jsstring :=
  lit "function " ++ name ++ lit "() { [native code] }".

Definition error_text (e : Exn IntNum) : jsstring :=
  match e with
  | ApiError m _ _ => m
  | PlainError m => m
  | TypeError => lit "TypeError"
  | SyntaxError => lit "SyntaxError"
  end.

(** ASCII letters only. *)
Definition toUpperCase (s : jsstring) : jsstring :=
  List.map (fun c => if N.leb 97 c && N.leb c 122 then N.sub c 32 else c) s.

(** ** Sample listings *)

Definition listing_with_title (t : jsstring) : jsobject IntNum :=
  [ (lit "id", JStr (lit "L-1"));
    (lit "asin", JStr (lit "B08N5WRWNW"));
    (lit "title", JStr t);
    (lit "listing_price", JNum (Int 1980));
    (lit "profit", JNum (Int 300));
    (lit "status", JStr (lit "active"));
    (lit "stock_status", JStr (lit "in_stock"));
    (lit "jp_price", JNum (Int 1200));
    (lit "us_price", JUndefined) ].

Definition plain_listing : jsobject IntNum :=
  listing_with_title (lit "USB cable").

(** A title with a quoted word in it. *)
Definition quoting_listing : jsobject IntNum :=
  listing_with_title (lit "Cable " ++ [QUOTE] ++ lit "Pro" ++ [QUOTE] ++ lit " 2m").

(** A title that starts with a space. *)
Definition padded_listing : jsobject IntNum :=
  listing_with_title (lit " USB cable").

(** A title with a quote right before a comma: six inches, black. *)
Definition inch_listing : jsobject IntNum :=
  listing_with_title (lit "Cable 6" ++ [QUOTE] ++ lit ", black").


(** ** Sample records and responses *)



(** A price of zero. *)
Definition free_record : jsobject IntNum :=
  [ (lit "asin", JStr (lit "B08N5WRWNW"));
    (lit "title", JStr (lit "USB cable"));
    (lit "listing_price", JNum (Int 0)) ].

Definition response_with (ok : bool) (status : Z) (body : value)
  : Response (Num:=IntNum) :=
  {| resp_ok := ok; resp_status := Int status; resp_json := Some body |}.

(** A server that answers every request with the same response. *)
Definition always (r : Response (Num:=IntNum)) : Request (Num:=IntNum) -> Fetched :=
  fun _ => Received r.



Definition errors_body : value :=
  JObj [ (lit "success", JBool false);
         (lit "errors", JArr [JStr (lit "ASIN is required");
                              JStr (lit "title is required")]) ].

(** ** Sample responses of the blacklist and listings endpoints *)

Definition entry (entry_id entry_type v : string) : value :=
  JObj [ (lit "entry_id", JStr (lit entry_id));
         (lit "entry_type", JStr (lit entry_type));
         (lit "value", JStr (lit v));
         (lit "reason", JNull);
         (lit "severity", JStr (lit "high")) ].

Definition blacklist_response : value :=
  JObj [ (lit "success", JBool true);
         (lit "entries",
          JArr [ entry "e1" "asin" "B08N5WRWNW";
                 entry "e2" "brand" "Acme";
                 entry "e3" "keyword" "replica";
                 entry "e4" "manufacturer" "Acme Works";
                 entry "e5" "category" "Weapons";
                 entry "e6" "asin" "B000000001" ]) ].

Definition listing (status stock : string) (revenue profit : value) : value :=
  JObj [ (lit "status", JStr (lit status));
         (lit "stock_status", JStr (lit stock));
         (lit "revenue", revenue);
         (lit "profit", profit) ].


(** Create requests that all resolve, and that all reject. *)
Definition accept_all {A : Type} : nat -> A -> Result IntNum value :=
  fun _ _ => Return (JObj [(lit "success", JBool true)]).

Definition reject_all {A : Type} : nat -> A -> Result IntNum value :=
  fun _ _ => Throw (ApiError (lit "HTTP error! status: 500") (Int 500) JNull).

Definition item (entry_id entry_type v : string)
  : Blacklist.BlacklistEntryItem (Num:=IntNum) :=
  {| Blacklist.id := JStr (lit entry_id);
     Blacklist.value := JStr (lit v);
     Blacklist.reason := JNull;
     Blacklist.severity := JStr (lit "high");
     Blacklist.type := JStr (lit entry_type) |}.

(** The state the sample blacklist response loads. *)
Definition blacklist_state : Blacklist.BlacklistState (Num:=IntNum) :=
  {| Blacklist.asins := [ item "e1" "asin" "B08N5WRWNW";
                          item "e6" "asin" "B000000001" ];
     Blacklist.brands := [ item "e2" "brand" "Acme";
                           item "e4" "manufacturer" "Acme Works" ];
     Blacklist.keywords := [ item "e3" "keyword" "replica" ] |}.


(** ** Sample files, forms and inputs *)

(** Three headers; a row of two values, a row of commas only, and a
    full row. *)
Definition short_rows_file : jsstring :=
  lit "ASIN,title,listing_price" ++ [LF]
  ++ lit "B08N5WRWNW,Cable" ++ [CR; LF]
  ++ lit ",,," ++ [LF]
  ++ lit "B000000001,Adapter,2480".

Definition filled_form : Products.ListingFormData :=
  {| Products.asin := lit " B08N5WRWNW ";
     Products.jp_asin := [];
     Products.us_asin := [];
     Products.title := lit "USB cable";
     Products.listing_price := lit "1980";
     Products.jp_price := [];
     Products.us_price := lit "9";
     Products.category := [];
     Products.manufacturer := [];
     Products.source_url := [];
     Products.minimum_profit_threshold := lit "3000" |}.

Definition untitled_form : Products.ListingFormData :=
  {| Products.asin := lit "B08N5WRWNW";
     Products.jp_asin := [];
     Products.us_asin := [];
     Products.title := lit "   ";
     Products.listing_price := lit "1980";
     Products.jp_price := [];
     Products.us_price := [];
     Products.category := [];
     Products.manufacturer := [];
     Products.source_url := [];
     Products.minimum_profit_threshold := lit "3000" |}.

Definition success_body : value := JObj [(lit "success", JBool true)].

(** Keywords on two lines, with both kinds of comma and an empty piece. *)
Definition keyword_input : jsstring :=
  lit "replica, fake" ++ [CR; LF] ++ lit "コピー、 ,偽物".

(** ** More samples: files, responses and listings *)

(** The text with every apostrophe turned into a double quote. *)
Definition quotes (s : string) : jsstring :=
  List.map (fun c => if N.eqb c 39 then QUOTE else c) (lit s).

(** Two records as JSON; the asin of the second is a number. *)
Definition mixed_file : jsstring :=
  quotes ("[{'asin':'B000000001','title':'Adapter','listing_price':2480},"
          ++ "{'asin':5,'title':'Cable','listing_price':1980}]").

Definition adapter_record : value :=
  JObj [ (lit "asin", JStr (lit "B000000001"));
         (lit "title", JStr (lit "Adapter"));
         (lit "listing_price", JNum (Int 2480)) ].

Definition numeric_asin_record : value :=
  JObj [ (lit "asin", JNum (Int 5));
         (lit "title", JStr (lit "Cable"));
         (lit "listing_price", JNum (Int 1980)) ].

(** The payload of the full row of [short_rows_file]. *)
Definition adapter_payload : value :=
  JObj [ (lit "asin", JStr (lit "B000000001"));
         (lit "jp_asin", JStr (lit "B000000001"));
         (lit "us_asin", JUndefined);
         (lit "title", JStr (lit "Adapter"));
         (lit "listing_price", JNum (Int 2480));
         (lit "jp_price", JNum (Int 0));
         (lit "us_price", JNum (Int 0));
         (lit "category", JUndefined);
         (lit "manufacturer", JUndefined);
         (lit "source_url", JUndefined);
         (lit "minimum_profit_threshold", JNum (Int 3000));
         (lit "validate", JBool true) ].

(** ASCII letters only. *)
Definition toLowerCase (s : jsstring) : jsstring :=
  List.map (fun c => if N.leb 65 c && N.leb c 90 then N.add c 32 else c) s.

(** Listings as the server sends them; the second has no price. *)
Definition server_listing (listing_id asin title : string) (price : value)
  : value :=
  JObj [ (lit "listing_id", JStr (lit listing_id));
         (lit "asin", JStr (lit asin));
         (lit "title", JStr (lit title));
         (lit "listing_price", price);
         (lit "profit_amount", JNum (Int 300));
         (lit "status", JStr (lit "active"));
         (lit "stock_status", JStr (lit "in_stock")) ].

Definition unpriced_listing : value :=
  server_listing "L-2" "B000000001" "Adapter" JNull.

Definition server_listings : list value :=
  [ server_listing "L-1" "B08N5WRWNW" "USB cable" (JNum (Int 1980));
    unpriced_listing ].

Definition server_response : value :=
  JObj [(lit "success", JBool true); (lit "listings", JArr server_listings)].



(** A listing the page keeps whose asin is missing. *)
Definition nameless_listing : jsobject IntNum :=
  [ (lit "id", JStr (lit "L-3"));
    (lit "asin", JNull);
    (lit "title", JStr (lit "Charger")) ].

(** The answer of a blacklist check that failed on the server. *)
Definition failed_check : value :=
  JObj [(lit "success", JBool false); (lit "error", JStr (lit "unavailable"))].

(** The answer of a blacklist check that found the ASIN. *)
Definition positive_check : value :=
  JObj [ (lit "success", JBool true);
         (lit "result", JObj [(lit "is_blacklisted", JBool true)]) ].

(** A form after a submit that found the ASIN blank. *)
Definition unnamed_form : Products.ListingFormData :=
  {| Products.asin := lit "  ";
     Products.jp_asin := [];
     Products.us_asin := [];
     Products.title := lit "USB cable";
     Products.listing_price := lit "1980";
     Products.jp_price := [];
     Products.us_price := [];
     Products.category := [];
     Products.manufacturer := [];
     Products.source_url := [];
     Products.minimum_profit_threshold := lit "3000" |}.

(** A blacklist response with a [null] among its entries. *)
Definition holed_entries : list value :=
  [entry "e1" "asin" "B08N5WRWNW"; JNull; entry "e3" "keyword" "replica"].

Definition holed_blacklist : value :=
  JObj [(lit "success", JBool true); (lit "entries", JArr holed_entries)].



End Sample.

(* ================================================================== *)
(** * The claims, in the words of the specification                   *)
(* ================================================================== *)

(** Each definition here restates what a claim of the specification says;
    the theorems compare it with what the handlers compute. *)

Module Spec.
Import JS Api.

Section WithNumbers.

Context {Num : Type} {NumOps : JSNumber Num}.

(** ** The exported CSV *)

Definition csv_labels : list jsstring :=
  [ lit "ASIN"; lit "商品名"; lit "出品価格 (JPY)"; lit "利益 (JPY)";
    lit "ステータス"; lit "在庫ステータス"; lit "仕入れ価格 (JPY)";
    lit "仕入れ価格 (USD)" ].

Definition csv_keys : list jsstring :=
  [ lit "asin"; lit "title"; lit "listing_price"; lit "profit";
    lit "status"; lit "stock_status"; lit "jp_price"; lit "us_price" ].

(** The text of a field: nothing for [null], [undefined] or a missing
    field, else its string form. *)
Definition field_text (listing : jsobject Num) (key : jsstring) : jsstring :=
  match get listing key with
  | JUndefined | JNull => []
  | v => to_string v
  end.

(** A text between double quotes, each quote inside it doubled. *)
Definition quoted (text : jsstring) : jsstring :=
  [QUOTE]
  ++ flat_map (fun c => if N.eqb c QUOTE then [QUOTE; QUOTE] else [c]) text
  ++ [QUOTE].

Definition csv_line (listing : jsobject Num) : jsstring :=
  join [COMMA] (List.map (fun key => quoted (field_text listing key)) csv_keys).


(** ** Export, then import *)

(** After optional white space comes a comma. *)
Definition comma_after_spaces (s : jsstring) : bool :=
  match trimStart s with
  | c :: _ => N.eqb c COMMA
  | [] => false
  end.

(** No double quote of the text is followed by optional white space and
    a comma. *)
Fixpoint no_quote_before_comma (text : jsstring) : bool :=
  match text with
  | [] => true
  | c :: rest => negb (N.eqb c QUOTE && comma_after_spaces rest)
                 && no_quote_before_comma rest
  end.

(** A text the import reads back as it is: no line terminator in it, no
    quote before a comma, no white space at either end. *)
Definition importable (text : jsstring) : bool :=
  forallb (fun c => negb (is_line_terminator c)) text
  && no_quote_before_comma text
  && str_eqb (trim text) text.

Definition importable_listing (listing : jsobject Num) : bool :=
  forallb (fun key => importable (field_text listing key)) csv_keys.

(** No newline character in the text of any exported field. *)
Definition no_newline (listing : jsobject Num) : bool :=
  forallb (fun key =>
             forallb (fun c => negb (N.eqb c LF || N.eqb c CR))
                     (field_text listing key))
          csv_keys.

(** [result] is one record per listing, in order, and each record holds
    the text of the listing's field under every key of [keys]. *)
Definition reads_back (keys : list jsstring) (listings : list (jsobject Num))
    (result : Result Num (list (JSValue Num))) : Prop :=
  exists records,
    result = Return records
    /\ Forall2 (fun listing record =>
                  forall key, In key keys ->
                    get_prop record key = Some (JStr (field_text listing key)))
               listings records.

(** The keys of the exported columns without [profit]. *)
Definition keys_read_back : list jsstring :=
  [ lit "asin"; lit "title"; lit "listing_price";
    lit "status"; lit "stock_status"; lit "jp_price"; lit "us_price" ].

(** What the import makes of an exported listing: the profit column is
    kept under its label, which the header table does not translate. *)
Definition imported_record (listing : jsobject Num) : JSValue Num :=
  JObj [ (lit "asin", JStr (field_text listing (lit "asin")));
         (lit "title", JStr (field_text listing (lit "title")));
         (lit "listing_price", JStr (field_text listing (lit "listing_price")));
         (lit "利益 (JPY)", JStr (field_text listing (lit "profit")));
         (lit "status", JStr (field_text listing (lit "status")));
         (lit "stock_status", JStr (field_text listing (lit "stock_status")));
         (lit "jp_price", JStr (field_text listing (lit "jp_price")));
         (lit "us_price", JStr (field_text listing (lit "us_price"))) ].

(** ** Required fields of a create request *)

(** A string that is not empty after trimming. *)
Definition present_text (v : JSValue Num) : bool :=
  match v with
  | JStr s => negb (Nat.eqb (length (trim s)) 0)
  | _ => false
  end.


(** Missing or a string: what [trim] can be called on behind [?.]. *)
Definition textual (v : JSValue Num) : bool :=
  match v with
  | JUndefined | JNull | JStr _ => true
  | _ => false
  end.

(** The listing price of a record: [listing_price], or else the
    [listingPrice] the import accepts in its place. *)
Definition listing_price_of (record : jsobject Num) : JSValue Num :=
  js_coalesce (get record (lit "listing_price"))
              (get record (lit "listingPrice")).

(** A listing price that is there: truthy, or the number zero. *)
Definition price_present (v : JSValue Num) : bool :=
  truthy v || negb (not_zero v).


(** ** Auxiliary notions of the import proof *)

(** The last character of the text is no white space. *)
Definition ends_solid (s : jsstring) : Prop :=
  exists x d, s = x ++ [d] /\ is_ws d = false.

(** No line feed and no carriage return in the text. *)
Definition no_line_break (s : jsstring) : bool :=
  forallb (fun c => negb (N.eqb c LF || N.eqb c CR)) s.

(** No line terminator in the text. *)
Definition no_terminator (text : jsstring) : bool :=
  forallb (fun c => negb (is_line_terminator c)) text.

(** An exported cell. *)
Definition cell (v : jsstring) : jsstring :=
  [QUOTE] ++ double_quotes v ++ [QUOTE].

(** What the field pattern needs of the text of a cell. *)
Definition field_ok (v : jsstring) : bool :=
  no_terminator v && no_quote_before_comma v.

(** The texts of the exported fields of a listing, in column order. *)
Definition texts (listing : jsobject Num) : list jsstring :=
  List.map (field_text listing) csv_keys.

(** The header row of the exported text. *)
Definition header_line : jsstring := join [COMMA] csv_labels.

(** The headers the import makes of the header row. *)
Definition imported_headers : list jsstring :=
  [ lit "asin"; lit "title"; lit "listing_price"; lit "利益 (JPY)";
    lit "status"; lit "stock_status"; lit "jp_price"; lit "us_price" ].

(** The payloads of the create requests among the effects of the
    product page, in order. *)
Fixpoint requests_sent (effects : list (Products.Effect (Num:=Num)))
  : list (JSValue Num) :=
  match effects with
  | [] => []
  | Products.Create payload :: rest => payload :: requests_sent rest
  | _ :: rest => requests_sent rest
  end.


(** ** The ASIN of the research page *)

(** Exactly ten characters, each an upper-case letter or a digit. *)
Definition valid_asin (s : jsstring) : Prop :=
  length s = 10
  /\ forall c, In c s -> (65 <= c <= 90)%N \/ (48 <= c <= 57)%N.

(** The request of a search: a POST to the comparison path whose body
    carries the trimmed input twice and the rate 150. *)
Definition search_request (asin : jsstring) : Request (Num:=Num) :=
  {| req_url := lit "/api/compare/us-jp";
     req_method := Some (lit "POST");
     req_headers := [(lit "Content-Type", lit "application/json")];
     req_body := Some (JObj [ (lit "asin", JStr (trim asin));
                              (lit "us_asin", JStr (trim asin));
                              (lit "exchange_rate", JNum (num_of_Z 150)) ]) |}.

(** ** The message of an [ApiError] *)

(** [data.k], [undefined] where there is none. *)
Definition property (data : JSValue Num) (k : string) : JSValue Num :=
  match get_prop data (lit k) with
  | Some v => v
  | None => JUndefined
  end.




(** ** The blacklist *)

(** The entry's [entry_type] is one of [names]. *)
Definition has_type (names : list string) (entry : JSValue Num) : bool :=
  existsb (fun name => is_string (property entry "entry_type") (lit name))
          names.

(** The shape an entry is mapped to. *)
Definition item_of (entry : JSValue Num) : Blacklist.BlacklistEntryItem :=
  {| Blacklist.id := property entry "entry_id";
     Blacklist.value := property entry "value";
     Blacklist.reason := property entry "reason";
     Blacklist.severity := property entry "severity";
     Blacklist.type := property entry "entry_type" |}.

(** The create requests among the effects of a handler, in order. *)
Fixpoint requests_of (effects : list (Blacklist.Effect (Num:=Num)))
  : list Blacklist.CreateRequest :=
  match effects with
  | [] => []
  | Blacklist.Create r :: rest => r :: requests_of rest
  | _ :: rest => requests_of rest
  end.

(** The request for one value: severity medium for a keyword and high
    for an ASIN or a brand, with the default reason of the type. *)
Definition expected_request (t : Blacklist.EntryType) (v : jsstring)
  : Blacklist.CreateRequest :=
  {| Blacklist.create_type := t;
     Blacklist.create_value := v;
     Blacklist.create_reason :=
       match t with
       | Blacklist.asin => lit "手動で登録されたASIN"
       | Blacklist.brand => lit "手動で登録されたブランド"
       | Blacklist.keyword => lit "手動で登録されたキーワード"
       end;
     Blacklist.create_severity :=
       match t with
       | Blacklist.keyword => lit "medium"
       | _ => lit "high"
       end |}.

(** The pieces of [values] that are left: trimmed and not empty. *)
Definition kept (values : list jsstring) : list jsstring :=
  filter (fun v => negb (Nat.eqb (length v) 0)) (List.map trim values).

Definition is_separator (c : char) : bool :=
  N.eqb c LF || N.eqb c COMMA || N.eqb c IDEOGRAPHIC_COMMA.

(** Every create request resolves. *)
Definition all_resolve
    (create : nat -> Blacklist.CreateRequest -> Result Num (JSValue Num))
  : Prop :=
  forall i r, exists v, create i r = Return v.

(** The state partitions the entries of the response by type. *)
Definition partitions (getAll : Result Num (JSValue Num))
    (state : Blacklist.BlacklistState) : Prop :=
  exists response items,
    getAll = Return response
    /\ truthy (property response "success") = true
    /\ js_or (property response "entries") (JArr []) = JArr items
    /\ Blacklist.asins state
       = List.map item_of (filter (has_type ["asin"%string]) items)
    /\ Blacklist.brands state
       = List.map item_of
           (filter (has_type ["brand"; "manufacturer"]%string) items)
    /\ Blacklist.keywords state
       = List.map item_of (filter (has_type ["keyword"%string]) items)
    /\ forall e,
         In e items ->
         has_type ["asin"; "brand"; "manufacturer"; "keyword"]%string e = false ->
         ~ In (item_of e)
             (Blacklist.asins state ++ Blacklist.brands state
              ++ Blacklist.keywords state).

(** ** The dashboard *)






(** ** What the CSV branch reads *)

(** The values of a data line: what the field pattern matches on it,
    each match cleaned. *)
Definition line_values (line : jsstring) : list jsstring :=
  List.map Products.clean_value (Products.match_fields line).

(** The field pattern finds a match on the line. *)
Definition has_match (line : jsstring) : bool :=
  negb (Nat.eqb (length (Products.match_fields line)) 0).

(** The record of a data line: an object with no property besides the
    headers, which holds under a header the value at the column of the
    header (the last such column when the header comes more than once)
    and the empty text when the line has no value there. *)
Definition record_of_line (headers : list jsstring) (line : jsstring)
    (record : JSValue Num) : Prop :=
  exists o,
    record = JObj o
    /\ (forall k v, In (k, v) o -> In k headers)
    /\ forall i h,
         nth_error headers i = Some h ->
         (forall j, i < j -> nth_error headers j <> Some h) ->
         get o h = JStr (nth i (line_values line) []).

(** The records of a CSV text: none when every line is blank; else the
    first line that is not blank gives the headers, and every later such
    line on which the field pattern finds a match gives one record, in
    the order of the lines. *)
Definition csv_records (native_key : jsstring -> jsstring) (text : jsstring)
    (records : list (JSValue Num)) : Prop :=
  match filter Products.non_blank (split_lines text) with
  | [] => records = []
  | first :: data =>
    Forall2
      (record_of_line
         (List.map (Products.header_key native_key)
                   (split_char (N.eqb COMMA) first)))
      (filter has_match data) records
  end.

(** ** The totals of the dashboard as the specification states them *)


(** ** The separators of the keyword input *)

(** The text without the carriage returns that stand directly before a
    line feed: such a pair separates as the line feed alone does. *)
Fixpoint without_CR_before_LF (s : jsstring) : jsstring :=
  match s with
  | [] => []
  | c :: r => if N.eqb c CR && starts_with_LF r
              then without_CR_before_LF r
              else c :: without_CR_before_LF r
  end.

(** ** The answer of a search *)

(** The answer arrived with a 2xx status and a body that says success. *)
Definition answered (fetched : Fetched) (data : JSValue Num) : Prop :=
  exists response,
    fetched = Received response
    /\ resp_ok response = true
    /\ resp_json response = Some data
    /\ truthy (property data "success") = true.

End WithNumbers.

End Spec.

(* ================================================================== *)
(** * Shapes the handlers keep                                        *)
(* ================================================================== *)

(** Properties of the values the handlers pass on, and the states they
    lead to, named once for the statements of the second part. *)

Module Shape.
Import JS Api.

Section WithNumbers.

Context {Num : Type} {NumOps : JSNumber Num}.

(** ** Fields, records and payloads of the import *)

(** A match of the field pattern: a text between two double quotes with
    no line terminator in it, or a run of characters that are no quote,
    comma or white space. *)
Definition field_match (m : jsstring) : Prop :=
  (exists x, m = QUOTE :: x ++ [QUOTE] /\ Spec.no_terminator x = true)
  \/ (m <> [] /\ forallb Products.is_bare m = true).

(** An object whose property names are among [names] and whose values
    are all strings, one for each of [names]. *)
Definition text_record (names : list jsstring) (record : JSValue Num) : Prop :=
  exists o,
    record = JObj o
    /\ (forall k v, In (k, v) o -> In k names /\ exists s, v = JStr s)
    /\ (forall k, In k names -> exists s, get o k = JStr s).

(** A text that is not empty and has no white space at either end. *)
Definition solid_text (v : JSValue Num) : Prop :=
  exists s, v = JStr s /\ s <> [] /\ trim s = s.

(** A number that is not NaN. *)
Definition a_number (v : JSValue Num) : Prop :=
  exists n, v = JNum n /\ num_is_nan n = false.

(** A text that is not empty, or [undefined]. *)
Definition optional_text (v : JSValue Num) : Prop :=
  v = JUndefined \/ exists s, v = JStr s /\ s <> [].

(** The body of a create request as the server may rely on it. *)
Definition sound_payload (p : JSValue Num) : Prop :=
  exists props,
    p = JObj props
    /\ List.map fst props
       = List.map lit
           [ "asin"; "jp_asin"; "us_asin"; "title"; "listing_price";
             "jp_price"; "us_price"; "category"; "manufacturer";
             "source_url"; "minimum_profit_threshold"; "validate" ]%string
    /\ solid_text (get props (lit "asin"))
    /\ solid_text (get props (lit "jp_asin"))
    /\ solid_text (get props (lit "title"))
    /\ a_number (get props (lit "listing_price"))
    /\ a_number (get props (lit "jp_price"))
    /\ a_number (get props (lit "us_price"))
    /\ (forall k, In k ["us_asin"; "category"; "manufacturer"; "source_url"]%string ->
          optional_text (get props (lit k)))
    /\ (exists n, get props (lit "minimum_profit_threshold") = JNum n
                  /\ num_is_nan n = false /\ num_is_zero n = false)
    /\ get props (lit "validate") = JBool true.

(** ** What the pages load *)

(** The state of the blacklist page for the entries of a response. *)
Definition blacklist_of (items : list (JSValue Num))
  : Blacklist.BlacklistState :=
  {| Blacklist.asins :=
       List.map Blacklist.toEntry
                (filter (Spec.has_type ["asin"%string]) items);
     Blacklist.brands :=
       List.map Blacklist.toEntry
                (filter (Spec.has_type ["brand"; "manufacturer"]%string) items);
     Blacklist.keywords :=
       List.map Blacklist.toEntry
                (filter (Spec.has_type ["keyword"%string]) items) |}.


(** No element is [null] or [undefined]. *)
Definition all_there (items : list (JSValue Num)) : Prop :=
  Forall (fun e => nullish e = false) items.

(** Some element is [null] or [undefined]. *)
Definition one_missing (items : list (JSValue Num)) : Prop :=
  Exists (fun e => nullish e = true) items.

(** The listing the product page keeps for a listing of the server
    that is not [null]. *)
Definition listing_of (listing : JSValue Num) : jsobject Num :=
  [ (lit "id", Spec.property listing "listing_id");
    (lit "asin", Spec.property listing "asin");
    (lit "title", Spec.property listing "title");
    (lit "listing_price",
     js_coalesce (Spec.property listing "listing_price") (JNum (num_of_Z 0)));
    (lit "profit", Spec.property listing "profit_amount");
    (lit "status", Spec.property listing "status");
    (lit "stock_status", Spec.property listing "stock_status");
    (lit "jp_price", Spec.property listing "jp_price");
    (lit "us_price", Spec.property listing "us_price") ].

(** [t] occurs in [s]. *)
Definition occurs_in (t s : jsstring) : Prop :=
  exists before after, s = before ++ t ++ after.

(** The field [k] of the listing is a text in which [term] occurs, both
    taken in lower case. *)
Definition field_has (toLowerCase : jsstring -> jsstring)
    (listing : jsobject Num) (k : string) (term : jsstring) : Prop :=
  exists s, get listing (lit k) = JStr s
            /\ occurs_in (toLowerCase term) (toLowerCase s).

(** The answer of the blacklist check says that the ASIN is listed. *)
Definition listed (response : JSValue Num) : bool :=
  truthy (Spec.property response "success")
  && truthy (Spec.property response "result")
  && truthy (Spec.property (Spec.property response "result") "is_blacklisted").

End WithNumbers.

Section WithRuntime.

Context {Num : Type} {NumOps : JSNumber Num}.

Variable JSON_parse : jsstring -> option (JSValue Num).
Variable native_key : jsstring -> jsstring.

(** ** The requests of an import *)

(** The payloads an import file gives: those of its records that are
    not dropped, in the order of the file; none when a record cannot be
    read. *)
Definition import_payloads (text : jsstring) : list (JSValue Num) :=
  match Products.parseImportedData JSON_parse native_key text with
  | Return records =>
    match map_result Products.createPayload records with
    | Return created => filter truthy created
    | Throw _ => []
    end
  | Throw _ => []
  end.

(** The number of create requests of an import that succeed. *)
Definition import_successes (payloads : list (JSValue Num))
    (create : nat -> JSValue Num -> Result Num (JSValue Num)) : nat :=
  length (filter Products.succeeded
            (List.map (fun ip => create (fst ip) (snd ip))
                      (combine (seq 0 (length payloads)) payloads))).

End WithRuntime.

End Shape.

(* ================================================================== *)
(** * Facts about strings                                             *)
(* ================================================================== *)

Unset Implicit Arguments.

Module JSFacts.
Import JS Spec.

Lemma str_eqb_eq (a b : jsstring) : str_eqb a b = true <-> a = b.
Proof.
  revert b; induction a as [|x a IH]; intros [|y b]; simpl;
    try (split; (discriminate || reflexivity)).
  rewrite andb_true_iff, N.eqb_eq, IH.
  split; [intros [-> ->]; reflexivity | intros E; inversion E; auto].
Qed.

Lemma str_eqb_refl (a : jsstring) : str_eqb a a = true.
Proof. apply str_eqb_eq; reflexivity. Qed.

(** ** [join] *)

Lemma join_cons (sep p : jsstring) (rest : list jsstring) :
  join sep (p :: rest) = p ++ concat (List.map (fun q => sep ++ q) rest).
Proof.
  revert p; induction rest as [|q rest IH]; intros p.
  - simpl; rewrite app_nil_r; reflexivity.
  - change (join sep (p :: q :: rest)) with (p ++ sep ++ join sep (q :: rest)).
    rewrite IH; simpl; rewrite <- app_assoc; reflexivity.
Qed.

(** ** [trim] *)

Lemma trimStart_solid (c : char) (s : jsstring) :
  is_ws c = false -> trimStart (c :: s) = c :: s.
Proof. intros H; simpl; rewrite H; reflexivity. Qed.

Lemma trimStart_nil_iff (s : jsstring) :
  trimStart s = [] <-> forallb is_ws s = true.
Proof.
  induction s as [|c s IH]; simpl; [tauto|].
  destruct (is_ws c); simpl; [exact IH | split; discriminate].
Qed.

Lemma trimStart_shape (s : jsstring) :
  trimStart s = [] \/ exists c r, trimStart s = c :: r /\ is_ws c = false.
Proof.
  induction s as [|c s IH]; simpl; [left; reflexivity|].
  destruct (is_ws c) eqn:E; [exact IH | right; exists c, s; auto].
Qed.

Lemma forallb_rev (p : char -> bool) (s : jsstring) :
  forallb p (rev s) = forallb p s.
Proof.
  induction s as [|c s IH]; simpl; [reflexivity|].
  rewrite forallb_app, IH; simpl; rewrite andb_true_r, andb_comm; reflexivity.
Qed.

Lemma trim_nil_iff (s : jsstring) :
  trim s = [] <-> forallb is_ws s = true.
Proof.
  unfold trim, trimEnd.
  rewrite <- trimStart_nil_iff.
  split.
  - intros H. apply (f_equal (@rev char)) in H; rewrite rev_involutive in H.
    simpl in H. apply trimStart_nil_iff in H. rewrite forallb_rev in H.
    destruct (trimStart_shape s) as [E | (c & r & E & Hc)]; [exact E|].
    rewrite E in H; simpl in H; rewrite Hc in H; discriminate.
  - intros ->; reflexivity.
Qed.

(** A text that starts and ends with characters that are no white space
    is left as it is. *)
Lemma trim_solid (c : char) (s : jsstring) :
  is_ws c = false -> ends_solid (c :: s) -> trim (c :: s) = c :: s.
Proof.
  intros Hc (x & d & E & Hd).
  unfold trim, trimEnd. rewrite (trimStart_solid _ _ Hc), E.
  rewrite rev_app_distr; simpl. rewrite Hd.
  change (d :: rev x) with (rev [d] ++ rev x).
  rewrite <- rev_app_distr, rev_involutive; reflexivity.
Qed.

Lemma ends_solid_app (a b : jsstring) : ends_solid b -> ends_solid (a ++ b).
Proof.
  intros (x & d & -> & Hd); exists (a ++ x), d; rewrite app_assoc; auto.
Qed.

Lemma ends_solid_concat {A : Type} (f : A -> jsstring) (l : list A) :
  l <> [] -> (forall a, In a l -> ends_solid (f a)) ->
  ends_solid (concat (List.map f l)).
Proof.
  induction l as [|a l IH]; [congruence|]; intros _ H; simpl.
  destruct l as [|b l].
  - simpl; rewrite app_nil_r; apply H; left; reflexivity.
  - apply ends_solid_app, IH; [discriminate|].
    intros a' Ha; apply H; right; exact Ha.
Qed.

Lemma trim_non_blank (c : char) (s : jsstring) :
  is_ws c = false -> trim (c :: s) <> [].
Proof.
  intros Hc E; apply trim_nil_iff in E; simpl in E; rewrite Hc in E;
    discriminate.
Qed.

(** ** Quotes *)

Lemma double_quotes_flat_map (s : jsstring) :
  double_quotes s
  = flat_map (fun c => if N.eqb c QUOTE then [QUOTE; QUOTE] else [c]) s.
Proof.
  induction s as [|c s IH]; simpl; [reflexivity|].
  rewrite IH; destruct (N.eqb c QUOTE); reflexivity.
Qed.

Lemma undouble_double (s : jsstring) : undouble_quotes (double_quotes s) = s.
Proof.
  induction s as [|c s IH]; [reflexivity|].
  simpl double_quotes. destruct (N.eqb c QUOTE) eqn:E.
  - apply N.eqb_eq in E; subst c.
    change (undouble_quotes (QUOTE :: QUOTE :: double_quotes s))
      with (QUOTE :: undouble_quotes (double_quotes s)).
    rewrite IH; reflexivity.
  - destruct (double_quotes s) as [|d t] eqn:D.
    + simpl in IH; subst s; reflexivity.
    + change (undouble_quotes (c :: d :: t))
        with (if N.eqb c QUOTE && N.eqb d QUOTE
              then QUOTE :: undouble_quotes t
              else c :: undouble_quotes (d :: t)).
      rewrite E; simpl andb; cbv iota. rewrite IH; reflexivity.
Qed.

Lemma strip_quotes_quoted (s : jsstring) :
  strip_quotes (QUOTE :: s ++ [QUOTE]) = s.
Proof.
  unfold strip_quotes, drop_trailing_quote; simpl.
  rewrite rev_app_distr; simpl. apply rev_involutive.
Qed.

(** ** Lines *)

Lemma split_lines_one (s : jsstring) :
  no_line_break s = true -> split_lines s = [s].
Proof.
  induction s as [|c s IH]; simpl; [reflexivity|].
  rewrite andb_true_iff, negb_true_iff, orb_false_iff; intros [[H1 H2] H].
  rewrite H1, H2, (IH H); reflexivity.
Qed.

Lemma split_lines_app (a b : jsstring) :
  no_line_break a = true -> split_lines (a ++ LF :: b) = a :: split_lines b.
Proof.
  induction a as [|c a IH]; simpl; [reflexivity|].
  rewrite andb_true_iff, negb_true_iff, orb_false_iff; intros [[H1 H2] H].
  rewrite H1, H2, (IH H); reflexivity.
Qed.

Lemma no_line_break_app (a b : jsstring) :
  no_line_break (a ++ b) = no_line_break a && no_line_break b.
Proof. apply forallb_app. Qed.

End JSFacts.

(* ================================================================== *)
(** * Facts about the product list page                               *)
(* ================================================================== *)

Module ProductsFacts.
Import JS Api Products Spec JSFacts.

Section ExportFormat.

Context {Num : Type} {NumOps : JSNumber Num}.

Lemma escapeCsv_field (listing : jsobject Num) (key : jsstring) :
  escapeCsv (js_coalesce (get listing key) (JStr []))
  = quoted (field_text listing key).
Proof.
  unfold escapeCsv, js_coalesce, quoted, field_text.
  rewrite <- double_quotes_flat_map.
  destruct (get listing key); reflexivity.
Qed.

Lemma export_row_csv_line (listing : jsobject Num) :
  export_row listing = csv_line listing.
Proof.
  unfold export_row, csv_line, exportColumns, csv_keys.
  cbn [List.map fst]. rewrite !escapeCsv_field. reflexivity.
Qed.



End ExportFormat.

(** ** The field pattern on an exported row *)

Lemma ws_not_comma (c : char) : is_ws c = true -> N.eqb c COMMA = false.
Proof.
  intros H; destruct (N.eqb c COMMA) eqn:E; [|reflexivity].
  apply N.eqb_eq in E; subst c; discriminate.
Qed.

Lemma ws_then_comma (s : jsstring) :
  ws_then starts_with_comma s = comma_after_spaces s.
Proof.
  unfold comma_after_spaces.
  induction s as [|c s IH]; [reflexivity|].
  simpl. destruct (is_ws c) eqn:E; [|reflexivity].
  rewrite IH, (ws_not_comma _ E), orb_false_r; reflexivity.
Qed.

Lemma ws_then_end (s : jsstring) :
  ws_then at_end s = at_end (trimStart s).
Proof.
  induction s as [|c s IH]; [reflexivity|].
  simpl. destruct (is_ws c); [rewrite IH, orb_false_r|]; reflexivity.
Qed.

(** The lookahead holds exactly when, after the white space, the line
    ends or a comma stands. *)
Lemma lookahead_spaces (s : jsstring) :
  lookahead s = comma_after_spaces s || at_end (trimStart s).
Proof. unfold lookahead; rewrite ws_then_comma, ws_then_end; reflexivity. Qed.

Lemma lookahead_in_field (r tail : jsstring) :
  lookahead (double_quotes r ++ QUOTE :: tail) = comma_after_spaces r.
Proof.
  rewrite lookahead_spaces. unfold comma_after_spaces.
  induction r as [|c r IH]; [reflexivity|].
  simpl double_quotes. destruct (N.eqb c QUOTE) eqn:E.
  - apply N.eqb_eq in E; subst c; reflexivity.
  - simpl. destruct (is_ws c); [exact IH|].
    simpl; rewrite orb_false_r; reflexivity.
Qed.

Lemma lookahead_quote (s : jsstring) : lookahead (QUOTE :: s) = false.
Proof. rewrite lookahead_spaces; reflexivity. Qed.

Lemma lazy_close_field (v tail : jsstring) :
  no_terminator v = true -> no_quote_before_comma v = true ->
  lookahead tail = true ->
  lazy_close (double_quotes v ++ QUOTE :: tail)
  = Some (double_quotes v ++ [QUOTE]).
Proof.
  intros Ht Hq Hl. induction v as [|c v IH].
  - simpl. rewrite Hl; reflexivity.
  - simpl in Ht, Hq. apply andb_true_iff in Ht as [Hc Ht].
    apply andb_true_iff in Hq as [Hcq Hq]. apply negb_true_iff in Hc, Hcq.
    specialize (IH Ht Hq). simpl double_quotes.
    destruct (N.eqb c QUOTE) eqn:E.
    + apply N.eqb_eq in E; subst c. simpl in Hcq.
      cbn [app lazy_close]. rewrite N.eqb_refl.
      rewrite lookahead_in_field, Hcq, lookahead_quote.
      change (is_line_terminator QUOTE) with false.
      cbn [andb]. cbv iota. rewrite IH; reflexivity.
    + cbn [app lazy_close]. rewrite E, Hc. cbn [andb]. rewrite IH; reflexivity.
Qed.

Lemma match_at_cell (v tail : jsstring) :
  no_terminator v = true -> no_quote_before_comma v = true ->
  lookahead tail = true ->
  match_at (cell v ++ tail) = Some (cell v).
Proof.
  intros Ht Hq Hl. unfold match_at, quoted_field, cell.
  cbn [app]. rewrite N.eqb_refl, <- app_assoc. cbn [app].
  rewrite (lazy_close_field v tail Ht Hq Hl); reflexivity.
Qed.

Lemma scan_fields_skip (m s : jsstring) :
  scan_fields (length m) (m ++ s) = scan_fields 0 s.
Proof. induction m as [|c m IH]; [reflexivity | exact IH]. Qed.

Lemma scan_fields_match (m s : jsstring) :
  m <> [] -> match_at (m ++ s) = Some m ->
  scan_fields 0 (m ++ s) = m :: scan_fields 0 s.
Proof.
  destruct m as [|c m]; [congruence|]; intros _ H.
  cbn [app scan_fields]. cbn [app] in H. rewrite H.
  cbn [length Nat.pred]. rewrite scan_fields_skip; reflexivity.
Qed.

Lemma scan_fields_comma (s : jsstring) :
  scan_fields 0 (COMMA :: s) = scan_fields 0 s.
Proof. reflexivity. Qed.

Lemma match_fields_row (vs : list jsstring) :
  forallb field_ok vs = true ->
  match_fields (join [COMMA] (List.map cell vs)) = List.map cell vs.
Proof.
  unfold match_fields.
  induction vs as [|v vs IH]; [reflexivity|].
  cbn [forallb]. rewrite andb_true_iff. unfold field_ok at 1.
  rewrite andb_true_iff. intros [[Ht Hq] H].
  destruct vs as [|w vs].
  - cbn [List.map join]. rewrite <- (app_nil_r (cell v)) at 1.
    rewrite scan_fields_match; [reflexivity | discriminate |].
    apply match_at_cell; auto.
  - change (join [COMMA] (List.map cell (v :: w :: vs)))
      with (cell v ++ COMMA :: join [COMMA] (List.map cell (w :: vs))).
    rewrite scan_fields_match; [| discriminate |].
    + rewrite scan_fields_comma, (IH H); reflexivity.
    + apply match_at_cell; auto.
Qed.

Lemma clean_value_cell (v : jsstring) :
  trim v = v -> clean_value (cell v) = v.
Proof.
  intros H. unfold clean_value, cell. cbn [app].
  rewrite strip_quotes_quoted, undouble_double; exact H.
Qed.

(** ** The exported text, line by line *)

Section ImportOfExport.

Context {Num : Type} {NumOps : JSNumber Num}.

Variable JSON_parse : jsstring -> option (JSValue Num).
Variable native_key : jsstring -> jsstring.

Lemma csv_line_cells (listing : jsobject Num) :
  csv_line listing = join [COMMA] (List.map cell (texts listing)).
Proof.
  unfold csv_line, texts. rewrite map_map. f_equal.
  apply map_ext; intros key. unfold quoted, cell.
  rewrite double_quotes_flat_map; reflexivity.
Qed.

Lemma importable_parts (t : jsstring) :
  importable t = true -> field_ok t = true /\ trim t = t.
Proof.
  unfold importable, field_ok, no_terminator.
  rewrite !andb_true_iff, str_eqb_eq. tauto.
Qed.

Lemma importable_texts (listing : jsobject Num) :
  importable_listing listing = true ->
  forallb field_ok (texts listing) = true
  /\ List.map clean_value (List.map cell (texts listing)) = texts listing.
Proof.
  unfold importable_listing, texts.
  induction csv_keys as [|k ks IH]; [split; reflexivity|].
  cbn [forallb List.map]. rewrite andb_true_iff. intros [Hk H].
  destruct (importable_parts _ Hk) as [Hok Ht]. destruct (IH H) as [IH1 IH2].
  rewrite Hok, IH1, IH2, (clean_value_cell _ Ht). split; reflexivity.
Qed.

Lemma terminator_line_break (c : char) :
  is_line_terminator c = false -> N.eqb c LF || N.eqb c CR = false.
Proof.
  unfold is_line_terminator, LF, CR.
  destruct (N.eqb c 10), (N.eqb c 13); simpl; congruence.
Qed.

Lemma no_line_break_cell (v : jsstring) :
  no_terminator v = true -> no_line_break (cell v) = true.
Proof.
  intros H. unfold cell. rewrite !no_line_break_app, andb_true_r.
  cbn [no_line_break forallb andb]. change (negb (N.eqb QUOTE LF || N.eqb QUOTE CR)) with true.
  cbn [andb].
  induction v as [|c v IH]; [reflexivity|].
  cbn [no_terminator forallb] in H. apply andb_true_iff in H as [Hc H].
  apply negb_true_iff in Hc. cbn [double_quotes].
  destruct (N.eqb c QUOTE) eqn:E.
  - apply N.eqb_eq in E; subst c. exact (IH H).
  - cbn [no_line_break forallb]. rewrite (terminator_line_break _ Hc).
    exact (IH H).
Qed.

Lemma no_line_break_join (sep : jsstring) (ps : list jsstring) :
  no_line_break sep = true -> forallb no_line_break ps = true ->
  no_line_break (join sep ps) = true.
Proof.
  intros Hs. induction ps as [|p ps IH]; [reflexivity|].
  cbn [forallb]. rewrite andb_true_iff. intros [Hp H].
  destruct ps as [|q ps]; [exact Hp|].
  change (join sep (p :: q :: ps)) with (p ++ sep ++ join sep (q :: ps)).
  rewrite !no_line_break_app, Hp, Hs, (IH H); reflexivity.
Qed.

Lemma no_line_break_row (listing : jsobject Num) :
  importable_listing listing = true ->
  no_line_break (csv_line listing) = true.
Proof.
  intros H. destruct (importable_texts _ H) as [Hok _].
  rewrite csv_line_cells. apply no_line_break_join; [reflexivity|].
  induction (texts listing) as [|t ts IH]; [reflexivity|].
  cbn [forallb List.map] in *. apply andb_true_iff in Hok as [Ht Hok].
  unfold field_ok in Ht. apply andb_true_iff in Ht as [Ht _].
  rewrite (no_line_break_cell _ Ht), (IH Hok); reflexivity.
Qed.

Lemma row_starts_with_quote (listing : jsobject Num) :
  exists rest, csv_line listing = QUOTE :: rest.
Proof.
  rewrite csv_line_cells. unfold texts, csv_keys. cbn [List.map].
  rewrite join_cons. unfold cell at 1. cbn [app]. eexists; reflexivity.
Qed.

Lemma ends_solid_join (sep : jsstring) (ps : list jsstring) :
  ps <> [] -> (forall p, In p ps -> ends_solid p) -> ends_solid (join sep ps).
Proof.
  destruct ps as [|p ps]; [congruence|]; intros _ H.
  rewrite join_cons. destruct ps as [|q ps].
  - cbn [List.map concat]. rewrite app_nil_r. apply H; left; reflexivity.
  - apply ends_solid_app.
    apply (ends_solid_concat (fun q => sep ++ q)); [discriminate|].
    intros a Ha. apply ends_solid_app, H. right; exact Ha.
Qed.

Lemma ends_solid_cell (v : jsstring) : ends_solid (cell v).
Proof.
  exists ([QUOTE] ++ double_quotes v), QUOTE. unfold cell.
  rewrite <- app_assoc. split; reflexivity.
Qed.

Lemma ends_solid_row (listing : jsobject Num) : ends_solid (csv_line listing).
Proof.
  rewrite csv_line_cells. apply ends_solid_join.
  - unfold texts, csv_keys; discriminate.
  - intros p Hp. apply in_map_iff in Hp as (v & <- & _).
    apply ends_solid_cell.
Qed.

Lemma csvContent_lines (listings : list (jsobject Num)) :
  csvContent listings
  = header_line
    ++ concat (List.map (fun q => [LF] ++ q) (List.map csv_line listings)).
Proof.
  unfold csvContent. rewrite join_cons. f_equal. do 2 f_equal.
  apply map_ext; intros l; apply export_row_csv_line.
Qed.

Lemma split_lines_rows (h : jsstring) (rows : list jsstring) :
  no_line_break h = true -> forallb no_line_break rows = true ->
  split_lines (h ++ concat (List.map (fun q => [LF] ++ q) rows)) = h :: rows.
Proof.
  revert h; induction rows as [|r rows IH]; intros h Hh H.
  - cbn [List.map concat]. rewrite app_nil_r. apply split_lines_one; exact Hh.
  - cbn [forallb] in H. apply andb_true_iff in H as [Hr H].
    cbn [List.map concat]. rewrite <- app_assoc.
    change ([LF] ++ ?x) with (LF :: x) at 1.
    rewrite (split_lines_app _ _ Hh), (IH r Hr H); reflexivity.
Qed.

Lemma rows_no_line_break (listings : list (jsobject Num)) :
  forallb importable_listing listings = true ->
  forallb no_line_break (List.map csv_line listings) = true.
Proof.
  induction listings as [|l ls IH]; [reflexivity|].
  cbn [forallb List.map]. rewrite andb_true_iff. intros [Hl H].
  rewrite (no_line_break_row _ Hl), (IH H); reflexivity.
Qed.

Lemma rows_non_blank (listings : list (jsobject Num)) :
  filter non_blank (List.map csv_line listings) = List.map csv_line listings.
Proof.
  induction listings as [|l ls IH]; [reflexivity|].
  cbn [List.map filter]. rewrite IH.
  destruct (row_starts_with_quote l) as [rest ->].
  unfold non_blank.
  destruct (trim (QUOTE :: rest)) eqn:E; [|reflexivity].
  exfalso; revert E; apply trim_non_blank; reflexivity.
Qed.

Lemma csvContent_trimmed (listings : list (jsobject Num)) :
  trim (csvContent listings) = csvContent listings.
Proof.
  rewrite csvContent_lines.
  change header_line with (65%N :: tl header_line).
  cbn [app]. apply trim_solid; [reflexivity|].
  change (65%N :: tl header_line ++ ?x) with (header_line ++ x).
  destruct listings as [|l ls].
  - cbn [List.map concat]. rewrite app_nil_r.
    exists (removelast header_line), (last header_line 0%N).
    split; vm_compute; reflexivity.
  - apply ends_solid_app. rewrite map_map.
    apply (ends_solid_concat (fun l => [LF] ++ csv_line l)); [discriminate|].
    intros a _. apply ends_solid_app, ends_solid_row.
Qed.

(** ** Headers and records *)

Lemma headers_of_export :
  List.map (header_key native_key) (split_char (N.eqb COMMA) header_line)
  = imported_headers.
Proof. vm_compute; reflexivity. Qed.

Lemma record_of_row (listing : jsobject Num) :
  JObj (fill_record imported_headers 0 (texts listing) [])
  = imported_record listing.
Proof. reflexivity. Qed.

Lemma read_exported_rows (listings : list (jsobject Num)) :
  forallb importable_listing listings = true ->
  read_records imported_headers (List.map csv_line listings)
  = List.map imported_record listings.
Proof.
  induction listings as [|l ls IH]; [reflexivity|].
  cbn [forallb List.map read_records]. rewrite andb_true_iff. intros [Hl H].
  destruct (importable_texts _ Hl) as [Hok Hclean].
  rewrite csv_line_cells, (match_fields_row _ Hok), Hclean.
  change (Nat.eqb (length (texts l)) 0) with false. cbv iota.
  rewrite record_of_row, (IH H); reflexivity.
Qed.

(** The exported text of importable listings, read by the CSV branch. *)
Lemma parse_csv_of_export (listings : list (jsobject Num)) :
  forallb importable_listing listings = true ->
  parse_csv native_key (csvContent listings)
  = Return (List.map imported_record listings).
Proof.
  intros H. unfold parse_csv.
  rewrite csvContent_lines, split_lines_rows;
    [| reflexivity | apply rows_no_line_break; exact H].
  cbn [filter]. change (non_blank header_line) with true. cbv iota.
  rewrite rows_non_blank. cbn [length Nat.eqb].
  rewrite headers_of_export, (read_exported_rows _ H); reflexivity.
Qed.

Lemma parseImportedData_of_export (listings : list (jsobject Num)) :
  (forall rest, JSON_parse (65%N :: rest) = None) ->
  forallb importable_listing listings = true ->
  parseImportedData JSON_parse native_key (csvContent listings)
  = Return (List.map imported_record listings).
Proof.
  intros Hjson H. unfold parseImportedData. cbv zeta.
  rewrite csvContent_trimmed.
  assert (E : exists rest, csvContent listings = 65%N :: rest).
  { rewrite csvContent_lines. eexists.
    change header_line with (65%N :: tl header_line). reflexivity. }
  destruct E as [rest E].
  assert (Hlen : Nat.eqb (length (csvContent listings)) 0 = false)
    by (rewrite E; reflexivity).
  assert (Hj : parse_json JSON_parse (csvContent listings) = None)
    by (unfold parse_json; rewrite E, Hjson; reflexivity).
  rewrite Hlen, Hj. apply parse_csv_of_export; exact H.
Qed.

Lemma imported_record_keys (listing : jsobject Num) (key : jsstring) :
  In key keys_read_back ->
  get_prop (imported_record listing) key
  = Some (JStr (field_text listing key)).
Proof.
  unfold keys_read_back. cbn [In].
  intros [<- | [<- | [<- | [<- | [<- | [<- | [<- | []]]]]]]]; reflexivity.
Qed.

(** C2, amended. When [JSON.parse] rejects a text that starts with the
    letter A, and the text of every exported field has no line terminator,
    no double quote before a comma and no white space at its ends, the
    import of the exported text (without the BOM) is one record per
    listing, in order, and each record holds the text of every exported
    field except profit under the listing's field name. *)
Theorem import_reads_export_back (listings : list (jsobject Num)) :
  (forall rest, JSON_parse (65%N :: rest) = None) ->
  forallb importable_listing listings = true ->
  reads_back keys_read_back listings
    (parseImportedData JSON_parse native_key (csvContent listings)).
Proof.
  intros Hjson H. exists (List.map imported_record listings). split.
  - apply parseImportedData_of_export; assumption.
  - clear. induction listings as [|l ls IH]; constructor; [|exact IH].
    intros key Hkey. apply imported_record_keys; exact Hkey.
Qed.

End ImportOfExport.

(** ** What the import returns *)

Section Parse.

Context {Num : Type} {NumOps : JSNumber Num}.

Variable JSON_parse : jsstring -> option (JSValue Num).
Variable native_key : jsstring -> jsstring.

(** The CSV branch never throws: it returns the records of the lines
    after the first one that is not blank. *)
Lemma parse_csv_returns (text : jsstring) :
  parse_csv native_key text
  = Return
      match filter non_blank (split_lines text)
            return list (JSValue Num) with
      | [] => []
      | first :: data =>
        read_records
          (List.map (header_key native_key) (split_char (N.eqb COMMA) first))
          data
      end.
Proof.
  unfold parse_csv. destruct (filter non_blank (split_lines text)); reflexivity.
Qed.

(** The cases of [parseImportedData], on the trimmed text. *)
Lemma parseImportedData_cases (text : jsstring) :
  parseImportedData JSON_parse native_key text
  = match trim text with
    | [] => Return []
    | c :: t =>
      match JSON_parse (c :: t) with
      | Some (JArr items) => Return items
      | Some (JObj props) => Return [JObj props]
      | Some JNull => Return [JNull]
      | _ => parse_csv native_key (c :: t)
      end
    end.
Proof.
  unfold parseImportedData, parse_json. cbv zeta.
  destruct (trim text) as [|c t]; [reflexivity|]. cbn [length Nat.eqb].
  destruct (JSON_parse (c :: t)) as [[]|]; reflexivity.
Qed.

(** C3, the failing input. When [JSON.parse] reads the text [null] as
    the value [null], the import returns the one-element list holding
    [null]; the text is not read as CSV. *)
Theorem parseImportedData_null :
  JSON_parse (lit "null") = Some JNull ->
  parseImportedData JSON_parse native_key (lit "null") = Return [JNull]
  /\ parse_csv (Num:=Num) native_key (lit "null") = Return [].
Proof.
  intros H. split.
  - unfold parseImportedData, parse_json. cbv zeta.
    change (trim (lit "null")) with (lit "null").
    rewrite H; reflexivity.
  - vm_compute; reflexivity.
Qed.

(** The rest of C3: an array is returned as it is, an object alone in a
    list, and every other outcome of [JSON.parse] but [null] leaves the
    text to the CSV branch. *)
Lemma parseImportedData_json (text : jsstring) :
  trim text <> [] ->
  (forall items, JSON_parse (trim text) = Some (JArr items) ->
     parseImportedData JSON_parse native_key text = Return items)
  /\ (forall props, JSON_parse (trim text) = Some (JObj props) ->
        parseImportedData JSON_parse native_key text = Return [JObj props])
  /\ (JSON_parse (trim text) = None ->
        parseImportedData JSON_parse native_key text
        = parse_csv native_key (trim text))
  /\ (forall v, JSON_parse (trim text) = Some v ->
        typeof_object v = false ->
        parseImportedData JSON_parse native_key text
        = parse_csv native_key (trim text)).
Proof.
  intros Hne. rewrite parseImportedData_cases.
  destruct (trim text) as [|c t]; [congruence|].
  repeat split.
  - intros items ->; reflexivity.
  - intros props ->; reflexivity.
  - intros ->; reflexivity.
  - intros v -> Hv. destruct v; try discriminate; reflexivity.
Qed.

(** A header the table has is translated by it. *)
Lemma header_key_mapped (header mapped : jsstring) :
  lookup headerMappings (trim (strip_quotes header)) = Some mapped ->
  header_key native_key header = mapped.
Proof. intros H. unfold header_key. cbv zeta. rewrite H; reflexivity. Qed.

(** The BOM in front of a text is white space to [trim]: the import of
    the downloaded file is that of its text without the BOM. *)
Lemma parseImportedData_BOM (text : jsstring) :
  parseImportedData JSON_parse native_key (BOM :: text)
  = parseImportedData JSON_parse native_key text.
Proof. reflexivity. Qed.

(** ** Records of short rows *)

Lemma get_set_same (o : jsobject Num) (k : jsstring) (v : JSValue Num) :
  get (set o k v) k = v.
Proof.
  induction o as [|[k' v'] o IH]; cbn [set get].
  - rewrite str_eqb_refl; reflexivity.
  - destruct (str_eqb k' k) eqn:E; cbn [get]; rewrite E; [reflexivity|exact IH].
Qed.

Lemma get_set_other (o : jsobject Num) (k k' : jsstring) (v : JSValue Num) :
  str_eqb k k' = false -> get (set o k v) k' = get o k'.
Proof.
  intros Hk. induction o as [|[k0 v0] o IH]; cbn [set get].
  - rewrite Hk; reflexivity.
  - destruct (str_eqb k0 k) eqn:E; cbn [get].
    + apply str_eqb_eq in E; subst k0. rewrite Hk; reflexivity.
    + destruct (str_eqb k0 k'); [reflexivity|exact IH].
Qed.

Lemma fill_record_keeps_empty (headers : list jsstring) (k : nat)
    (values : list jsstring) (record : jsobject Num) (h : jsstring) :
  length values <= k -> get record h = JStr [] ->
  get (fill_record headers k values record) h = JStr [].
Proof.
  revert k record; induction headers as [|h0 headers IH]; intros k record Hk H.
  - exact H.
  - cbn [fill_record]. apply IH; [lia|].
    assert (E : nth_error values k = None) by (apply nth_error_None; exact Hk).
    rewrite E. destruct (str_eqb h0 h) eqn:Eh.
    + apply str_eqb_eq in Eh; subst h0. apply get_set_same.
    + rewrite get_set_other; assumption.
Qed.

Lemma fill_record_short (headers : list jsstring) (k i : nat)
    (values : list jsstring) (record : jsobject Num) (h : jsstring) :
  nth_error headers i = Some h -> length values <= k + i ->
  get (fill_record headers k values record) h = JStr [].
Proof.
  revert k i record; induction headers as [|h0 headers IH];
    intros k i record Hi Hk; [destruct i; discriminate|].
  cbn [fill_record]. destruct i as [|i]; cbn [nth_error] in Hi.
  - injection Hi as ->. apply fill_record_keeps_empty; [lia|].
    assert (E : nth_error values k = None) by (apply nth_error_None; lia).
    rewrite E. apply get_set_same.
  - apply (IH (S k) i); [exact Hi | lia].
Qed.

End Parse.

(** ** Create requests need the required fields *)

Section Required.

Context {Num : Type} {NumOps : JSNumber Num}.

Variable JSON_parse : jsstring -> option (JSValue Num).
Variable native_key : jsstring -> jsstring.
Variable error_text : Exn Num -> jsstring.

Lemma validateForm_nil (fd : ListingFormData) :
  validateForm fd = []
  <-> blank (asin fd) = false /\ blank (title fd) = false
      /\ blank (listing_price fd) = false.
Proof.
  unfold validateForm.
  destruct (blank (asin fd)), (blank (title fd)), (blank (listing_price fd));
    cbn [app]; split; try discriminate; try tauto;
    intros (? & ? & ?); discriminate.
Qed.


Lemma validateForm_names (fd : ListingFormData) :
  (blank (asin fd) = true ->
     In (lit "asin", lit "ASINは必須です") (validateForm fd))
  /\ (blank (title fd) = true ->
       In (lit "title", lit "商品名は必須です") (validateForm fd))
  /\ (blank (listing_price fd) = true ->
       In (lit "listing_price", lit "出品価格は必須です") (validateForm fd)).
Proof.
  unfold validateForm. repeat split; intros ->; rewrite !in_app_iff.
  - left; left; reflexivity.
  - right; left; left; reflexivity.
  - right; right; left; reflexivity.
Qed.

Lemma handleCreateListing_request (fd : ListingFormData)
    (create : JSValue Num -> Result Num (JSValue Num)) (p : JSValue Num) :
  In (Create p) (handleCreateListing error_text fd create) ->
  blank (asin fd) = false /\ blank (title fd) = false
  /\ blank (listing_price fd) = false /\ p = form_payload fd.
Proof.
  intros H.
  destruct (validateForm fd) as [|e es] eqn:E.
  - apply validateForm_nil in E as E'. destruct E' as (E1 & E2 & E3).
    repeat (split; [assumption|]).
    unfold handleCreateListing in H. rewrite E in H.
    cbn [length Nat.ltb Nat.leb] in H. cbv zeta in H.
    cbn [app In] in H. destruct H as [H | [H | H]]; [discriminate | congruence |].
    apply in_app_or in H as [H | [H | []]]; [|discriminate].
    destruct (create (form_payload fd)) as [response|err].
    + destruct (get_prop response (lit "success")) as [success|].
      * destruct (truthy success); cbn [In] in H;
          repeat (destruct H as [H | H]; [discriminate|]); destruct H.
      * destruct H as [H | []]; discriminate.
    + destruct H as [H | []]; discriminate.
  - unfold handleCreateListing in H. rewrite E in H.
    destruct H as [H | []]; discriminate.
Qed.

(** What [createPayload] reads first, on an object. *)
Lemma trimmed_field_object (o : jsobject Num) (k : string) :
  trimmed_field (JObj o) k = opt_trim (get o (lit k)).
Proof. reflexivity. Qed.

Lemma either_field_object (o : jsobject Num) (k1 k2 : string) :
  either_field (JObj o) k1 k2
  = Return (js_coalesce (get o (lit k1)) (get o (lit k2))).
Proof.
  unfold either_field, field, js_coalesce. cbn [get_prop bind].
  destruct (nullish (get o (lit k1))); reflexivity.
Qed.

Lemma opt_trim_textual (v : JSValue Num) :
  textual v = true ->
  opt_trim v = Return (match v with JStr s => JStr (trim s) | _ => JUndefined end).
Proof. destruct v; try discriminate; reflexivity. Qed.



(** A payload comes only from an object with all three fields. *)
Lemma createPayload_payload (record p : JSValue Num) :
  createPayload record = Return p -> truthy p = true ->
  exists o, record = JObj o
    /\ present_text (get o (lit "asin")) = true
    /\ present_text (get o (lit "title")) = true
    /\ price_present (listing_price_of o) = true.
Proof.
  intros H Hp.
  assert (Hnull : forall r : Result Num (JSValue Num),
            r = Return JNull -> r = Return p -> False).
  { intros r -> E. injection E as <-. discriminate. }
  destruct record as [| | b | n | s | items | o];
    try discriminate H;
    try (exfalso; apply (Hnull _ eq_refl H)).
  exists o. split; [reflexivity|].
  unfold createPayload in H.
  rewrite !trimmed_field_object, either_field_object in H.
  fold (listing_price_of o) in H.
  destruct (get o (lit "asin")) as [| | | | sa | |]; try discriminate H;
    try (exfalso; destruct (get o (lit "title")); try discriminate H;
         apply (Hnull _ eq_refl H)).
  destruct (get o (lit "title")) as [| | | | st | |]; try discriminate H;
    cbn [opt_trim bind] in H;
    try (exfalso; revert H; apply Hnull; cbn [truthy negb orb];
         rewrite ?orb_true_r; reflexivity).
  cbn [present_text]. unfold price_present.
  destruct (negb (truthy (JStr (trim sa))) || negb (truthy (JStr (trim st)))
            || negb (truthy (listing_price_of o))
               && not_zero (listing_price_of o)) eqn:C.
  - exfalso; apply (Hnull _ eq_refl H).
  - clear H. apply orb_false_iff in C as [C C3].
    apply orb_false_iff in C as [C1 C2].
    apply negb_false_iff in C1, C2. cbn [truthy] in C1, C2.
    repeat split; try assumption.
    destruct (truthy (listing_price_of o)); [reflexivity|].
    cbn [negb andb] in C3. rewrite C3; reflexivity.
Qed.

Lemma trimmed_field_returns (o : jsobject Num) (k : string) :
  textual (get o (lit k)) = true ->
  exists v, trimmed_field (JObj o) k = Return v.
Proof.
  intros H. rewrite trimmed_field_object, (opt_trim_textual _ H).
  eexists; reflexivity.
Qed.



(** On the import path every create request carries a payload that
    [createPayload] made from a record of the file. *)
Lemma map_result_In {A B : Type} (f : A -> Result Num B) (xs : list A)
    (ys : list B) (y : B) :
  map_result f xs = Return ys -> In y ys ->
  exists x, In x xs /\ f x = Return y.
Proof.
  revert ys; induction xs as [|x xs IH]; intros ys H Hy; cbn [map_result] in H.
  - injection H as <-. destruct Hy.
  - destruct (f x) as [b|] eqn:E; [|discriminate]. cbn [bind] in H.
    destruct (map_result f xs) as [bs|]; [|discriminate]. cbn [bind] in H.
    injection H as <-. destruct Hy as [<- | Hy].
    + exists x; split; [left; reflexivity | exact E].
    + destruct (IH bs eq_refl Hy) as (x' & Hx' & E').
      exists x'; split; [right; exact Hx' | exact E'].
Qed.

Lemma handleImportFile_request (file : option jsstring)
    (create : nat -> JSValue Num -> Result Num (JSValue Num))
    (p : JSValue Num) :
  In (Create p) (handleImportFile JSON_parse native_key file create) ->
  exists text records record,
    file = Some text
    /\ parseImportedData JSON_parse native_key text = Return records
    /\ In record records
    /\ createPayload record = Return p /\ truthy p = true.
Proof.
  unfold handleImportFile. destruct file as [text|]; [|intros []].
  cbn [app In]. intros [H | H]; [discriminate|].
  apply in_app_or in H as [H | H];
    [| destruct H as [H | [H | []]]; discriminate].
  unfold import_body in H.
  destruct (parseImportedData JSON_parse native_key text) as [records|] eqn:E;
    cbn [bind] in H; [|destruct H as [H | []]; discriminate].
  destruct (Nat.eqb (length records) 0);
    [destruct H as [H | []]; discriminate|].
  destruct (map_result createPayload records) as [created|] eqn:M;
    cbn [bind] in H; [|destruct H as [H | []]; discriminate].
  cbv zeta in H.
  destruct (Nat.eqb (length (filter truthy created)) 0);
    [destruct H as [H | []]; discriminate|].
  apply in_app_or in H as [H | H].
  - apply in_map_iff in H as (q & Hq & Hin). injection Hq as ->.
    apply filter_In in Hin as [Hin Hp].
    destruct (map_result_In _ _ _ _ M Hin) as (record & Hrec & Hc).
    exists text, records, record. auto.
  - apply in_app_or in H as [[H | []] | H]; [discriminate|].
    destruct (Nat.eqb _ 0); [destruct H|].
    destruct H as [H | []]; discriminate.
Qed.


End Required.

(** ** On the sample runtime *)

Lemma sample_JSON_parse_rejects (rest : jsstring) :
  Sample.JSON_parse (65%N :: rest) = None.
Proof. vm_compute; reflexivity. Qed.


Lemma import_reads_export_back_witness :
  reads_back keys_read_back [Sample.plain_listing; Sample.quoting_listing]
    (parseImportedData Sample.JSON_parse Sample.native_key
       (csvContent [Sample.plain_listing; Sample.quoting_listing])).
Proof.
  apply import_reads_export_back.
  - intros rest; vm_compute; reflexivity.
  - vm_compute; reflexivity.
Defined.

Lemma parseImportedData_null_witness :
  parseImportedData Sample.JSON_parse Sample.native_key (lit "null")
  = Return [JNull]
  /\ parse_csv (Num:=Sample.IntNum) Sample.native_key (lit "null") = Return [].
Proof.
  apply parseImportedData_null. vm_compute; reflexivity.
Defined.


(** The number zero as price, on the sample runtime. *)
Example createPayload_free :
  exists props,
    createPayload (JObj Sample.free_record) = Return (JObj props)
    /\ get props (lit "listing_price") = JNum (Sample.Int 0).
Proof. eexists. split; vm_compute; reflexivity. Qed.

(** The text [null] as a file: the import ends in its error toast. *)
Example handleImportFile_null :
  handleImportFile Sample.JSON_parse Sample.native_key (Some (lit "null"))
                   Sample.accept_all
  = [ SetImporting true;
      Toast (lit "エラー") (lit "商品のインポートに失敗しました") true;
      SetImporting false; ResetFileInput ].
Proof. vm_compute; reflexivity. Qed.

(** A file with a short row and a row of commas: the short row gets the
    empty text for its missing value, the row of commas gives no record,
    and only the full row has all required fields. *)
Example parseImportedData_short_rows :
  parseImportedData Sample.JSON_parse Sample.native_key Sample.short_rows_file
  = Return
      [ JObj [ (lit "asin", JStr (lit "B08N5WRWNW"));
               (lit "title", JStr (lit "Cable"));
               (lit "listing_price", JStr []) ];
        JObj [ (lit "asin", JStr (lit "B000000001"));
               (lit "title", JStr (lit "Adapter"));
               (lit "listing_price", JStr (lit "2480")) ] ].
Proof. vm_compute; reflexivity. Qed.

Example handleImportFile_short_rows :
  requests_sent
    (handleImportFile Sample.JSON_parse Sample.native_key
       (Some Sample.short_rows_file) Sample.accept_all)
  = [ JObj [ (lit "asin", JStr (lit "B000000001"));
             (lit "jp_asin", JStr (lit "B000000001"));
             (lit "us_asin", JUndefined);
             (lit "title", JStr (lit "Adapter"));
             (lit "listing_price", JNum (Sample.Int 2480));
             (lit "jp_price", JNum (Sample.Int 0));
             (lit "us_price", JNum (Sample.Int 0));
             (lit "category", JUndefined);
             (lit "manufacturer", JUndefined);
             (lit "source_url", JUndefined);
             (lit "minimum_profit_threshold", JNum (Sample.Int 3000));
             (lit "validate", JBool true) ] ].
Proof. vm_compute; reflexivity. Qed.

Example parseImportedData_blank :
  parseImportedData Sample.JSON_parse Sample.native_key [32; 10; 9; 65279]%N
  = Return [].
Proof. vm_compute; reflexivity. Qed.

(** The dialog with a blank title, and with all required fields. *)
Example handleCreateListing_untitled :
  handleCreateListing Sample.error_text Sample.untitled_form
                      (Sample.accept_all 0)
  = [SetFormErrors [(lit "title", lit "商品名は必須です")]].
Proof. vm_compute; reflexivity. Qed.

Example handleCreateListing_filled :
  requests_sent
    (handleCreateListing Sample.error_text Sample.filled_form
                         (Sample.accept_all 0))
  = [ JObj [ (lit "asin", JStr (lit "B08N5WRWNW"));
             (lit "jp_asin", JStr (lit "B08N5WRWNW"));
             (lit "us_asin", JUndefined);
             (lit "title", JStr (lit "USB cable"));
             (lit "listing_price", JNum (Sample.Int 1980));
             (lit "jp_price", JNum (Sample.Int 0));
             (lit "us_price", JNum (Sample.Int 9));
             (lit "category", JUndefined);
             (lit "manufacturer", JUndefined);
             (lit "source_url", JUndefined);
             (lit "minimum_profit_threshold", JNum (Sample.Int 3000));
             (lit "validate", JBool true) ] ].
Proof. vm_compute; reflexivity. Qed.

(** C2 as the specification states it fails: on a plain listing the
    profit is not stored under [profit]; and even for the other columns, a
    title that starts with a space, or has a quote right before a comma,
    does not come back. None of the three listings has a newline. *)
Lemma import_does_not_read_export_back :
  (forallb no_newline [Sample.plain_listing] = true
   /\ ~ reads_back csv_keys [Sample.plain_listing]
         (parseImportedData Sample.JSON_parse Sample.native_key
            (csvContent [Sample.plain_listing])))
  /\ (forallb no_newline [Sample.padded_listing] = true
      /\ ~ reads_back keys_read_back [Sample.padded_listing]
            (parseImportedData Sample.JSON_parse Sample.native_key
               (csvContent [Sample.padded_listing])))
  /\ (forallb no_newline [Sample.inch_listing] = true
      /\ ~ reads_back keys_read_back [Sample.inch_listing]
            (parseImportedData Sample.JSON_parse Sample.native_key
               (csvContent [Sample.inch_listing]))).
Proof.
  split; [|split]; (split; [vm_compute; reflexivity|]).
  - intros (records & E & F). vm_compute in E. injection E as <-.
    inversion F as [|? ? ? ? Hrec _]; subst.
    specialize (Hrec (lit "profit")). vm_compute in Hrec.
    specialize (Hrec (or_intror (or_intror (or_intror (or_introl eq_refl))))).
    discriminate.
  - intros (records & E & F). vm_compute in E. injection E as <-.
    inversion F as [|? ? ? ? Hrec _]; subst.
    specialize (Hrec (lit "title")). vm_compute in Hrec.
    specialize (Hrec (or_intror (or_introl eq_refl))).
    discriminate.
  - intros (records & E & F). vm_compute in E. injection E as <-.
    inversion F as [|? ? ? ? Hrec _]; subst.
    specialize (Hrec (lit "title")). vm_compute in Hrec.
    specialize (Hrec (or_intror (or_introl eq_refl))).
    discriminate.
Qed.

End ProductsFacts.

(* ================================================================== *)
(** * Facts about the research page                                   *)
(* ================================================================== *)

Module ResearchFacts.
Import JS Api Research Spec.

Section Search.

Context {Num : Type} {NumOps : JSNumber Num}.

Variable error_text : Exn Num -> jsstring.

Lemma repeat_class_spec (cls : char -> bool) (n : nat) (s : jsstring) :
  repeat_class cls n s = true <-> length s = n /\ forallb cls s = true.
Proof.
  revert s; induction n as [|n IH]; intros [|c s]; cbn [repeat_class length forallb].
  - tauto.
  - split; [discriminate | intros [E _]; discriminate].
  - split; [discriminate | intros [E _]; discriminate].
  - rewrite !andb_true_iff, IH. split.
    + intros (Hc & <- & Hs); auto.
    + intros (E & Hc & Hs); injection E as <-; auto.
Qed.

Lemma is_upper_alnum_spec (c : char) :
  is_upper_alnum c = true <-> (65 <= c <= 90)%N \/ (48 <= c <= 57)%N.
Proof.
  unfold is_upper_alnum.
  rewrite orb_true_iff, !andb_true_iff, !N.leb_le. tauto.
Qed.

(** The pattern accepts exactly the ten-character upper-case
    alphanumeric texts. *)
Lemma asin_pattern_valid (s : jsstring) :
  asin_pattern s = true <-> valid_asin s.
Proof.
  unfold asin_pattern, valid_asin. rewrite repeat_class_spec, forallb_forall.
  split; intros [E H]; (split; [exact E|]); intros c Hc;
    apply is_upper_alnum_spec, H, Hc.
Qed.

Lemma on_response_no_fetch (fetched : Fetched) (effects : list Effect)
    (r : Request) :
  on_response fetched = Return effects -> ~ In (Fetch r) effects.
Proof.
  unfold on_response, throw_error_of.
  destruct fetched as [response|]; [|discriminate].
  destruct (resp_json response) as [data|]; [|discriminate].
  destruct (negb (resp_ok response)).
  - destruct (get_prop data (lit "error")); discriminate.
  - destruct (get_prop data (lit "success")) as [success|]; [|discriminate].
    destruct (truthy success).
    + intros E; injection E as <-. intros [H | [H | []]]; discriminate.
    + destruct (get_prop data (lit "error")); discriminate.
Qed.

(** C5. The search sends a request exactly when the trimmed input is a
    valid ASIN, and then it is the one POST to the comparison path with
    asin and us_asin the trimmed input and exchange_rate 150; on every
    other input, the empty and the blank one included, it shows one error
    toast and does nothing else. *)
Theorem handleSearch_sends_iff_valid (asin : jsstring)
    (fetch : Request -> Fetched) :
  (forall r, In (Fetch r) (handleSearch error_text asin fetch)
             <-> valid_asin (trim asin) /\ r = search_request asin)
  /\ (valid_asin (trim asin) ->
      exists after,
        handleSearch error_text asin fetch
        = [SetLoading true; SetError None; SetResults None;
           Fetch (search_request asin)] ++ after
        /\ forall r, ~ In (Fetch r) after)
  /\ (~ valid_asin (trim asin) ->
      exists description,
        handleSearch error_text asin fetch
        = [Toast (lit "エラー") description true]).
Proof.
  assert (Hvalid : valid_asin (trim asin) ->
            exists after,
              handleSearch error_text asin fetch
              = [SetLoading true; SetError None; SetResults None;
                 Fetch (search_request asin)] ++ after
              /\ forall r, ~ In (Fetch r) after).
  { intros Hv. unfold handleSearch.
    apply asin_pattern_valid in Hv as Hp. rewrite Hp.
    destruct Hv as [Hlen _]. rewrite Hlen. cbn [Nat.eqb negb].
    eexists; split; [reflexivity|]. intros r H.
    apply in_app_or in H as [H | [H | []]]; [|discriminate].
    destruct (on_response (fetch (compare_request asin))) as [effects|e] eqn:E.
    - exact (on_response_no_fetch _ _ r E H).
    - destruct H as [H | [H | []]]; discriminate. }
  assert (Hinvalid : ~ valid_asin (trim asin) ->
            exists description,
              handleSearch error_text asin fetch
              = [Toast (lit "エラー") description true]).
  { intros Hv. unfold handleSearch.
    destruct (Nat.eqb (length (trim asin)) 0); [eexists; reflexivity|].
    destruct (asin_pattern (trim asin)) eqn:Hp.
    - exfalso; apply Hv, asin_pattern_valid, Hp.
    - eexists; reflexivity. }
  split; [|split; assumption].
  intros r. split.
  - intros H. destruct (asin_pattern (trim asin)) eqn:Hp.
    + apply asin_pattern_valid in Hp. split; [exact Hp|].
      destruct (Hvalid Hp) as (after & E & Hafter). rewrite E in H.
      cbn [app In] in H.
      destruct H as [H | [H | [H | [H | H]]]]; try discriminate.
      * injection H as <-; reflexivity.
      * exfalso; exact (Hafter r H).
    + assert (Hv : ~ valid_asin (trim asin)).
      { intros Hv; apply asin_pattern_valid in Hv; congruence. }
      destruct (Hinvalid Hv) as (d & E). rewrite E in H.
      destruct H as [H | []]; discriminate.
  - intros [Hv ->]. destruct (Hvalid Hv) as (after & E & _). rewrite E.
    cbn [app In]. auto.
Qed.

End Search.

(** On the sample runtime: an ASIN between spaces is sent trimmed, and a
    lower-case one is refused. *)
Example handleSearch_valid :
  handleSearch Sample.error_text (lit " B08N5WRWNW ")
    (Sample.always (Sample.response_with true 200 Sample.success_body))
  = [ SetLoading true; SetError None; SetResults None;
      Fetch (search_request (lit "B08N5WRWNW"));
      SetResults (Some Sample.success_body);
      Toast (lit "成功") (lit "商品情報を取得しました") false;
      SetLoading false ].
Proof. vm_compute; reflexivity. Qed.

Example handleSearch_lower_case :
  handleSearch Sample.error_text (lit "b08n5wrwnw")
    (Sample.always (Sample.response_with true 200 Sample.success_body))
  = [ Toast (lit "エラー")
        (lit "有効なASINを入力してください（10文字の英数字）") true ].
Proof. vm_compute; reflexivity. Qed.

End ResearchFacts.

(* ================================================================== *)
(** * Facts about the HTTP helper                                     *)
(* ================================================================== *)

Module ApiFacts.
Import JS Api Spec.

Section Outcome.

Context {Num : Type} {NumOps : JSNumber Num}.



End Outcome.



End ApiFacts.

(* ================================================================== *)
(** * Facts about the blacklist page                                  *)
(* ================================================================== *)

Module BlacklistFacts.
Import JS Api Blacklist Spec JSFacts.

Section Loading.

Context {Num : Type} {NumOps : JSNumber Num}.

Lemma toEntry_item_of (e : JSValue Num) : toEntry e = item_of e.
Proof. reflexivity. Qed.

(** A filter that did not throw kept the entries of the asked types. *)
Lemma filter_result_has_type (names : list string)
    (items kept_items : list (JSValue Num)) :
  filter_result (type_among names) items = Return kept_items ->
  kept_items = filter (has_type names) items.
Proof.
  revert kept_items; induction items as [|e items IH]; intros kept_items H;
    cbn [filter_result] in H.
  - injection H as <-; reflexivity.
  - unfold type_among at 1 in H. unfold has_type at 1, property. cbn [filter].
    destruct (get_prop e (lit "entry_type")) as [t|]; [|discriminate].
    cbn [bind] in H.
    destruct (filter_result (type_among names) items) as [rest|];
      [|discriminate].
    cbn [bind] in H. injection H as <-. rewrite (IH rest eq_refl).
    reflexivity.
Qed.

Lemma has_type_item (names : list string) (e e' : JSValue Num) :
  item_of e = item_of e' -> has_type names e = has_type names e'.
Proof.
  intros H. unfold has_type.
  assert (E : property e "entry_type" = property e' "entry_type")
    by (injection H; auto).
  rewrite E; reflexivity.
Qed.

Lemma has_type_sub (names all : list string) (e : JSValue Num) :
  incl names all -> has_type names e = true -> has_type all e = true.
Proof.
  unfold has_type. rewrite !existsb_exists.
  intros Hi (n & Hn & H). exists n; split; [apply Hi, Hn | exact H].
Qed.

Lemma not_in_filtered (names all : list string)
    (items : list (JSValue Num)) (e : JSValue Num) :
  incl names all -> has_type all e = false ->
  ~ In (item_of e) (List.map item_of (filter (has_type names) items)).
Proof.
  intros Hi He H. apply in_map_iff in H as (e' & E & H').
  apply filter_In in H' as [_ Ht].
  rewrite (has_type_item names e' e E) in Ht.
  rewrite (has_type_sub names all e Hi Ht) in He. discriminate.
Qed.

(** C7. When loading the blacklist sets the state, the response was a
    success with the entries [items], and the state holds, in the order
    of the response: under asins exactly the entries of type asin, under
    brands exactly those of type brand or manufacturer, under keywords
    exactly those of type keyword, each in the shape that takes id from
    entry_id and type from entry_type; an entry of another type is in
    none of the three. *)
Theorem loadBlacklist_partitions (getAll : Result Num (JSValue Num))
    (state : BlacklistState) :
  In (SetBlacklist state) (loadBlacklist getAll) -> partitions getAll state.
Proof.
  unfold loadBlacklist, partitions. cbv zeta. cbn [app In].
  intros [H | H]; [discriminate|].
  apply in_app_or in H as [H | [H | []]]; [|discriminate].
  destruct getAll as [response|]; [|destruct H as [H | []]; discriminate].
  unfold property.
  destruct (get_prop response (lit "success")) as [success|] eqn:Es;
    [|destruct H as [H | []]; discriminate].
  destruct (get_prop response (lit "entries")) as [entries|] eqn:Ee;
    [|destruct H as [H | []]; discriminate].
  destruct (truthy success) eqn:Ts; [|destruct H].
  unfold transform in H.
  destruct (js_or entries (JArr [])) as [| | | | | items |] eqn:Ej;
    try (destruct H as [H | []]; discriminate).
  destruct (filter_result (type_among ["asin"%string]) items) as [a|] eqn:Ea;
    cbn [bind] in H; [|destruct H as [H | []]; discriminate].
  destruct (filter_result (type_among ["brand"; "manufacturer"]%string) items)
    as [b|] eqn:Eb;
    cbn [bind] in H; [|destruct H as [H | []]; discriminate].
  destruct (filter_result (type_among ["keyword"%string]) items) as [k|] eqn:Ek;
    cbn [bind] in H; [|destruct H as [H | []]; discriminate].
  destruct H as [H | []]. injection H as <-.
  apply filter_result_has_type in Ea, Eb, Ek. subst a b k.
  exists response, items. cbn [asins brands keywords].
  unfold property. rewrite Es, Ee.
  repeat (split; [reflexivity || assumption|]).
  intros e _ He H. rewrite !in_app_iff in H.
  destruct H as [H | [H | H]]; revert H;
    apply (not_in_filtered _ ["asin"; "brand"; "manufacturer"; "keyword"]%string);
    try exact He; intros n Hn; cbn [In] in *; tauto.
Qed.

End Loading.

Lemma loadBlacklist_partitions_witness :
  partitions (Return Sample.blacklist_response) Sample.blacklist_state.
Proof.
  apply loadBlacklist_partitions.
  vm_compute. right; left; reflexivity.
Defined.

(** ** Adding entries *)

Section Adding.

Context {Num : Type} {NumOps : JSNumber Num}.

Variable toUpperCase : jsstring -> jsstring.

Lemma cleaned_kept (values : list jsstring) : cleaned values = kept values.
Proof.
  unfold cleaned, kept. apply filter_ext. intros v.
  destruct (length v); reflexivity.
Qed.

Lemma create_request_expected (t : EntryType) (v : jsstring) :
  create_request t v = expected_request t v.
Proof. destruct t; reflexivity. Qed.

Lemma requests_of_app (a b : list (Effect (Num:=Num))) :
  requests_of (a ++ b) = requests_of a ++ requests_of b.
Proof.
  induction a as [|e a IH]; [reflexivity|].
  destruct e; cbn [app requests_of]; rewrite IH; reflexivity.
Qed.

(** When every request resolves the loop sends one per value. *)
Lemma create_each_all (t : EntryType) (total index : nat)
    (create : nat -> CreateRequest -> Result Num (JSValue Num))
    (values : list jsstring) :
  all_resolve create ->
  requests_of (create_each t total index create values)
  = List.map (expected_request t) values.
Proof.
  intros Hall. revert index; induction values as [|v values IH]; intros index.
  - reflexivity.
  - cbn [create_each requests_of List.map].
    destruct (Hall index (create_request t v)) as [r ->].
    rewrite IH, create_request_expected; reflexivity.
Qed.

(** In any case it sends the requests of the first values, up to and
    with the first that rejects. *)
Lemma create_each_prefix (t : EntryType) (total index : nat)
    (create : nat -> CreateRequest -> Result Num (JSValue Num))
    (values : list jsstring) :
  exists k,
    requests_of (create_each t total index create values)
    = firstn k (List.map (expected_request t) values).
Proof.
  revert index; induction values as [|v values IH]; intros index.
  - exists 0; reflexivity.
  - cbn [create_each requests_of List.map].
    rewrite create_request_expected.
    destruct (create index (expected_request t v)).
    + destruct (IH (S index)) as [k ->]. exists (S k); reflexivity.
    + exists 1; cbn [requests_of firstn]; reflexivity.
Qed.

Lemma requests_of_handleAddEntries (t : EntryType) (values : list jsstring)
    (create : nat -> CreateRequest -> Result Num (JSValue Num)) :
  requests_of (handleAddEntries t values create)
  = requests_of (create_each t (length (kept values)) 0 create (kept values)).
Proof.
  unfold handleAddEntries. cbv zeta. rewrite cleaned_kept.
  destruct (kept values) as [|v vs]; [reflexivity|].
  cbn [length Nat.eqb]. rewrite !requests_of_app.
  cbn [requests_of app]. rewrite app_nil_r; reflexivity.
Qed.

Lemma split_keywords_pieces (s : jsstring) :
  Forall (fun piece => forallb (fun c => negb (is_separator c)) piece = true)
         (split_keywords s).
Proof.
  induction s as [|c s IH]; [repeat constructor|].
  cbn [split_keywords]. unfold is_separator in *.
  destruct (N.eqb c LF) eqn:E1; [constructor; [reflexivity | exact IH]|].
  destruct (N.eqb c CR && starts_with_LF s); [exact IH|].
  destruct (N.eqb c COMMA) eqn:E2;
    [constructor; [reflexivity | exact IH]|].
  destruct (N.eqb c IDEOGRAPHIC_COMMA) eqn:E3;
    [constructor; [reflexivity | exact IH]|].
  cbn [orb]. destruct (split_keywords s) as [|p ps].
  - repeat constructor. cbn [forallb]. rewrite E1, E2, E3; reflexivity.
  - inversion IH as [|? ? Hp Hps]; subst. constructor; [|exact Hps].
    cbn [forallb]. rewrite E1, E2, E3, Hp; reflexivity.
Qed.

Lemma split_keywords_no_CR (s : jsstring) :
  forallb (fun c => negb (N.eqb c CR)) s = true ->
  split_keywords s = split_char is_separator s.
Proof.
  induction s as [|c s IH]; [reflexivity|].
  cbn [forallb]. rewrite andb_true_iff, negb_true_iff. intros [Hc H].
  cbn [split_keywords split_char]. unfold is_separator at 1.
  rewrite Hc, (IH H). cbn [andb].
  destruct (N.eqb c LF); [reflexivity|]. cbn [orb].
  destruct (N.eqb c COMMA || N.eqb c IDEOGRAPHIC_COMMA); reflexivity.
Qed.

End Adding.

(** On the sample runtime: four keywords are left of the sample input,
    and an ASIN is sent in upper case with severity high. *)
Example handleAddKeywords_pieces :
  requests_of (handleAddKeywords Sample.keyword_input Sample.accept_all)
  = List.map (expected_request keyword)
      [lit "replica"; lit "fake"; lit "コピー"; lit "偽物"].
Proof. vm_compute; reflexivity. Qed.

Example handleAddAsin_upper_case :
  requests_of (handleAddAsin Sample.toUpperCase (lit " b08n5wrwnw")
                             Sample.accept_all)
  = [ {| create_type := asin;
         create_value := lit "B08N5WRWNW";
         create_reason := lit "手動で登録されたASIN";
         create_severity := lit "high" |} ].
Proof. vm_compute; reflexivity. Qed.

Example handleAddBrand_blank :
  handleAddBrand (lit "  ") (Sample.accept_all (A:=CreateRequest))
  = [Toast (lit "エラー") (lit "追加する内容を入力してください") true].
Proof. vm_compute; reflexivity. Qed.

(** C9 as the specification states it fails: with two keywords and a
    server that rejects, one request goes out, not one per keyword. *)
Lemma handleAddKeywords_stops_at_failure :
  kept (split_keywords (lit "replica,fake")) = [lit "replica"; lit "fake"]
  /\ requests_of (handleAddKeywords (lit "replica,fake") Sample.reject_all)
     = [expected_request keyword (lit "replica")]
  /\ requests_of (handleAddKeywords (lit "replica,fake") Sample.reject_all)
     <> List.map (expected_request keyword)
                (kept (split_keywords (lit "replica,fake"))).
Proof.
  split; [|split]; vm_compute; [reflexivity | reflexivity |].
  intros H; discriminate H.
Qed.

End BlacklistFacts.

(* ================================================================== *)
(** * Facts about the dashboard                                       *)
(* ================================================================== *)

Module DashboardFacts.
Import JS Api Dashboard Spec.

Section Statistics.

Context {Num : Type} {NumOps : JSNumber Num}.





End Statistics.

End DashboardFacts.

(* ================================================================== *)
(** * More about the CSV text of the product list page                *)
(* ================================================================== *)

Module CsvFacts.
Import JS Api Products Spec Shape JSFacts ProductsFacts.

Section Cells.

Context {Num : Type} {NumOps : JSNumber Num}.


Lemma lazy_close_shape (s m : jsstring) :
  lazy_close s = Some m ->
  exists x, m = x ++ [QUOTE] /\ no_terminator x = true.
Proof.
  revert m; induction s as [|c r IH]; intros m; cbn [lazy_close]; [discriminate|].
  destruct (N.eqb c QUOTE && lookahead r).
  - intros [= <-]. now exists [].
  - destruct (is_line_terminator c) eqn:T; [discriminate|].
    destruct (lazy_close r) as [m'|]; cbn [option_map]; [|discriminate].
    intros [= <-]. destruct (IH m' eq_refl) as (x & -> & Hx).
    exists (c :: x). split; [reflexivity|].
    unfold no_terminator in *. cbn [forallb]. now rewrite T, Hx.
Qed.

Lemma bare_field_shape (s m : jsstring) :
  bare_field s = Some m -> m <> [] /\ forallb is_bare m = true.
Proof.
  revert m; induction s as [|c r IH]; intros m; cbn [bare_field]; [discriminate|].
  destruct (is_bare c) eqn:B; [|discriminate].
  destruct (bare_field r) as [m'|].
  - intros [= <-]. destruct (IH m' eq_refl) as [_ H].
    split; [discriminate|]. cbn [forallb]. now rewrite B, H.
  - destruct (lookahead r); [|discriminate].
    intros [= <-]. split; [discriminate|]. cbn [forallb]. now rewrite B.
Qed.

Lemma match_at_shape (s m : jsstring) :
  match_at s = Some m -> field_match m.
Proof.
  unfold match_at, quoted_field.
  destruct s as [|c r].
  - cbn [bare_field]. discriminate.
  - destruct (N.eqb c QUOTE) eqn:Q.
    + destruct (lazy_close r) as [m'|] eqn:L; cbn [option_map].
      * intros [= <-]. destruct (lazy_close_shape _ _ L) as (x & -> & Hx).
        left. now exists x.
      * intros H. right. now apply bare_field_shape with (s := c :: r).
    + intros H. right. now apply bare_field_shape with (s := c :: r).
Qed.

Lemma lazy_close_prefix (s m : jsstring) :
  lazy_close s = Some m -> exists tail, s = m ++ tail.
Proof.
  revert m; induction s as [|c r IH]; intros m; cbn [lazy_close]; [discriminate|].
  destruct (N.eqb c QUOTE && lookahead r) eqn:E.
  - intros [= <-]. apply andb_prop in E as [E _].
    apply N.eqb_eq in E as ->. now exists r.
  - destruct (is_line_terminator c); [discriminate|].
    destruct (lazy_close r) as [m'|]; cbn [option_map]; [|discriminate].
    intros [= <-]. destruct (IH m' eq_refl) as (tail & ->). now exists tail.
Qed.

Lemma bare_field_prefix (s m : jsstring) :
  bare_field s = Some m -> exists tail, s = m ++ tail.
Proof.
  revert m; induction s as [|c r IH]; intros m; cbn [bare_field]; [discriminate|].
  destruct (is_bare c); [|discriminate].
  destruct (bare_field r) as [m'|].
  - intros [= <-]. destruct (IH m' eq_refl) as (tail & ->). now exists tail.
  - destruct (lookahead r); [|discriminate]. intros [= <-]. now exists r.
Qed.

Lemma match_at_prefix (s m : jsstring) :
  match_at s = Some m -> exists tail, s = m ++ tail.
Proof.
  unfold match_at, quoted_field.
  destruct s as [|c r]; [cbn [bare_field]; discriminate|].
  destruct (N.eqb c QUOTE) eqn:Q.
  - destruct (lazy_close r) as [m'|] eqn:L; cbn [option_map].
    + intros [= <-]. apply N.eqb_eq in Q as ->.
      destruct (lazy_close_prefix _ _ L) as (tail & ->). now exists tail.
    + apply bare_field_prefix.
  - apply bare_field_prefix.
Qed.

Lemma field_match_not_nil (m : jsstring) : field_match m -> m <> [].
Proof. intros [(x & -> & _)|[H _]]; [discriminate|exact H]. Qed.

Lemma scan_fields_shape (skip : nat) (s : jsstring) :
  Forall field_match (scan_fields skip s).
Proof.
  revert skip; induction s as [|c r IH]; intros skip; cbn [scan_fields].
  - constructor.
  - destruct skip as [|k]; [|apply IH].
    destruct (match_at (c :: r)) as [m|] eqn:M; [|apply IH].
    constructor; [now apply match_at_shape with (s := c :: r)|apply IH].
Qed.

Lemma scan_fields_length (skip : nat) (s : jsstring) :
  length (concat (scan_fields skip s)) <= length s - skip.
Proof.
  revert skip; induction s as [|c r IH]; intros skip; cbn [scan_fields].
  - cbn. lia.
  - destruct skip as [|k].
    + destruct (match_at (c :: r)) as [m|] eqn:M.
      * pose proof (field_match_not_nil _ (match_at_shape _ _ M)) as N0.
        destruct (match_at_prefix _ _ M) as (tail & E).
        apply (f_equal (@length _)) in E. rewrite length_app in E.
        cbn [length] in E.
        specialize (IH (Nat.pred (length m))).
        cbn [concat length]. rewrite length_app.
        destruct m as [|x m]; [congruence|]. cbn [length Nat.pred] in *. lia.
      * specialize (IH 0). cbn [length]. lia.
    + specialize (IH k). cbn [length]. lia.
Qed.

(** X2. Every match of the field pattern in a line is a text between
    two double quotes without a line terminator in it, or a non-empty run
    of characters that are no quote, comma or white space; and the
    matches do not overlap: together they are no longer than the line. *)
Theorem match_fields_shape (line : jsstring) :
  Forall field_match (match_fields line)
  /\ length (concat (match_fields line)) <= length line.
Proof.
  split; [apply scan_fields_shape|].
  pose proof (scan_fields_length 0 line). unfold match_fields. lia.
Qed.

End Cells.

End CsvFacts.

(* ================================================================== *)
(** * More about trimming                                             *)
(* ================================================================== *)

Module StringFacts.
Import JS Spec JSFacts.

Lemma trimStart_suffix (s : jsstring) :
  exists w, s = w ++ trimStart s /\ forallb is_ws w = true.
Proof.
  induction s as [|c r (w & E & Hw)]; [now exists []|].
  cbn [trimStart]. destruct (is_ws c) eqn:W.
  - exists (c :: w). cbn [app forallb]. rewrite W, Hw. now rewrite E at 1.
  - now exists [].
Qed.

(** What [trim] returns is empty, or starts and ends with a character
    that is no white space. *)
Lemma trim_shape (s : jsstring) :
  trim s = []
  \/ exists c r, trim s = c :: r /\ is_ws c = false /\ ends_solid (c :: r).
Proof.
  unfold trim, trimEnd.
  destruct (trimStart_shape s) as [-> | (c & r & -> & Hc)]; [now left|].
  right.
  destruct (trimStart_shape (rev (c :: r))) as [E | (d & u & E & Hd)].
  - apply trimStart_nil_iff in E. rewrite forallb_rev in E.
    cbn [forallb] in E. rewrite Hc in E. discriminate.
  - destruct (trimStart_suffix (rev (c :: r))) as (w & Ew & Hw).
    rewrite E in Ew |- *.
    apply (f_equal (@rev _)) in Ew. rewrite rev_involutive, rev_app_distr in Ew.
    cbn [rev] in Ew |- *.
    destruct (rev u) as [|x y] eqn:U.
    + cbn [app] in Ew |- *.
      exists d, []. repeat split; [exact Hd|]. now exists [], d.
    + cbn [app] in Ew |- *. injection Ew as Ex _.
      exists x, (y ++ [d]). repeat split; [now rewrite <- Ex|].
      now exists (x :: y), d.
Qed.

Lemma trim_idempotent (s : jsstring) : trim (trim s) = trim s.
Proof.
  destruct (trim_shape s) as [-> | (c & r & -> & Hc & He)]; [reflexivity|].
  now apply trim_solid.
Qed.

End StringFacts.

(* ================================================================== *)
(** * Records and payloads of the import                              *)
(* ================================================================== *)

Module ImportFacts.
Import JS Api Products Spec Shape JSFacts ProductsFacts StringFacts.

Section Records.

Context {Num : Type} {NumOps : JSNumber Num}.

Variable JSON_parse : jsstring -> option (JSValue Num).
Variable native_key : jsstring -> jsstring.
Variable error_text : Exn Num -> jsstring.

Lemma In_set (o : jsobject Num) (k k' : jsstring) (v v' : JSValue Num) :
  In (k', v') (set o k v) -> In (k', v') o \/ (k' = k /\ v' = v).
Proof.
  induction o as [|[k0 v0] r IH]; cbn [set].
  - intros [[= <- <-] | []]. now right.
  - destruct (str_eqb k0 k) eqn:E.
    + apply str_eqb_eq in E as ->.
      intros [[= <- <-] | H]; [now right | left; now right].
    + intros [H | H]; [left; now left|].
      destruct (IH H) as [H' | H']; [left; now right | now right].
Qed.

Lemma fill_record_members (names headers : list jsstring) (index : nat)
    (values : list jsstring) (record : jsobject Num) :
  incl headers names ->
  (forall k v, In (k, v) record -> In k names /\ exists s, v = JStr s) ->
  forall k v, In (k, v) (fill_record headers index values record) ->
              In k names /\ exists s, v = JStr s.
Proof.
  revert index record; induction headers as [|h rest IH];
    intros index record Hincl Hrec; cbn [fill_record]; [exact Hrec|].
  apply IH.
  - intros x Hx. apply Hincl. now right.
  - intros k v H. apply In_set in H as [H | [-> ->]]; [now apply Hrec|].
    split; [apply Hincl; now left | eexists; reflexivity].
Qed.

Lemma fill_record_has (headers : list jsstring) (index : nat)
    (values : list jsstring) (record : jsobject Num) (h : jsstring) :
  In h headers \/ (exists s, get record h = JStr s) ->
  exists s, get (fill_record headers index values record) h = JStr s.
Proof.
  revert index record; induction headers as [|x rest IH];
    intros index record H; cbn [fill_record].
  - destruct H as [[] | H]; exact H.
  - apply IH.
    destruct (str_eqb x h) eqn:E.
    + right. apply str_eqb_eq in E as ->. rewrite get_set_same.
      eexists; reflexivity.
    + destruct H as [[-> | H] | H].
      * rewrite str_eqb_refl in E. discriminate.
      * now left.
      * right. now rewrite get_set_other.
Qed.

(** X3. The CSV branch of the import gives at most one record for each
    data line, and every record is an object that has a string under
    every header and no property besides the headers. *)
Theorem read_records_shape (headers lines : list jsstring) :
  length (read_records (Num:=Num) headers lines) <= length lines
  /\ Forall (text_record (Num:=Num) headers) (read_records headers lines).
Proof.
  induction lines as [|line rest [IHl IHf]]; cbn [read_records].
  - split; [cbn; lia | constructor].
  - destruct (Nat.eqb _ 0).
    + split; [cbn [length]; lia | exact IHf].
    + split; [cbn [length]; lia|]. constructor; [|exact IHf].
      eexists. split; [reflexivity|]. split.
      * apply fill_record_members; [apply incl_refl | intros k v []].
      * intros k Hk. apply fill_record_has. now left.
Qed.

Lemma fill_record_app (pre post : list jsstring) (index : nat)
    (values : list jsstring) (record : jsobject Num) :
  fill_record (pre ++ post) index values record
  = fill_record post (index + length pre) values
      (fill_record pre index values record).
Proof.
  revert index record; induction pre as [|x pre IH]; intros index record;
    cbn [app fill_record length].
  - now rewrite Nat.add_0_r.
  - rewrite IH. f_equal. lia.
Qed.

Lemma fill_record_other (headers : list jsstring) (index : nat)
    (values : list jsstring) (record : jsobject Num) (h : jsstring) :
  ~ In h headers ->
  get (fill_record headers index values record) h = get record h.
Proof.
  revert index record; induction headers as [|x rest IH];
    intros index record H; cbn [fill_record]; [reflexivity|].
  rewrite IH by (intros Hin; apply H; now right).
  apply get_set_other.
  destruct (str_eqb x h) eqn:E; [|reflexivity].
  apply str_eqb_eq in E. exfalso. apply H. now left.
Qed.

(** X4. When two columns have the same header, the record keeps the
    value of the last of them: under a header that does not come again
    further right, a record holds the value at that column, and the
    empty text when the line has no value there. *)
Theorem fill_record_last_wins (pre post : list jsstring) (h : jsstring)
    (values : list jsstring) :
  ~ In h post ->
  get (fill_record (Num:=Num) (pre ++ h :: post) 0 values []) h
  = JStr (nth (length pre) values []).
Proof.
  intros H. rewrite fill_record_app. cbn [fill_record Nat.add].
  rewrite fill_record_other by exact H.
  rewrite get_set_same. f_equal.
  generalize (length pre) as n. clear.
  intros n; revert values; induction n as [|n IH]; intros [|v vs];
    cbn [nth_error nth]; auto.
Qed.

(** ** Payloads *)

Lemma solid_trim (s : jsstring) : trim s <> [] -> solid_text (Num:=Num) (JStr (trim s)).
Proof. intros H. exists (trim s). auto using trim_idempotent. Qed.

Lemma length_zero_false (s : jsstring) :
  Nat.eqb (length s) 0 = false -> s <> [].
Proof. destruct s; [discriminate | discriminate]. Qed.

Lemma opt_trim_solid (v r : JSValue Num) :
  opt_trim v = Return r -> truthy r = true -> solid_text r.
Proof.
  destruct v; cbn [opt_trim]; intros [= <-]; cbn [truthy]; try discriminate.
  intros H. apply solid_trim, length_zero_false.
  now destruct (Nat.eqb (length (trim s)) 0).
Qed.

Lemma opt_trim_optional (v r : JSValue Num) :
  opt_trim v = Return r -> optional_text (js_or r JUndefined).
Proof.
  intros H. unfold js_or. destruct (truthy r) eqn:T; [|now left].
  destruct (opt_trim_solid _ _ H T) as (s & -> & Hs & _).
  right. now exists s.
Qed.

Lemma solid_optional (v : JSValue Num) :
  solid_text v -> optional_text (js_or v JUndefined).
Proof.
  intros (s & -> & Hs & _). unfold js_or. cbn [truthy].
  destruct s; [congruence|]. right. eexists; split; [reflexivity|discriminate].
Qed.

Lemma number_or_a_number (v : JSValue Num) (d : Z) :
  a_number (JNum (number_or v d)).
Proof.
  eexists; split; [reflexivity|]. unfold number_or.
  destruct (num_is_zero (to_number v) || num_is_nan (to_number v)) eqn:E.
  - apply num_of_Z_is_nan.
  - now apply orb_false_elim in E.
Qed.

Lemma number_or_not_zero (v : JSValue Num) (d : Z) :
  d <> 0%Z ->
  num_is_nan (number_or v d) = false /\ num_is_zero (number_or v d) = false.
Proof.
  intros Hd. unfold number_or.
  destruct (num_is_zero (to_number v) || num_is_nan (to_number v)) eqn:E.
  - rewrite num_of_Z_is_nan, num_of_Z_is_zero. split; [reflexivity|].
    now apply Z.eqb_neq.
  - apply orb_false_elim in E as [-> ->]. now split.
Qed.

Lemma createPayload_sound (record p : JSValue Num) :
  createPayload record = Return p -> truthy p = true -> sound_payload p.
Proof.
  intros H Hp.
  destruct (createPayload_payload _ _ H Hp) as (o & -> & _).
  unfold createPayload in H.
  rewrite !either_field_object, !trimmed_field_object in H.
  destruct (opt_trim (get o (lit "asin"))) as [a|] eqn:Ea; [|discriminate].
  destruct (opt_trim (get o (lit "title"))) as [t|] eqn:Et; [|discriminate].
  cbn [bind] in H.
  destruct (truthy a) eqn:Ta; cbn [negb orb] in H;
    [|injection H as <-; discriminate].
  destruct (truthy t) eqn:Tt; cbn [negb orb] in H;
    [|injection H as <-; discriminate].
  destruct (_ && _) in H; [injection H as <-; discriminate|].
  destruct (opt_trim (get o (lit "jp_asin"))) as [ja|] eqn:Eja; [|discriminate].
  destruct (opt_trim (get o (lit "us_asin"))) as [ua|] eqn:Eua; [|discriminate].
  destruct (opt_trim (get o (lit "category"))) as [ca|] eqn:Eca; [|discriminate].
  destruct (opt_trim (get o (lit "manufacturer"))) as [ma|] eqn:Ema;
    [|discriminate].
  destruct (opt_trim (get o (lit "source_url"))) as [su|] eqn:Esu;
    [|discriminate].
  cbn [bind] in H.
  assert (Hsu : exists su',
            (if truthy su then Return su
             else opt_trim (get o (lit "sourceUrl"))) = Return su'
            /\ optional_text (js_or su' JUndefined)).
  { destruct (truthy su) eqn:Tsu.
    - exists su. split; [reflexivity|]. now apply opt_trim_optional with (v := get o (lit "source_url")).
    - destruct (opt_trim (get o (lit "sourceUrl"))) as [su'|] eqn:E';
        [|discriminate].
      exists su'. split; [reflexivity|]. now apply opt_trim_optional with (v := get o (lit "sourceUrl")). }
  destruct Hsu as (su' & Esu' & Osu). rewrite Esu' in H. cbn [bind] in H.
  injection H as <-.
  pose proof (opt_trim_solid _ _ Ea Ta) as Sa.
  pose proof (opt_trim_solid _ _ Et Tt) as St.
  eexists. split; [reflexivity|].
  split; [reflexivity|].
  split; [exact Sa|].
  split.
  { change (solid_text (js_or ja a)). unfold js_or.
    destruct (truthy ja) eqn:Tja; [|exact Sa].
    now apply opt_trim_solid with (v := get o (lit "jp_asin")). }
  split; [exact St|].
  split; [apply number_or_a_number|].
  split; [apply number_or_a_number|].
  split; [apply number_or_a_number|].
  split.
  { intros k [<- | [<- | [<- | [<- | []]]]].
    - change (optional_text (js_or ua JUndefined)).
      now apply opt_trim_optional with (v := get o (lit "us_asin")).
    - change (optional_text (js_or ca JUndefined)).
      now apply opt_trim_optional with (v := get o (lit "category")).
    - change (optional_text (js_or ma JUndefined)).
      now apply opt_trim_optional with (v := get o (lit "manufacturer")).
    - exact Osu. }
  split; [|reflexivity].
  eexists. split; [reflexivity|]. apply number_or_not_zero. discriminate.
Qed.

(** ** The records of a CSV text *)

Lemma fill_record_column (pre post : list jsstring) (h : jsstring)
    (index : nat) (values : list jsstring) (record : jsobject Num) :
  ~ In h post ->
  get (fill_record (pre ++ h :: post) index values record) h
  = JStr (nth (index + length pre) values []).
Proof.
  intros H. rewrite fill_record_app. cbn [fill_record].
  rewrite fill_record_other by exact H.
  rewrite get_set_same. f_equal.
  generalize (index + length pre) as n. clear.
  intros n; revert values; induction n as [|n IH]; intros [|v vs];
    cbn [nth_error nth]; auto.
Qed.

Lemma fill_record_of_line (headers : list jsstring) (line : jsstring) :
  record_of_line headers line
    (JObj (fill_record (Num:=Num) headers 0 (line_values line) [])).
Proof.
  eexists. split; [reflexivity|]. split.
  - intros k v H.
    apply (fill_record_members headers headers 0 (line_values line) [])
      in H; [tauto | apply incl_refl | intros k' v' []].
  - intros i h Hi Hlast.
    destruct (nth_error_split headers i Hi) as (pre & post & -> & <-).
    apply (fill_record_column pre post h 0).
    intros Hin. apply In_nth_error in Hin as (n & Hn).
    apply (Hlast (length pre + S n)); [lia|].
    rewrite nth_error_app2 by lia.
    replace (length pre + S n - length pre) with (S n) by lia. exact Hn.
Qed.

Lemma read_records_of_lines (headers lines : list jsstring) :
  Forall2 (record_of_line headers) (filter has_match lines)
          (read_records (Num:=Num) headers lines).
Proof.
  induction lines as [|line rest IH]; cbn [read_records filter];
    [constructor|].
  unfold has_match at 1. rewrite length_map.
  destruct (Nat.eqb (length (match_fields line)) 0); cbn [negb];
    [exact IH|].
  constructor; [apply fill_record_of_line | exact IH].
Qed.

(** C10. The import returns a list for every text and never throws. A
    text [JSON.parse] rejects is read as CSV, and what is returned then
    are the records of the CSV text: none when every line is blank; else
    the first line that is not blank gives the headers and every later
    such line gives one record, in order, except that a line on which
    the field pattern finds no match gives none; a record holds under
    each header the value at its column, and the empty text when the
    line has fewer values. A text of white space only gives the empty
    list. *)
Theorem parseImportedData_total :
  (forall text, exists records,
      parseImportedData JSON_parse native_key text = Return records)
  /\ (forall text, JSON_parse (trim text) = None ->
        parseImportedData JSON_parse native_key text
        = parse_csv native_key (trim text))
  /\ (forall text, JSON_parse (trim text) = None ->
        exists records,
          parseImportedData JSON_parse native_key text = Return records
          /\ csv_records native_key (trim text) records)
  /\ (forall text, forallb is_ws text = true ->
        parseImportedData JSON_parse native_key text = Return [])
  /\ (forall headers line rest, match_fields line = [] ->
        read_records (Num:=Num) headers (line :: rest)
        = read_records headers rest)
  /\ (forall headers values i h,
        nth_error headers i = Some h -> length values <= i ->
        get (fill_record (Num:=Num) headers 0 values []) h = JStr []).
Proof.
  assert (C : forall text, JSON_parse (trim text) = None ->
            parseImportedData JSON_parse native_key text
            = parse_csv native_key (trim text)).
  { intros text H. rewrite parseImportedData_cases.
    destruct (trim text) as [|c t] eqn:E; [|rewrite H; reflexivity].
    rewrite parse_csv_returns; reflexivity. }
  split; [|split; [exact C|split; [|split; [|split]]]].
  - intros text. rewrite parseImportedData_cases.
    destruct (trim text) as [|c t]; [eexists; reflexivity|].
    destruct (JSON_parse (c :: t)) as [[]|];
      try (eexists; reflexivity); rewrite parse_csv_returns; eexists;
      reflexivity.
  - intros text H. rewrite (C text H), parse_csv_returns.
    eexists. split; [reflexivity|]. unfold csv_records.
    destruct (filter non_blank (split_lines (trim text))) as [|first data];
      [reflexivity|].
    apply read_records_of_lines.
  - intros text H. rewrite parseImportedData_cases.
    apply trim_nil_iff in H. rewrite H; reflexivity.
  - intros headers line rest H. cbn [read_records]. rewrite H; reflexivity.
  - intros headers values i h Hi Hlen.
    apply (fill_record_short headers 0 i); [exact Hi | lia].
Qed.

End Records.

End ImportFacts.

(* ================================================================== *)
(** * What an import sends and shows                                  *)
(* ================================================================== *)

Module ImportRunFacts.
Import JS Api Products Spec Shape JSFacts ProductsFacts StringFacts.
Import ImportFacts.

Section Runs.

Context {Num : Type} {NumOps : JSNumber Num}.

Variable JSON_parse : jsstring -> option (JSValue Num).
Variable native_key : jsstring -> jsstring.
Variable error_text : Exn Num -> jsstring.


(** X5. Every create request of an import carries a sound payload:
    asin, jp_asin and title are texts that are not empty and have no
    white space at their ends, the three prices are numbers and never
    NaN, the profit threshold is a number that is neither NaN nor zero,
    the optional texts are non-empty texts or undefined, and [validate]
    is true. *)
Theorem handleImportFile_payload_sound (file : option jsstring)
    (create : nat -> JSValue Num -> Result Num (JSValue Num))
    (p : JSValue Num) :
  In (Create p) (handleImportFile JSON_parse native_key file create) -> sound_payload p.
Proof.
  intros H.
  destruct (handleImportFile_request _ _ _ _ _ H)
    as (text & records & record & _ & _ & _ & Hc & Hp).
  exact (createPayload_sound _ _ Hc Hp).
Qed.

Lemma requests_sent_app (a b : list (Effect (Num:=Num))) :
  requests_sent (a ++ b) = requests_sent a ++ requests_sent b.
Proof.
  induction a as [|e a IH]; [reflexivity|].
  destruct e; cbn [app requests_sent]; rewrite IH; reflexivity.
Qed.

Lemma requests_sent_Create (ps : list (JSValue Num)) :
  requests_sent (List.map Create ps) = ps.
Proof. induction ps as [|p ps IH]; cbn; [|rewrite IH]; reflexivity. Qed.

Lemma length_zero_true {A : Type} (l : list A) :
  Nat.eqb (length l) 0 = true -> l = [].
Proof. destruct l; [reflexivity | discriminate]. Qed.

Lemma length_zero_not {A : Type} (l : list A) :
  Nat.eqb (length l) 0 = false -> l <> [].
Proof. destruct l; discriminate. Qed.

(** The two ways an import with a file runs. *)
Lemma handleImportFile_not_sending (text : jsstring)
    (create : nat -> JSValue Num -> Result Num (JSValue Num)) :
  import_payloads JSON_parse native_key text = [] ->
  exists title description destructive,
    handleImportFile JSON_parse native_key (Some text) create
    = [ SetImporting true; Toast title description destructive;
        SetImporting false; ResetFileInput ].
Proof.
  unfold Shape.import_payloads, Products.handleImportFile, import_body.
  destruct (parseImportedData JSON_parse native_key text) as [records|]; cbn [bind];
    [|intros _; do 3 eexists; reflexivity].
  destruct (Nat.eqb (length records) 0); [intros _; do 3 eexists; reflexivity|].
  destruct (map_result createPayload records) as [created|]; cbn [bind];
    [|intros _; do 3 eexists; reflexivity].
  intros ->. cbn [length Nat.eqb]. do 3 eexists; reflexivity.
Qed.

Lemma handleImportFile_sending (text : jsstring)
    (create : nat -> JSValue Num -> Result Num (JSValue Num)) :
  import_payloads JSON_parse native_key text <> [] ->
  exists description destructive,
    handleImportFile JSON_parse native_key (Some text) create
    = [SetImporting true]
      ++ List.map Create (import_payloads JSON_parse native_key text)
      ++ [Toast (lit "インポート完了") description destructive]
      ++ (if Nat.eqb (import_successes (import_payloads JSON_parse native_key text) create) 0
          then [] else [LoadListings])
      ++ [SetImporting false; ResetFileInput].
Proof.
  unfold Shape.import_payloads, Products.handleImportFile, import_body,
    import_successes.
  destruct (parseImportedData JSON_parse native_key text) as [records|]; cbn [bind];
    [|intros H; now destruct H].
  destruct (map_result createPayload records) as [created|] eqn:M.
  - destruct (Nat.eqb (length records) 0) eqn:R.
    + apply length_zero_true in R. subst records. cbn [map_result] in M.
      injection M as <-. intros H; now destruct H.
    + cbn [bind]. intros H. cbv zeta.
      destruct (Nat.eqb (length (filter truthy created)) 0) eqn:P.
      * apply length_zero_true in P. congruence.
      * do 2 eexists. rewrite <- !app_assoc. reflexivity.
  - intros H; now destruct H.
Qed.

(** X6. The create requests of an import are fixed by the file alone:
    one for each record that gives a payload, in the order of the file,
    whatever the earlier requests settle to; and none at all when one
    record of the file cannot be read. *)
Theorem handleImportFile_requests (text : jsstring)
    (create : nat -> JSValue Num -> Result Num (JSValue Num)) :
  requests_sent (handleImportFile JSON_parse native_key (Some text) create)
  = match parseImportedData JSON_parse native_key text with
    | Return records =>
      match map_result createPayload records with
      | Return created => filter truthy created
      | Throw _ => []
      end
    | Throw _ => []
    end.
Proof.
  change (requests_sent (handleImportFile JSON_parse native_key (Some text) create)
          = import_payloads JSON_parse native_key text).
  destruct (import_payloads JSON_parse native_key text) as [|p ps] eqn:E.
  - destruct (handleImportFile_not_sending text create E)
      as (t & d & b & ->). reflexivity.
  - assert (N0 : import_payloads JSON_parse native_key text <> []) by (rewrite E; discriminate).
    destruct (handleImportFile_sending text create N0) as (d & b & ->).
    rewrite E. rewrite !requests_sent_app, requests_sent_Create.
    destruct (Nat.eqb _ 0); cbn [requests_sent app]; now rewrite app_nil_r.
Qed.

Lemma map_result_throws {A B : Type} (f : A -> Result Num B) (xs : list A)
    (x : A) (e : Exn Num) :
  In x xs -> f x = Throw e -> exists e', map_result f xs = Throw e'.
Proof.
  induction xs as [|y xs IH]; intros Hin Hx; [destruct Hin|].
  cbn [map_result]. destruct Hin as [-> | Hin].
  - rewrite Hx. cbn [bind]. eexists; reflexivity.
  - destruct (f y); cbn [bind]; [|eexists; reflexivity].
    destruct (IH Hin Hx) as (e' & ->). cbn [bind]. eexists; reflexivity.
Qed.

(** X7. One record that cannot be read stops the whole import: when
    building the payload of any record of the file throws, no request is
    sent for any record, the failure toast is shown, and the import flag
    and the file input are reset. *)
Theorem handleImportFile_all_or_nothing (text : jsstring)
    (create : nat -> JSValue Num -> Result Num (JSValue Num))
    (records : list (JSValue Num)) (record : JSValue Num) (e : Exn Num) :
  parseImportedData JSON_parse native_key text = Return records ->
  In record records -> createPayload record = Throw e ->
  handleImportFile JSON_parse native_key (Some text) create
  = [ SetImporting true;
      Toast (lit "エラー") (lit "商品のインポートに失敗しました") true;
      SetImporting false; ResetFileInput ].
Proof.
  intros Hp Hin Hc.
  unfold Products.handleImportFile, import_body. rewrite Hp. cbn [bind].
  destruct records as [|r rs]; [destruct Hin|].
  cbn [length Nat.eqb].
  destruct (map_result_throws createPayload _ _ _ Hin Hc) as (e' & ->).
  reflexivity.
Qed.

Lemma In_combine_seq {A : Type} (l : list A) (k i : nat) (x : A) :
  In (i, x) (combine (seq k (length l)) l)
  <-> k <= i /\ nth_error l (i - k) = Some x.
Proof.
  revert k; induction l as [|a l IH]; intros k; cbn [length seq combine In].
  - split; [intros [] | intros [_ H]]. now destruct (i - k).
  - rewrite IH. split.
    + intros [[= <- <-] | [Hk Hn]].
      * rewrite Nat.sub_diag. now split.
      * split; [lia|]. replace (i - k) with (S (i - S k)) by lia. exact Hn.
    + intros [Hk Hn]. destruct (Nat.eq_dec i k) as [-> | Hne].
      * rewrite Nat.sub_diag in Hn. injection Hn as ->. now left.
      * right. split; [lia|].
        replace (i - k) with (S (i - S k)) in Hn by lia. exact Hn.
Qed.

Lemma filter_none {A : Type} (f : A -> bool) (l : list A) :
  Nat.eqb (length (filter f l)) 0 = false <-> exists x, In x l /\ f x = true.
Proof.
  split.
  - intros H. destruct (filter f l) as [|x r] eqn:E; [discriminate|].
    exists x. apply filter_In. rewrite E. now left.
  - intros (x & Hin & Hx).
    assert (Hf : In x (filter f l)) by (apply filter_In; now split).
    now destruct (filter f l).
Qed.

Lemma successes_some (payloads : list (JSValue Num))
    (create : nat -> JSValue Num -> Result Num (JSValue Num)) :
  Nat.eqb (import_successes payloads create) 0 = false
  <-> exists i p, nth_error payloads i = Some p
                  /\ succeeded (create i p) = true.
Proof.
  unfold import_successes. rewrite filter_none. split.
  - intros (r & Hin & Hr). apply in_map_iff in Hin as ([i p] & <- & Hin).
    apply In_combine_seq in Hin as [_ Hn]. rewrite Nat.sub_0_r in Hn.
    now exists i, p.
  - intros (i & p & Hn & Hs). exists (create i p). split; [|exact Hs].
    apply in_map_iff. exists (i, p). split; [reflexivity|].
    apply In_combine_seq. rewrite Nat.sub_0_r. split; [lia | exact Hn].
Qed.

(** X8. After an import the list of products is loaded again exactly
    when at least one of the create requests sent has succeeded: it
    resolved to a response whose [success] is truthy. *)
Theorem handleImportFile_reloads (text : jsstring)
    (create : nat -> JSValue Num -> Result Num (JSValue Num)) :
  In LoadListings (handleImportFile JSON_parse native_key (Some text) create)
  <-> exists i p,
        nth_error (requests_sent (handleImportFile JSON_parse native_key (Some text) create)) i
        = Some p
        /\ succeeded (create i p) = true.
Proof.
  rewrite handleImportFile_requests.
  change (In LoadListings (handleImportFile JSON_parse native_key (Some text) create)
          <-> exists i p, nth_error (import_payloads JSON_parse native_key text) i = Some p
                          /\ succeeded (create i p) = true).
  rewrite <- successes_some.
  destruct (import_payloads JSON_parse native_key text) as [|q qs] eqn:E.
  - destruct (handleImportFile_not_sending text create E)
      as (t & d & b & ->).
    split; [|discriminate].
    intros [H | [H | [H | [H | []]]]]; discriminate.
  - assert (N0 : import_payloads JSON_parse native_key text <> []) by (rewrite E; discriminate).
    destruct (handleImportFile_sending text create N0) as (d & b & ->).
    rewrite E.
    destruct (Nat.eqb (import_successes (q :: qs) create) 0).
    + split; [|discriminate]. intros H.
      apply in_app_or in H as [[H | []] | H]; [discriminate|].
      apply in_app_or in H as [H | H].
      * apply in_map_iff in H as (x & Hx & _). discriminate.
      * cbn [app In] in H.
        destruct H as [H | [H | [H | []]]]; discriminate.
    + split; [reflexivity|]. intros _.
      apply in_or_app. right. apply in_or_app. right.
      cbn [app In]. right. now left.
Qed.

(** ** The CSV branch never fails *)

Lemma map_result_returns {A B : Type} (f : A -> Result Num B) (xs : list A) :
  Forall (fun x => exists y, f x = Return y) xs ->
  exists ys, map_result f xs = Return ys.
Proof.
  induction 1 as [|x xs (y & Hy) _ (ys & IH)]; cbn [map_result].
  - eexists; reflexivity.
  - rewrite Hy, IH. cbn [bind]. eexists; reflexivity.
Qed.

Lemma get_of_texts (o : jsobject Num) (k : jsstring) :
  (forall k' v, In (k', v) o -> exists s, v = JStr s) ->
  textual (get o k) = true.
Proof.
  induction o as [|[k0 v0] r IH]; intros H; cbn [get]; [reflexivity|].
  destruct (str_eqb k0 k).
  - destruct (H k0 v0 (or_introl eq_refl)) as (s & ->). reflexivity.
  - apply IH. intros k' v Hin. apply (H k' v). now right.
Qed.

Lemma createPayload_text_record (names : list jsstring) (record : JSValue Num) :
  text_record names record -> exists p, createPayload record = Return p.
Proof.
  intros (o & -> & Hm & _).
  assert (T : forall k, textual (get o k) = true).
  { intros k. apply get_of_texts. intros k' v Hin. now apply (Hm k' v). }
  assert (R : forall k, exists v, trimmed_field (JObj o) k = Return v).
  { intros k. apply trimmed_field_returns, T. }
  unfold createPayload. rewrite !either_field_object.
  destruct (R "asin"%string) as [a ->]. destruct (R "title"%string) as [t ->].
  cbn [bind]. destruct (_ || _); [eexists; reflexivity|].
  destruct (R "jp_asin"%string) as [v1 ->].
  destruct (R "us_asin"%string) as [v2 ->].
  destruct (R "category"%string) as [v3 ->].
  destruct (R "manufacturer"%string) as [v4 ->].
  destruct (R "source_url"%string) as [v5 ->].
  destruct (R "sourceUrl"%string) as [v6 ->].
  cbn [bind]. destruct (truthy v5); cbn [bind]; eexists; reflexivity.
Qed.

(** X9. A file that is read as CSV never makes the import fail: when
    the text of the file is no JSON, or is the JSON of a number, a
    string or a boolean, the payload of every record is built without
    an exception, so the failure toast is not shown. *)
Theorem handleImportFile_csv_never_fails (text : jsstring)
    (create : nat -> JSValue Num -> Result Num (JSValue Num)) :
  (forall v, JSON_parse (trim text) = Some v -> typeof_object v = false) ->
  (exists records created,
      parseImportedData JSON_parse native_key text = Return records
      /\ map_result createPayload records = Return created)
  /\ ~ In (Toast (lit "エラー") (lit "商品のインポートに失敗しました") true)
          (handleImportFile JSON_parse native_key (Some text) create).
Proof.
  intros HJ.
  assert (HR : exists records created,
             parseImportedData JSON_parse native_key text = Return records
             /\ map_result createPayload records = Return created).
  { destruct (trim text) as [|c t] eqn:E.
    - exists [], []. split; [|reflexivity].
      now rewrite parseImportedData_cases, E.
    - assert (HC : parseImportedData JSON_parse native_key text
                   = parse_csv native_key (c :: t)).
      { rewrite parseImportedData_cases, E.
        destruct (JSON_parse (c :: t)) as [v|]; [|reflexivity].
        specialize (HJ v eq_refl). destruct v; try discriminate; reflexivity. }
      rewrite HC, parse_csv_returns.
      destruct (filter non_blank (split_lines (c :: t))) as [|first data].
      + exists [], []. now split.
      + destruct (map_result_returns createPayload
                    (read_records
                       (List.map (header_key native_key)
                                 (split_char (N.eqb COMMA) first)) data))
          as (created & Hc).
        * eapply Forall_impl; [|apply read_records_shape].
          intros r Hr. eapply createPayload_text_record, Hr.
        * eexists _, created. split; [reflexivity | exact Hc]. }
  split; [exact HR|].
  destruct HR as (records & created & Hp & Hc).
  unfold Products.handleImportFile, import_body. rewrite Hp. cbn [bind].
  destruct (Nat.eqb (length records) 0).
  - cbn [app In]. intros [H | [H | [H | [H | []]]]]; try discriminate;
      vm_compute in H; discriminate.
  - rewrite Hc. cbn [bind]. cbv zeta.
    destruct (Nat.eqb (length (filter truthy created)) 0).
    + cbn [app In]. intros [H | [H | [H | [H | []]]]]; try discriminate;
        vm_compute in H; discriminate.
    + cbn [app In]. intros [H | H]; [discriminate|].
      apply in_app_or in H as [H | H].
      * apply in_app_or in H as [H | H].
        -- apply in_map_iff in H as (x & Hx & _). discriminate.
        -- destruct H as [H | H].
           ++ injection H as H _ _. vm_compute in H. discriminate.
           ++ destruct (Nat.eqb _ 0); [destruct H|].
              destruct H as [H | []]; discriminate.
      * destruct H as [H | [H | []]]; discriminate.
Qed.

End Runs.

End ImportRunFacts.

(* ================================================================== *)
(** * Submitting the add-product dialog                               *)
(* ================================================================== *)

Module DialogFacts.
Import JS Api Products Spec Shape JSFacts ProductsFacts StringFacts ImportFacts.

Section Submitting.

Context {Num : Type} {NumOps : JSNumber Num}.

Variable error_text : Exn Num -> jsstring.

Lemma trimmed_or_optional (s : jsstring) :
  optional_text (Num:=Num) (trimmed_or s JUndefined).
Proof.
  unfold trimmed_or, js_or. cbn [truthy].
  destruct (Nat.eqb (length (trim s)) 0) eqn:E; cbn [negb]; [now left|].
  right. exists (trim s). split; [reflexivity|]. now apply length_zero_false.
Qed.

Lemma form_payload_sound (fd : ListingFormData) :
  blank (asin fd) = false -> blank (title fd) = false ->
  sound_payload (Num:=Num) (form_payload fd).
Proof.
  unfold blank. intros Ha Ht.
  pose proof (solid_trim (Num:=Num) _ (length_zero_false _ Ha)) as Sa.
  pose proof (solid_trim (Num:=Num) _ (length_zero_false _ Ht)) as St.
  eexists. split; [reflexivity|].
  split; [reflexivity|].
  split; [exact Sa|].
  split.
  { change (solid_text (Num:=Num)
              (trimmed_or (jp_asin fd) (JStr (trim (asin fd))))).
    unfold trimmed_or, js_or. cbn [truthy].
    destruct (Nat.eqb (length (trim (jp_asin fd))) 0) eqn:E; cbn [negb];
      [exact Sa|].
    apply solid_trim. now apply length_zero_false. }
  split; [exact St|].
  split; [apply number_or_a_number|].
  split; [apply number_or_a_number|].
  split; [apply number_or_a_number|].
  split.
  { intros k [<- | [<- | [<- | [<- | []]]]]; apply trimmed_or_optional. }
  split; [|reflexivity].
  eexists. split; [reflexivity|]. apply number_or_not_zero. discriminate.
Qed.

(** X10. The create request of the dialog carries a sound payload, like
    those of the import: trimmed non-empty asin, jp_asin and title,
    prices that are numbers and never NaN, a profit threshold that is
    neither NaN nor zero, optional texts that are non-empty or
    undefined, and [validate] true. *)
Theorem handleCreateListing_payload_sound (fd : ListingFormData)
    (create : JSValue Num -> Result Num (JSValue Num)) (p : JSValue Num) :
  In (Create p) (handleCreateListing error_text fd create) -> sound_payload p.
Proof.
  intros H.
  destruct (handleCreateListing_request error_text fd create p H)
    as (Ha & Ht & _ & ->).
  now apply form_payload_sound.
Qed.

(** X11. What a submit does to the dialog. With a blank required
    field only the error messages change. With a valid form the dialog
    ends in the state that closing it gives (closed, the form emptied,
    no messages) exactly when the request resolves to a response whose
    [success] is truthy; after any other outcome the dialog is still
    open with what was typed and the messages it had. *)
Theorem handleCreateListing_dialog (fd : ListingFormData)
    (create : JSValue Num -> Result Num (JSValue Num))
    (errors : list (jsstring * jsstring)) :
  Form.dialog_after (handleCreateListing error_text fd create)
                    (true, fd, errors)
  = match validateForm fd with
    | _ :: _ => (true, fd, validateForm fd)
    | [] => if succeeded (create (form_payload fd))
            then Form.onOpenChange false (true, fd, errors)
            else (true, fd, errors)
    end.
Proof.
  unfold handleCreateListing, succeeded.
  destruct (validateForm fd) as [|e es]; [|reflexivity].
  cbn [length Nat.ltb Nat.leb]. cbv zeta.
  destruct (create (form_payload fd)) as [response|e]; [|reflexivity].
  destruct (get_prop response (lit "success")) as [s|]; [|reflexivity].
  destruct (truthy s); reflexivity.
Qed.


End Submitting.

(** ** On the sample runtime *)

Lemma handleCreateListing_payload_sound_witness :
  sound_payload (form_payload (Num:=Sample.IntNum) Sample.filled_form).
Proof.
  apply (handleCreateListing_payload_sound Sample.error_text
           Sample.filled_form (Sample.accept_all 0)).
  vm_compute. right; left; reflexivity.
Defined.


End DialogFacts.

(* ================================================================== *)
(** * When the HTTP helper resolves                                   *)
(* ================================================================== *)

Module RequestFacts.
Import JS Api Spec JSFacts.

Section Helper.

Context {Num : Type} {NumOps : JSNumber Num}.

(** X13. [apiRequest] resolves exactly when a response arrives whose
    status is in the 2xx range and whose body is JSON, and then with
    that body as it is; an [ApiError] it throws carries the status and
    the body of the response that was refused. *)
Theorem apiRequest_returns_iff (fetch : Request -> Fetched)
    (endpoint : jsstring) (options : RequestInit) :
  (forall data,
      apiRequest fetch endpoint options = Return data
      <-> exists response,
            fetch (request_of endpoint options) = Received response
            /\ resp_ok response = true
            /\ resp_json response = Some data)
  /\ (forall message status details,
        apiRequest fetch endpoint options
        = Throw (ApiError message status details) ->
        exists response,
          fetch (request_of endpoint options) = Received response
          /\ resp_ok response = false
          /\ resp_status response = status
          /\ resp_json response = Some details).
Proof.
  unfold apiRequest. split.
  - intros data. split.
    + destruct (fetch (request_of endpoint options)) as [response|];
        [|discriminate].
      destruct (resp_json response) as [d|] eqn:J; [|discriminate].
      destruct (resp_ok response) eqn:K; cbn [negb].
      * intros [= <-]. now exists response.
      * destruct (error_message d (resp_status response)); discriminate.
    + intros (response & -> & K & ->). now rewrite K.
  - intros message status details.
    destruct (fetch (request_of endpoint options)) as [response|];
      [|discriminate].
    destruct (resp_json response) as [d|] eqn:J; [|discriminate].
    destruct (resp_ok response) eqn:K; cbn [negb]; [discriminate|].
    destruct (error_message d (resp_status response)); [|discriminate].
    intros [= _ <- <-]. now exists response.
Qed.

End Helper.

End RequestFacts.

(* ================================================================== *)
(** * How a search ends                                               *)
(* ================================================================== *)

Module SearchFacts.
Import JS Api Research Spec JSFacts ResearchFacts.

Section Outcome.

Context {Num : Type} {NumOps : JSNumber Num}.

Variable error_text : Exn Num -> jsstring.

(** X14. A search that was sent ends in one of two ways. When the
    answer arrives with a 2xx status and a body whose [success] is
    truthy, the body becomes the result and a success toast is shown.
    In every other case the result stays empty, and the error shown on
    the page and the error toast carry the same message. Either way the
    loading flag is cleared last. *)
Theorem handleSearch_outcome (asin : jsstring) (fetch : Request -> Fetched) :
  asin_pattern (trim asin) = true ->
  (forall data,
      answered (fetch (compare_request asin)) data ->
      handleSearch error_text asin fetch
      = [ SetLoading true; SetError None; SetResults None;
          Fetch (compare_request asin);
          SetResults (Some data);
          Toast (lit "成功") (lit "商品情報を取得しました") false;
          SetLoading false ])
  /\ ((forall data, ~ answered (fetch (compare_request asin)) data) ->
      exists message,
        handleSearch error_text asin fetch
        = [ SetLoading true; SetError None; SetResults None;
            Fetch (compare_request asin);
            SetError (Some message);
            Toast (lit "エラー") message true;
            SetLoading false ]).
Proof.
  intros V. unfold handleSearch. rewrite V. cbn [negb].
  assert (N0 : Nat.eqb (length (trim asin)) 0 = false).
  { destruct (trim asin); [discriminate V | reflexivity]. }
  rewrite N0. unfold on_response, answered.
  split.
  - intros data (response & -> & K & J & T). rewrite J, K. cbn [negb].
    unfold property in T.
    destruct (get_prop data (lit "success")) as [success|];
      [|discriminate T].
    now rewrite T.
  - intros H.
    destruct (fetch (compare_request asin)) as [response|];
      [|eexists; reflexivity].
    destruct (resp_json response) as [data|] eqn:J;
      [|eexists; reflexivity].
    assert (T : forall r, r = throw_error_of data -> exists e, r = Throw e).
    { intros r ->. unfold throw_error_of.
      destruct (get_prop data (lit "error")); eexists; reflexivity. }
    destruct (resp_ok response) eqn:K; cbn [negb].
    + destruct (get_prop data (lit "success")) as [success|] eqn:S;
        [|eexists; reflexivity].
      destruct (truthy success) eqn:TS.
      * exfalso. apply (H data). exists response.
        do 3 (split; [first [reflexivity | assumption]|]).
        unfold property. now rewrite S.
      * destruct (T _ eq_refl) as (e & ->). eexists; reflexivity.
    + destruct (T _ eq_refl) as (e & ->). eexists; reflexivity.
Qed.

End Outcome.

Lemma handleSearch_outcome_witness :
  handleSearch Sample.error_text (lit "B08N5WRWNW")
    (Sample.always (Sample.response_with true 200 Sample.success_body))
  = [ SetLoading true; SetError None; SetResults None;
      Fetch (compare_request (lit "B08N5WRWNW"));
      SetResults (Some Sample.success_body);
      Toast (lit "成功") (lit "商品情報を取得しました") false;
      SetLoading false ]
  /\ exists message,
       handleSearch Sample.error_text (lit "B08N5WRWNW")
         (Sample.always (Sample.response_with false 404 Sample.errors_body))
       = [ SetLoading true; SetError None; SetResults None;
           Fetch (compare_request (lit "B08N5WRWNW"));
           SetError (Some message);
           Toast (lit "エラー") message true;
           SetLoading false ].
Proof.
  split.
  - apply (proj1 (handleSearch_outcome Sample.error_text (lit "B08N5WRWNW")
                    (Sample.always
                       (Sample.response_with true 200 Sample.success_body))
                    eq_refl)).
    eexists. split; [reflexivity|]. split; [reflexivity|].
    split; reflexivity.
  - apply (proj2 (handleSearch_outcome Sample.error_text (lit "B08N5WRWNW")
                    (Sample.always
                       (Sample.response_with false 404 Sample.errors_body))
                    eq_refl)).
    intros data (response & F & K & _). injection F as <-. discriminate K.
Defined.

End SearchFacts.

(* ================================================================== *)
(** * Loops over the items of a response                              *)
(* ================================================================== *)

Module ResultFacts.
Import JS Api Spec Shape.

Section Loops.

Context {Num : Type} {NumOps : JSNumber Num}.

Lemma get_prop_there (v : JSValue Num) (k : string) :
  nullish v = false -> get_prop v (lit k) = Some (property v k).
Proof. unfold property. destruct v; try discriminate; reflexivity. Qed.

Lemma get_prop_missing (v : JSValue Num) (k : jsstring) :
  nullish v = true -> get_prop v k = None.
Proof. destruct v; try discriminate; reflexivity. Qed.

Lemma property_there (v : JSValue Num) (k : string) :
  truthy (property v k) = true -> nullish v = false.
Proof. unfold property. destruct v; try discriminate; reflexivity. Qed.

(** A filter whose callback reads a property of the element. *)
Lemma filter_result_reads (k : string) (test : JSValue Num -> bool)
    (items : list (JSValue Num)) :
  let callback : JSValue Num -> Result Num bool :=
    fun e => match get_prop e (lit k) with
             | None => Throw TypeError
             | Some t => Return (test t)
             end in
  (all_there items ->
   filter_result callback items
   = Return (filter (fun e => test (property e k)) items))
  /\ (one_missing items -> exists e, filter_result callback items = Throw e).
Proof.
  intros callback. split.
  - induction 1 as [|x r Hx _ IH]; [reflexivity|].
    cbn [filter_result filter]. unfold callback at 1.
    rewrite (get_prop_there _ k Hx). cbn [bind]. rewrite IH. reflexivity.
  - induction 1 as [x r Hx | x r _ (e & IH)]; cbn [filter_result];
      unfold callback at 1.
    + rewrite (get_prop_missing _ _ Hx). eexists; reflexivity.
    + destruct (get_prop x (lit k)); cbn [bind]; [|eexists; reflexivity].
      rewrite IH. eexists; reflexivity.
Qed.

End Loops.

End ResultFacts.

(* ================================================================== *)
(** * Loading the blacklist and adding to it                          *)
(* ================================================================== *)

Module BlacklistRunFacts.
Import JS Api Blacklist Spec Shape JSFacts BlacklistFacts StringFacts.
Import ResultFacts.

Section Loading.

Context {Num : Type} {NumOps : JSNumber Num}.

Lemma type_among_reads (names : list string) (items : list (JSValue Num)) :
  (all_there items ->
   filter_result (type_among names) items
   = Return (filter (has_type names) items))
  /\ (one_missing items ->
      exists e, filter_result (type_among names) items = Throw e).
Proof.
  exact (filter_result_reads "entry_type"
           (fun t => existsb (fun n => is_string t (lit n)) names) items).
Qed.

(** X15. The blacklist is loaded whenever it can be: for a response
    whose [success] is truthy and whose entries are an array (or
    missing, which counts as no entries) without a [null] among them,
    the state is set to the entries sorted by type and no toast is
    shown. One [null] among the entries is enough for nothing to be
    loaded: the failure toast is shown and the state is left as it was. *)
Theorem loadBlacklist_loads (response : JSValue Num)
    (items : list (JSValue Num)) :
  truthy (property response "success") = true ->
  js_or (property response "entries") (JArr []) = JArr items ->
  (all_there items ->
   loadBlacklist (Return response)
   = [SetLoading true; SetBlacklist (blacklist_of items); SetLoading false])
  /\ (one_missing items ->
      loadBlacklist (Return response)
      = [ SetLoading true;
          Toast (lit "エラー") (lit "ブラックリストの読み込みに失敗しました") true;
          SetLoading false ]).
Proof.
  intros Hs He.
  pose proof (property_there _ _ Hs) as Hr.
  unfold loadBlacklist. cbv zeta.
  rewrite !(get_prop_there _ _ Hr), Hs.
  unfold transform. rewrite He.
  split; intros H.
  - rewrite !(proj1 (type_among_reads _ items) H). reflexivity.
  - destruct (proj2 (type_among_reads ["asin"%string] items) H) as (e & ->).
    reflexivity.
Qed.

End Loading.

Section Adding.

Context {Num : Type} {NumOps : JSNumber Num}.

Lemma cleaned_values (values : list jsstring) (v : jsstring) :
  In v (cleaned values) -> v <> [] /\ trim v = v.
Proof.
  unfold cleaned. intros H. apply filter_In in H as [H N0].
  apply in_map_iff in H as (x & <- & _).
  split; [|apply trim_idempotent].
  now destruct (trim x).
Qed.

(** X16. Every value sent to the blacklist is of the type asked for, is
    not empty and has no white space at either end. *)
Theorem handleAddEntries_values (t : EntryType) (values : list jsstring)
    (create : nat -> CreateRequest -> Result Num (JSValue Num)) :
  Forall (fun r => create_type r = t
                   /\ create_value r <> []
                   /\ trim (create_value r) = create_value r)
         (requests_of (handleAddEntries t values create)).
Proof.
  destruct (create_each_prefix t (length (kept values)) 0 create (kept values))
    as (k & E).
  rewrite requests_of_handleAddEntries, E.
  apply Forall_forall. intros r Hr.
  assert (Hr' : In r (List.map (expected_request t) (kept values))).
  { rewrite <- (firstn_skipn k). apply in_or_app. now left. }
  clear Hr. rename Hr' into Hr.
  apply in_map_iff in Hr as (v & <- & Hv).
  rewrite <- cleaned_kept in Hv.
  destruct (cleaned_values _ _ Hv) as [N0 T].
  cbn [expected_request create_type create_value]. auto.
Qed.

Lemma create_each_resolved (t : EntryType) (total index : nat)
    (create : nat -> CreateRequest -> Result Num (JSValue Num))
    (values : list jsstring) :
  (forall j w, nth_error values j = Some w ->
     exists r, create (index + j) (create_request t w) = Return r) ->
  create_each t total index create values
  = List.map (fun v => Create (create_request t v)) values
    ++ [ Toast (lit "成功") (count_text total ++ lit "件を追加しました") false;
         ClearInput t; LoadBlacklist ].
Proof.
  revert index; induction values as [|v rest IH]; intros index H;
    cbn [create_each List.map app]; [reflexivity|].
  destruct (H 0 v eq_refl) as (r & E). rewrite Nat.add_0_r in E. rewrite E.
  f_equal. apply IH. intros j w Hj.
  replace (S index + j) with (index + S j) by lia. now apply H.
Qed.

Lemma create_each_rejected (t : EntryType) (total index : nat)
    (create : nat -> CreateRequest -> Result Num (JSValue Num))
    (values : list jsstring) (i : nat) (v : jsstring) (e : Exn Num) :
  nth_error values i = Some v ->
  (forall j w, j < i -> nth_error values j = Some w ->
     exists r, create (index + j) (create_request t w) = Return r) ->
  create (index + i) (create_request t v) = Throw e ->
  create_each t total index create values
  = List.map (fun v => Create (create_request t v)) (firstn (S i) values)
    ++ [Toast (lit "エラー") (lit "ブラックリストの追加に失敗しました") true].
Proof.
  revert index i; induction values as [|x rest IH]; intros index i Hi Hb He.
  - now destruct i.
  - cbn [create_each]. destruct i as [|i].
    + injection Hi as ->. rewrite Nat.add_0_r in He. rewrite He. reflexivity.
    + destruct (Hb 0 x (Nat.lt_0_succ i) eq_refl) as (r & E).
      rewrite Nat.add_0_r in E. rewrite E.
      cbn [firstn List.map app]. f_equal.
      apply (IH (S index) i).
      * exact Hi.
      * intros j w Hj Hn.
        replace (S index + j) with (index + S j) by lia.
        apply Hb; [lia | exact Hn].
      * replace (S index + i) with (index + S i) by lia. exact He.
Qed.

(** X17. When every request of an addition resolves, one request goes
    out for each value that is left after trimming, in order; then the
    success toast gives their number, the input is cleared and the
    blacklist is loaded again; the processing mark is set first and
    cleared last. *)
Theorem handleAddEntries_all_added (t : EntryType) (values : list jsstring)
    (create : nat -> CreateRequest -> Result Num (JSValue Num)) :
  cleaned values <> [] ->
  (forall i v, nth_error (cleaned values) i = Some v ->
     exists r, create i (create_request t v) = Return r) ->
  handleAddEntries t values create
  = [SetProcessingAction (Some (lit "add-" ++ type_name t))]
    ++ List.map (fun v => Create (create_request t v)) (cleaned values)
    ++ [ Toast (lit "成功")
           (count_text (length (cleaned values)) ++ lit "件を追加しました")
           false;
         ClearInput t; LoadBlacklist; SetProcessingAction None ].
Proof.
  intros N0 H. unfold handleAddEntries. cbv zeta.
  destruct (cleaned values) as [|c cs] eqn:E; [congruence|].
  cbn [length Nat.eqb]. rewrite <- E in *.
  rewrite (create_each_resolved t _ 0 create (cleaned values) H).
  rewrite <- !app_assoc. reflexivity.
Qed.

(** X18. The first request of an addition that is rejected ends it: the
    values before it have been added, no request goes out for the values
    after it, the failure toast is shown, and the input is neither
    cleared nor the blacklist loaded again. *)
Theorem handleAddEntries_stops (t : EntryType) (values : list jsstring)
    (create : nat -> CreateRequest -> Result Num (JSValue Num))
    (i : nat) (v : jsstring) (e : Exn Num) :
  nth_error (cleaned values) i = Some v ->
  (forall j w, j < i -> nth_error (cleaned values) j = Some w ->
     exists r, create j (create_request t w) = Return r) ->
  create i (create_request t v) = Throw e ->
  handleAddEntries t values create
  = [SetProcessingAction (Some (lit "add-" ++ type_name t))]
    ++ List.map (fun v => Create (create_request t v))
                (firstn (S i) (cleaned values))
    ++ [ Toast (lit "エラー") (lit "ブラックリストの追加に失敗しました") true;
         SetProcessingAction None ].
Proof.
  intros Hi Hb He. unfold handleAddEntries. cbv zeta.
  destruct (cleaned values) as [|c cs] eqn:E; [now destruct i|].
  cbn [length Nat.eqb]. rewrite <- E in *.
  rewrite (create_each_rejected t _ 0 create (cleaned values) i v e Hi Hb He).
  rewrite <- !app_assoc. reflexivity.
Qed.

(** ** The requests of an addition *)

Lemma requests_of_Create (t : EntryType) (values : list jsstring) :
  requests_of (Num:=Num)
    (List.map (fun v => Create (create_request t v)) values)
  = List.map (expected_request t) values.
Proof.
  induction values as [|v vs IH]; [reflexivity|].
  cbn [List.map requests_of]. now rewrite IH, create_request_expected.
Qed.

Lemma split_keywords_separators (s : jsstring) :
  split_keywords s = split_char is_separator (without_CR_before_LF s).
Proof.
  induction s as [|c r IH]; [reflexivity|].
  cbn [split_keywords without_CR_before_LF].
  destruct (N.eqb c LF) eqn:L.
  - apply N.eqb_eq in L. subst c. cbn [andb split_char].
    change (N.eqb LF CR) with false. cbn [andb split_char].
    unfold is_separator at 1. rewrite N.eqb_refl. cbn [orb]. now rewrite IH.
  - destruct (N.eqb c CR && starts_with_LF r); [exact IH|].
    cbn [split_char]. unfold is_separator at 1. rewrite L. cbn [orb].
    destruct (N.eqb c COMMA || N.eqb c IDEOGRAPHIC_COMMA);
      now rewrite IH.
Qed.

(** C9, amended. The bulk keyword action cuts the textarea content at
    line feeds (a carriage return directly before one belongs to the
    cut), ASCII commas and ideographic commas, trims the pieces and
    drops the empty ones. With no piece left, an action shows an error
    toast and sends nothing. Otherwise it sends the create requests of
    the pieces one after the other, in order, each with the default
    reason of the type and the severity medium for a keyword and high
    for an ASIN or a brand, and stops behind the first request that
    rejects: when the requests before the one at index [i] resolve and
    that one rejects, exactly the first [i + 1] requests are sent; when
    every request resolves, one request per piece. The ASIN action
    passes the upper-cased input, the brand action the input as it is. *)
Theorem handleAddEntries_requests :
  (forall t values create,
      kept values = [] ->
      handleAddEntries (Num:=Num) t values create
      = [Toast (lit "エラー") (lit "追加する内容を入力してください") true])
  /\ (forall t values create,
        all_resolve create ->
        requests_of (handleAddEntries (Num:=Num) t values create)
        = List.map (expected_request t) (kept values))
  /\ (forall t values create,
        (forall i v, nth_error (kept values) i = Some v ->
           exists r, create i (expected_request t v) = Return r) ->
        requests_of (handleAddEntries (Num:=Num) t values create)
        = List.map (expected_request t) (kept values))
  /\ (forall t values create i v e,
        nth_error (kept values) i = Some v ->
        (forall j w, j < i -> nth_error (kept values) j = Some w ->
           exists r, create j (expected_request t w) = Return r) ->
        create i (expected_request t v) = Throw e ->
        requests_of (handleAddEntries (Num:=Num) t values create)
        = firstn (S i) (List.map (expected_request t) (kept values)))
  /\ (forall t values create,
        exists k,
          requests_of (handleAddEntries (Num:=Num) t values create)
          = firstn k (List.map (expected_request t) (kept values)))
  /\ (forall s create,
        handleAddKeywords (Num:=Num) s create
        = handleAddEntries keyword (split_keywords s) create
        /\ split_keywords s
           = split_char is_separator (without_CR_before_LF s)
        /\ Forall (fun piece =>
                     forallb (fun c => negb (is_separator c)) piece = true)
                  (split_keywords s)
        /\ (forallb (fun c => negb (N.eqb c CR)) s = true ->
            split_keywords s = split_char is_separator s))
  /\ (forall toUpperCase s create,
        handleAddAsin (Num:=Num) toUpperCase s create
        = handleAddEntries asin [toUpperCase s] create
        /\ handleAddBrand (Num:=Num) s create
           = handleAddEntries brand [s] create).
Proof.
  split; [|split; [|split; [|split; [|split; [|split]]]]].
  - intros t values create H. unfold handleAddEntries. cbv zeta.
    rewrite cleaned_kept, H; reflexivity.
  - intros t values create Hall.
    rewrite requests_of_handleAddEntries. apply create_each_all, Hall.
  - intros t values create H.
    rewrite requests_of_handleAddEntries.
    rewrite (create_each_resolved t _ 0 create (kept values)).
    + rewrite requests_of_app, requests_of_Create. cbn [requests_of].
      apply app_nil_r.
    + intros j w Hj. rewrite create_request_expected. now apply H.
  - intros t values create i v e Hi Hb He.
    rewrite requests_of_handleAddEntries.
    rewrite (create_each_rejected t _ 0 create (kept values) i v e).
    + rewrite requests_of_app, requests_of_Create. cbn [requests_of].
      rewrite app_nil_r. symmetry. apply firstn_map.
    + exact Hi.
    + intros j w Hj Hn. rewrite create_request_expected. now apply Hb.
    + rewrite create_request_expected. exact He.
  - intros t values create.
    rewrite requests_of_handleAddEntries. apply create_each_prefix.
  - intros s create. split; [reflexivity|]. split; [|split].
    + apply split_keywords_separators.
    + apply split_keywords_pieces.
    + apply split_keywords_no_CR.
  - intros toUpperCase s create; split; reflexivity.
Qed.

End Adding.

End BlacklistRunFacts.

(* ================================================================== *)
(** * Loading the dashboard                                           *)
(* ================================================================== *)

Module DashboardRunFacts.
Import JS Api Dashboard Spec Shape JSFacts DashboardFacts ResultFacts.

Section Loading.

Context {Num : Type} {NumOps : JSNumber Num}.




(** ** The statistics of the listings *)



End Loading.



End DashboardRunFacts.

(* ================================================================== *)
(** * Loading, searching and changing the product list                *)
(* ================================================================== *)

Module ListingsFacts.
Import JS Api Listings Spec Shape JSFacts ResultFacts.

Section Loading.

Context {Num : Type} {NumOps : JSNumber Num}.

Lemma normalize_there (listing : JSValue Num) :
  nullish listing = false -> normalize listing = Return (listing_of listing).
Proof.
  intros H. unfold normalize, listing_of.
  rewrite !(get_prop_there _ _ H). reflexivity.
Qed.

Lemma normalized_reads (items : list (JSValue Num)) :
  (all_there items ->
   map_result normalize items = Return (List.map listing_of items))
  /\ (one_missing items -> exists e, map_result normalize items = Throw e).
Proof.
  split.
  - induction 1 as [|x r Hx _ IH]; [reflexivity|].
    cbn [map_result List.map]. rewrite (normalize_there _ Hx), IH. reflexivity.
  - induction 1 as [x r Hx | x r _ (e & IH)]; cbn [map_result].
    + unfold normalize. rewrite (get_prop_missing _ _ Hx).
      eexists; reflexivity.
    + destruct (normalize x); cbn [bind]; [|eexists; reflexivity].
      rewrite IH. eexists; reflexivity.
Qed.

(** X21. The product list is loaded whenever it can be: for a response
    whose [success] is truthy and whose listings are an array without a
    [null] in it, the page keeps one listing for each listing of the
    server, in order, and shows no toast. One [null] among the listings
    is enough for nothing to be loaded and the failure toast to be
    shown. The loading flag is set first and cleared last either way. *)
Theorem loadListings_loads (response : JSValue Num)
    (items : list (JSValue Num)) :
  truthy (property response "success") = true ->
  property response "listings" = JArr items ->
  (all_there items ->
   loadListings (Return response)
   = [ SetLoading true; SetListings (List.map listing_of items);
       SetLoading false ])
  /\ (one_missing items ->
      loadListings (Return response)
      = [ SetLoading true;
          Toast (lit "エラー") (lit "商品一覧の読み込みに失敗しました") true;
          SetLoading false ]).
Proof.
  intros Hs Hl.
  pose proof (property_there _ _ Hs) as Hr.
  unfold loadListings. cbv zeta.
  rewrite !(get_prop_there _ _ Hr), Hs, Hl. cbn [truthy andb normalized].
  split; intros H.
  - rewrite (proj1 (normalized_reads items) H). reflexivity.
  - destruct (proj2 (normalized_reads items) H) as (e & ->). reflexivity.
Qed.

(** X22. A listing the page keeps always has a listing price: the one
    of the server, or the number 0 when the server gave none; so its
    price cell in the exported CSV is never the empty pair of quotes of
    a missing value, and holds the text of 0 when the server gave none.
    Every column of the export is a field that loading sets. *)
Theorem normalize_listing_price (listing : JSValue Num)
    (kept_listing : jsobject Num) :
  normalize listing = Return kept_listing ->
  nullish (get kept_listing (lit "listing_price")) = false
  /\ (nullish (property listing "listing_price") = true ->
      Products.escapeCsv
        (js_coalesce (get kept_listing (lit "listing_price")) (JStr []))
      = cell (num_to_string (num_of_Z 0)))
  /\ (forall column, In column Products.exportColumns ->
        In (fst column) (List.map fst kept_listing)).
Proof.
  intros H.
  destruct (nullish listing) eqn:N.
  - unfold normalize in H. rewrite (get_prop_missing _ _ N) in H. discriminate.
  - rewrite (normalize_there _ N) in H. injection H as <-.
    change (get (listing_of listing) (lit "listing_price"))
      with (js_coalesce (property listing "listing_price")
                        (JNum (num_of_Z 0))).
    split; [|split].
    + unfold js_coalesce.
      now destruct (nullish (property listing "listing_price")) eqn:E.
    + intros E. unfold js_coalesce. rewrite E. reflexivity.
    + intros column Hc. unfold Products.exportColumns in Hc. cbn [In] in Hc.
      cbn [listing_of List.map fst].
      repeat (destruct Hc as [<- | Hc]; [cbn [fst In]; tauto|]).
      destruct Hc.
Qed.

End Loading.

Section Searching.

Context {Num : Type} {NumOps : JSNumber Num}.

Variable toLowerCase : jsstring -> jsstring.

Lemma starts_with_spec (t s : jsstring) :
  starts_with t s = true <-> exists after, s = t ++ after.
Proof.
  revert s; induction t as [|x t IH]; intros s; cbn [starts_with].
  - split; [intros _; now exists s | reflexivity].
  - destruct s as [|y s].
    + split; [discriminate | intros (a & E); discriminate].
    + rewrite andb_true_iff, N.eqb_eq, IH. split.
      * intros [-> (a & ->)]. now exists a.
      * intros (a & E). injection E as -> ->. split; [reflexivity|now exists a].
Qed.

Lemma includes_spec (s t : jsstring) :
  includes s t = true <-> occurs_in t s.
Proof.
  unfold occurs_in. induction s as [|c r IH]; cbn [includes].
  - rewrite orb_false_r, starts_with_spec. split.
    + intros (a & E). now exists [], a.
    + intros (b & a & E). destruct b; [now exists a | discriminate].
  - rewrite orb_true_iff, starts_with_spec, IH. split.
    + intros [(a & E) | (b & a & E)].
      * now exists [], a.
      * exists (c :: b), a. now rewrite E.
    + intros (b & a & E). destruct b as [|x b].
      * left. now exists a.
      * right. injection E as -> ->. now exists b, a.
Qed.

Lemma field_includes_spec (listing : jsobject Num) (k : string)
    (term : jsstring) (b : bool) :
  field_includes toLowerCase listing k (toLowerCase term) = Return b ->
  (b = true <-> field_has toLowerCase listing k term).
Proof.
  unfold field_includes, field_has.
  destruct (get listing (lit k)) as [| | | | s | |] eqn:E; try discriminate.
  intros [= <-]. rewrite includes_spec. split.
  - intros H. now exists s.
  - intros (s' & [= <-] & H). exact H.
Qed.

Lemma matches_spec (term : jsstring) (listing : jsobject Num) (b : bool) :
  term <> [] ->
  matches toLowerCase term listing = Return b ->
  (b = true <-> field_has toLowerCase listing "asin" term
                \/ field_has toLowerCase listing "title" term).
Proof.
  intros N0. unfold matches.
  destruct term as [|c t]; [congruence|]. cbn [length Nat.eqb].
  destruct (field_includes toLowerCase listing "asin" (toLowerCase (c :: t)))
    as [a|] eqn:A; cbn [bind]; [|discriminate].
  apply field_includes_spec in A.
  destruct a.
  - intros [= <-]. split; [intros _; left; now apply A | reflexivity].
  - intros T. apply field_includes_spec in T. split.
    + intros H. right. now apply T.
    + intros [H | H]; [apply A in H; discriminate | now apply T].
Qed.

Lemma filter_result_sound {A : Type} (p : A -> Result Num bool) (q : A -> Prop)
    (xs ys : list A) :
  (forall x b, p x = Return b -> (b = true <-> q x)) ->
  filter_result p xs = Return ys ->
  forall x, In x ys <-> In x xs /\ q x.
Proof.
  intros Hp. revert ys; induction xs as [|y xs IH]; intros ys H x;
    cbn [filter_result] in H.
  - injection H as <-. cbn [In]. tauto.
  - destruct (p y) as [b|] eqn:E; [|discriminate]. cbn [bind] in H.
    destruct (filter_result p xs) as [zs|]; [|discriminate]. cbn [bind] in H.
    injection H as <-. specialize (IH zs eq_refl x).
    pose proof (Hp y b E) as Hb.
    destruct b; cbn [In]; rewrite IH.
    + split; [intros [<- | [H1 H2]] | intros [[<- | H1] H2]]; tauto.
    + split; [tauto|]. intros [[<- | H1] H2]; [|tauto].
      apply Hb in H2. discriminate.
Qed.

Lemma filter_result_filter {A : Type} (p : A -> Result Num bool)
    (xs ys : list A) :
  filter_result p xs = Return ys ->
  ys = filter (fun x => match p x with
                        | Return true => true
                        | _ => false
                        end) xs.
Proof.
  revert ys; induction xs as [|y xs IH]; intros ys H; cbn [filter_result] in H.
  - now injection H as <-.
  - destruct (p y) as [b|] eqn:E; [|discriminate]. cbn [bind] in H.
    destruct (filter_result p xs) as [zs|]; [|discriminate]. cbn [bind] in H.
    injection H as <-. cbn [filter]. rewrite E, <- (IH zs eq_refl).
    now destruct b.
Qed.

(** X23. Searching the product list: with an empty search term every
    listing is shown, whatever its fields are; with another term, what
    is shown are exactly the listings whose ASIN or whose title is a
    text in which the term occurs, both taken in lower case, and they
    keep their order. *)
Theorem filteredListings_shown (searchTerm : jsstring)
    (listings : list (jsobject Num)) :
  filteredListings toLowerCase [] listings = Return listings
  /\ (forall shown,
        searchTerm <> [] ->
        filteredListings toLowerCase searchTerm listings = Return shown ->
        (forall listing,
            In listing shown
            <-> In listing listings
                /\ (field_has toLowerCase listing "asin" searchTerm
                    \/ field_has toLowerCase listing "title" searchTerm))
        /\ exists keep, shown = filter keep listings).
Proof.
  split.
  - unfold filteredListings.
    induction listings as [|l ls IH]; [reflexivity|].
    cbn [filter_result matches length Nat.eqb bind] in *. now rewrite IH.
  - intros shown N0 H. split.
    + apply (filter_result_sound (matches toLowerCase searchTerm)); [|exact H].
      intros l b. now apply matches_spec.
    + eexists. apply filter_result_filter. exact H.
Qed.

Lemma filter_result_throws {A : Type} (p : A -> Result Num bool)
    (xs : list A) (x : A) (e : Exn Num) :
  In x xs -> p x = Throw e -> exists e', filter_result p xs = Throw e'.
Proof.
  induction xs as [|y xs IH]; intros Hin Hx; [destruct Hin|].
  cbn [filter_result]. destruct Hin as [-> | Hin].
  - rewrite Hx. eexists; reflexivity.
  - destruct (p y); cbn [bind]; [|eexists; reflexivity].
    destruct (IH Hin Hx) as (e' & ->). eexists; reflexivity.
Qed.

(** X24. Searching fails on a listing without a textual ASIN: as soon
    as the search term is not empty, one listing whose ASIN is no string
    (missing, [null], a number) makes the whole filter throw, so nothing
    is shown. *)
Theorem filteredListings_throws (searchTerm : jsstring)
    (listings : list (jsobject Num)) (listing : jsobject Num) :
  searchTerm <> [] ->
  In listing listings ->
  (forall s, get listing (lit "asin") <> JStr s) ->
  exists e, filteredListings toLowerCase searchTerm listings = Throw e.
Proof.
  intros N0 Hin Ha.
  apply (filter_result_throws _ _ listing TypeError Hin).
  unfold matches. destruct searchTerm as [|c t]; [congruence|].
  cbn [length Nat.eqb]. unfold field_includes.
  destruct (get listing (lit "asin")) as [| | | | s | |] eqn:E;
    try reflexivity.
  now destruct (Ha s).
Qed.

End Searching.

Section Acting.

Context {Num : Type} {NumOps : JSNumber Num}.

Lemma str_eqb_sym (a b : jsstring) : str_eqb a b = str_eqb b a.
Proof.
  destruct (str_eqb a b) eqn:E, (str_eqb b a) eqn:F; try reflexivity.
  - apply str_eqb_eq in E as ->. rewrite str_eqb_refl in F. discriminate.
  - apply str_eqb_eq in F as ->. rewrite str_eqb_refl in E. discriminate.
Qed.

Lemma has_delete_same (ids : list jsstring) (id : jsstring) :
  has (delete ids id) id = false.
Proof.
  unfold has, delete. induction ids as [|x r IH]; [reflexivity|].
  cbn [filter]. destruct (str_eqb id x) eqn:E; cbn [negb]; [exact IH|].
  cbn [existsb]. now rewrite E.
Qed.

Lemma has_delete_other (ids : list jsstring) (id other : jsstring) :
  str_eqb id other = false -> has (delete ids id) other = has ids other.
Proof.
  intros H. unfold has, delete. induction ids as [|x r IH]; [reflexivity|].
  cbn [filter existsb]. destruct (str_eqb id x) eqn:E; cbn [negb].
  - apply str_eqb_eq in E as <-. rewrite str_eqb_sym, H. exact IH.
  - cbn [existsb]. now rewrite IH.
Qed.

Lemma has_add_other (ids : list jsstring) (id other : jsstring) :
  str_eqb id other = false -> has (add ids id) other = has ids other.
Proof.
  intros H. unfold add. destruct (has ids id); [reflexivity|].
  unfold has. rewrite existsb_app. cbn [existsb].
  now rewrite str_eqb_sym, H, !orb_false_r.
Qed.

Lemma toggle_processing (id : jsstring) (status : JSValue Num)
    (update : Result Num (JSValue Num)) (prev : list jsstring) :
  processing_after (handleToggleStatus id status update) prev
  = delete (add prev id) id.
Proof. destruct update; reflexivity. Qed.

Lemma delete_processing (id : jsstring)
    (deleted : Result Num (JSValue Num)) (prev : list jsstring) :
  processing_after (handleDelete true id deleted) prev
  = delete (add prev id) id.
Proof. destruct deleted; reflexivity. Qed.

(** X25. Pausing or resuming a listing asks the server once, for a
    status that is never the current one: paused for an active listing
    and active for every other, also for one whose status is neither;
    the toast names the new status. *)
Theorem handleToggleStatus_status (id : jsstring) (status : JSValue Num)
    (update : Result Num (JSValue Num)) :
  is_string status (newStatus status) = false
  /\ (newStatus status = lit "paused" \/ newStatus status = lit "active")
  /\ (newStatus status = lit "paused"
      <-> is_string status (lit "active") = true)
  /\ forall id' body,
       In (Update id' body) (handleToggleStatus id status update)
       <-> id' = id /\ body = JObj [(lit "status", JStr (newStatus status))].
Proof.
  assert (A : forall s : jsstring,
            str_eqb s (if str_eqb s (lit "active")
                       then lit "paused" else lit "active") = false).
  { intros s. destruct (str_eqb s (lit "active")) eqn:E; [|exact E].
    apply str_eqb_eq in E as ->. reflexivity. }
  split; [|split; [|split]].
  - unfold newStatus. destruct status; try reflexivity. cbn [is_string]. apply A.
  - unfold newStatus. destruct (is_string status (lit "active")); auto.
  - unfold newStatus. destruct (is_string status (lit "active")).
    + tauto.
    + split; [intros H; vm_compute in H; discriminate | discriminate].
  - intros id' body. unfold handleToggleStatus. cbn [app In]. split.
    + intros [H | [H | H]]; [discriminate | now injection H as <- <- |].
      apply in_app_or in H as [H | [H | []]]; [|discriminate].
      destruct update; cbn [In] in H;
        repeat (destruct H as [H | H]; [discriminate|]); destruct H.
    + intros [-> ->]. right. now left.
Qed.

(** X26. The processing mark of a listing is always taken off again:
    after pausing, resuming or deleting a listing, whatever the request
    settled to and whatever was marked before, the listing is not marked
    as processing, and the marks of the other listings are what they
    were. *)
Theorem processing_released (id : jsstring) (status : JSValue Num)
    (settled : Result Num (JSValue Num)) (prev : list jsstring) :
  has (processing_after (handleToggleStatus id status settled) prev) id = false
  /\ has (processing_after (handleDelete true id settled) prev) id = false
  /\ forall other,
       str_eqb id other = false ->
       has (processing_after (handleToggleStatus id status settled) prev) other
       = has prev other
       /\ has (processing_after (handleDelete true id settled) prev) other
          = has prev other.
Proof.
  rewrite toggle_processing, delete_processing.
  split; [apply has_delete_same|]. split; [apply has_delete_same|].
  intros other H.
  rewrite (has_delete_other _ _ _ H), (has_add_other _ _ _ H). now split.
Qed.

(** X27. A listing is deleted only after the question was answered
    with yes: without that nothing happens at all, no request and no
    mark; with it one request goes out for that listing, and the list is
    loaded again exactly when the request resolved. *)
Theorem handleDelete_confirmed (confirmed : bool) (listingId : jsstring)
    (deleted : Result Num (JSValue Num)) :
  (confirmed = false -> handleDelete confirmed listingId deleted = [])
  /\ (forall id, In (Delete id) (handleDelete confirmed listingId deleted)
                 <-> confirmed = true /\ id = listingId)
  /\ (In LoadListings (handleDelete confirmed listingId deleted)
      <-> confirmed = true /\ exists response, deleted = Return response).
Proof.
  destruct confirmed; cbn [handleDelete negb].
  - split; [discriminate|]. split.
    + intros id. cbn [app In]. split.
      * intros [H | [H | H]]; [discriminate | now injection H as <- |].
        apply in_app_or in H as [H | [H | []]]; [|discriminate].
        destruct deleted; cbn [In] in H;
          repeat (destruct H as [H | H]; [discriminate|]); destruct H.
      * intros [_ ->]. right. now left.
    + destruct deleted as [r|e]; cbn [app In].
      * split; [intros _; split; [reflexivity | now exists r]|].
        intros _. do 3 right. now left.
      * split; [|intros [_ (r & H)]; discriminate].
        intros [H | [H | [H | [H | []]]]]; discriminate.
  - split; [reflexivity|]. split.
    + intros id. split; [intros [] | intros [H _]; discriminate].
    + split; [intros [] | intros [H _]; discriminate].
Qed.

End Acting.

End ListingsFacts.

(* ================================================================== *)
(** * Typing into the add-product dialog                              *)
(* ================================================================== *)

Module FormFacts.
Import JS Api Products Form Spec JSFacts ProductsFacts.

(** X28. Typing into a field of the dialog takes the error message of
    that field away, whatever is typed, also a blank; and when what is
    typed is not blank, the messages that are left are exactly the ones
    a new check of the form would give. *)
Theorem handleInputChange_errors (fd : ListingFormData) (f : Field)
    (v : jsstring) :
  lookup (snd (handleInputChange f v (fd, validateForm fd))) (field_name f)
  = None
  /\ (blank v = false ->
      snd (handleInputChange f v (fd, validateForm fd))
      = validateForm (fst (handleInputChange f v (fd, validateForm fd)))).
Proof.
  unfold handleInputChange. cbn [fst snd].
  unfold validateForm, clear_error. split.
  - destruct f;
      destruct (blank (asin fd)), (blank (title fd)),
               (blank (listing_price fd));
      vm_compute; reflexivity.
  - intros Hv.
    destruct f; cbn [write read asin title listing_price];
      rewrite ?Hv;
      destruct (blank (asin fd)), (blank (title fd)),
               (blank (listing_price fd));
      vm_compute; reflexivity.
Qed.

(** After a submit that found the ASIN blank, a blank typed as ASIN
    leaves no message at all, though the form is still not valid. *)
Example handleInputChange_blank :
  validateForm Sample.unnamed_form = [(lit "asin", lit "ASINは必須です")]
  /\ snd (handleInputChange f_asin (lit " ")
            (Sample.unnamed_form, validateForm Sample.unnamed_form))
     = []
  /\ validateForm
       (fst (handleInputChange f_asin (lit " ")
               (Sample.unnamed_form, validateForm Sample.unnamed_form)))
     = [(lit "asin", lit "ASINは必須です")].
Proof. split; [|split]; vm_compute; reflexivity. Qed.

End FormFacts.

(* ================================================================== *)
(** * Checking an ASIN and deleting an entry                          *)
(* ================================================================== *)

Module BlacklistActionFacts.
Import JS Api BlacklistActions Spec Shape JSFacts ResultFacts.

Section Checking.

Context {Num : Type} {NumOps : JSNumber Num}.

Lemma is_blacklisted_listed (response : JSValue Num) :
  nullish response = false ->
  is_blacklisted response = Return (listed response).
Proof.
  intros H. unfold is_blacklisted, listed.
  rewrite !(get_prop_there _ _ H). do 2 f_equal.
  generalize (property response "result"). intros result. unfold property.
  now destruct (get_prop result (lit "is_blacklisted")).
Qed.

(** X29. The verdict of a blacklist check: for an answer that arrived,
    the warning is shown exactly when the answer has a truthy [success],
    a truthy [result] and a truthy [is_blacklisted] in it; in every
    other case, also when the answer reports a failure of the check, the
    toast says that the ASIN is not on the blacklist. The request
    carries the trimmed ASIN, the toast shows the input as typed. *)
Theorem handleCheckAsin_verdict (newAsin : jsstring) (response : JSValue Num) :
  trim newAsin <> [] -> nullish response = false ->
  handleCheckAsin newAsin (Return response)
  = [ SetProcessingAction (Some (lit "check")); CheckAsin (trim newAsin);
      (if listed response
       then Toast (lit "警告")
              (lit "ASIN " ++ newAsin ++ lit " はブラックリストに登録されています")
              true
       else Toast (lit "確認")
              (lit "ASIN " ++ newAsin ++ lit " はブラックリストに登録されていません")
              false);
      SetProcessingAction None ].
Proof.
  intros N0 H. unfold handleCheckAsin.
  destruct (trim newAsin) as [|c t] eqn:E; [congruence|].
  cbn [length Nat.eqb bind]. rewrite (is_blacklisted_listed _ H).
  now destruct (listed response).
Qed.

(** X30. A blacklist check sends a request exactly when the input is
    not blank, and then one request with the trimmed input; and the
    marks of the page are always taken off again: after a check no
    action is marked as processing, and after deleting an entry no entry
    is marked as being deleted, whatever the requests settled to. An
    entry is deleted by one request for it, and the blacklist is loaded
    again exactly when that request resolved. *)
Theorem blacklist_actions_release (newAsin entryId : jsstring)
    (settled : Result Num (JSValue Num)) (prev : option jsstring) :
  (forall asin,
      In (CheckAsin asin) (handleCheckAsin newAsin settled)
      <-> trim newAsin <> [] /\ asin = trim newAsin)
  /\ (trim newAsin <> [] ->
      action_after (handleCheckAsin newAsin settled) prev = None)
  /\ deleting_after (handleDeleteEntry entryId settled) prev = None
  /\ (forall id, In (Delete id) (handleDeleteEntry entryId settled)
                 <-> id = entryId)
  /\ (In LoadBlacklist (handleDeleteEntry entryId settled)
      <-> exists response, settled = Return response).
Proof.
  split; [|split; [|split; [|split]]].
  - intros asin. unfold handleCheckAsin.
    destruct (trim newAsin) as [|c t] eqn:E; cbn [length Nat.eqb].
    + split; [intros [H | []]; discriminate | intros [H _]; congruence].
    + cbn [app In]. split.
      * intros [H | [H | H]]; [discriminate | |].
        -- injection H as <-. split; [discriminate | reflexivity].
        -- apply in_app_or in H as [H | [H | []]]; [|discriminate].
           destruct (bind settled is_blacklisted) as [[|]|]; cbn [In] in H;
             destruct H as [H | []]; discriminate.
      * intros [_ ->]. right. now left.
  - intros N0. unfold handleCheckAsin.
    destruct (trim newAsin) as [|c t] eqn:E; [congruence|].
    cbn [length Nat.eqb].
    destruct (bind settled is_blacklisted) as [[|]|]; reflexivity.
  - destruct settled; reflexivity.
  - intros id. unfold handleDeleteEntry. cbn [app In]. split.
    + intros [H | [H | H]]; [discriminate | now injection H as <- |].
      apply in_app_or in H as [H | [H | []]]; [|discriminate].
      destruct settled; cbn [In] in H;
        repeat (destruct H as [H | H]; [discriminate|]); destruct H.
    + intros ->. right. now left.
  - unfold handleDeleteEntry. destruct settled as [r|e]; cbn [app In].
    + split; [intros _; now exists r|]. intros _. do 3 right. now left.
    + split; [|intros (r & H); discriminate].
      intros [H | [H | [H | [H | []]]]]; discriminate.
Qed.

End Checking.

End BlacklistActionFacts.

(* ================================================================== *)
(** * The further facts on the sample runtime                         *)
(* ================================================================== *)

Module SampleFacts.
Import JS Api Spec Shape.

(** Two columns named asin: the record keeps the value of the second. *)
Lemma fill_record_last_wins_witness :
  get (Products.fill_record (Num:=Sample.IntNum)
         ([lit "asin"; lit "title"] ++ lit "asin" :: [lit "status"]) 0
         [lit "B000000001"; lit "Adapter"; lit "B08N5WRWNW"; lit "active"] [])
      (lit "asin")
  = JStr (lit "B08N5WRWNW").
Proof.
  apply (ImportFacts.fill_record_last_wins
           [lit "asin"; lit "title"] [lit "status"] (lit "asin")
           [lit "B000000001"; lit "Adapter"; lit "B08N5WRWNW"; lit "active"]).
  intros [H | []]. vm_compute in H. discriminate.
Defined.

Lemma handleImportFile_payload_sound_witness :
  sound_payload Sample.adapter_payload.
Proof.
  apply (ImportRunFacts.handleImportFile_payload_sound
           Sample.JSON_parse Sample.native_key
           (Some Sample.short_rows_file) Sample.accept_all).
  vm_compute. right; left; reflexivity.
Defined.

Lemma handleImportFile_all_or_nothing_witness :
  Products.handleImportFile Sample.JSON_parse Sample.native_key
    (Some Sample.mixed_file) Sample.accept_all
  = [ Products.SetImporting true;
      Products.Toast (lit "エラー") (lit "商品のインポートに失敗しました") true;
      Products.SetImporting false; Products.ResetFileInput ].
Proof.
  apply (ImportRunFacts.handleImportFile_all_or_nothing
           Sample.JSON_parse Sample.native_key Sample.mixed_file
           Sample.accept_all
           [Sample.adapter_record; Sample.numeric_asin_record]
           Sample.numeric_asin_record TypeError).
  - vm_compute; reflexivity.
  - right; left; reflexivity.
  - vm_compute; reflexivity.
Defined.

Lemma handleImportFile_csv_never_fails_witness :
  ~ In (Products.Toast (lit "エラー") (lit "商品のインポートに失敗しました") true)
       (Products.handleImportFile Sample.JSON_parse Sample.native_key
          (Some Sample.short_rows_file) Sample.accept_all).
Proof.
  apply (ImportRunFacts.handleImportFile_csv_never_fails
           Sample.JSON_parse Sample.native_key Sample.short_rows_file
           Sample.accept_all).
  intros v H. vm_compute in H. discriminate.
Defined.

Lemma loadBlacklist_loads_witness :
  Blacklist.loadBlacklist (Return Sample.holed_blacklist)
  = [ Blacklist.SetLoading true;
      Blacklist.Toast (lit "エラー")
        (lit "ブラックリストの読み込みに失敗しました") true;
      Blacklist.SetLoading false ].
Proof.
  apply (proj2 (BlacklistRunFacts.loadBlacklist_loads
                  Sample.holed_blacklist Sample.holed_entries
                  eq_refl eq_refl)).
  right. left. reflexivity.
Defined.

Lemma handleAddEntries_all_added_witness :
  Blacklist.handleAddKeywords Sample.keyword_input Sample.accept_all
  = [Blacklist.SetProcessingAction (Some (lit "add-keyword"))]
    ++ List.map (fun v => Blacklist.Create
                            (Blacklist.create_request Blacklist.keyword v))
                [lit "replica"; lit "fake"; lit "コピー"; lit "偽物"]
    ++ [ Blacklist.Toast (lit "成功") (lit "4件を追加しました") false;
         Blacklist.ClearInput Blacklist.keyword; Blacklist.LoadBlacklist;
         Blacklist.SetProcessingAction None ].
Proof.
  pose proof (BlacklistRunFacts.handleAddEntries_all_added
                (Num:=Sample.IntNum) Blacklist.keyword
                (Blacklist.split_keywords Sample.keyword_input)
                Sample.accept_all
                ltac:(vm_compute; discriminate)
                ltac:(intros i v _; eexists; reflexivity)) as H.
  vm_compute in H |- *. exact H.
Defined.

Lemma handleAddEntries_stops_witness :
  Blacklist.handleAddKeywords (lit "replica,fake") Sample.reject_all
  = [ Blacklist.SetProcessingAction (Some (lit "add-keyword"));
      Blacklist.Create
        (Blacklist.create_request Blacklist.keyword (lit "replica"));
      Blacklist.Toast (lit "エラー")
        (lit "ブラックリストの追加に失敗しました") true;
      Blacklist.SetProcessingAction None ].
Proof.
  apply (BlacklistRunFacts.handleAddEntries_stops Blacklist.keyword
           (Blacklist.split_keywords (lit "replica,fake")) Sample.reject_all
           0 (lit "replica")
           (ApiError (lit "HTTP error! status: 500") (Sample.Int 500) JNull)).
  - vm_compute; reflexivity.
  - intros j w Hj. lia.
  - reflexivity.
Defined.



Lemma loadListings_loads_witness :
  Listings.loadListings (Return Sample.server_response)
  = [ Listings.SetLoading true;
      Listings.SetListings (List.map listing_of Sample.server_listings);
      Listings.SetLoading false ].
Proof.
  apply (proj1 (ListingsFacts.loadListings_loads
                  Sample.server_response Sample.server_listings
                  eq_refl eq_refl)).
  repeat constructor.
Defined.

Lemma normalize_listing_price_witness :
  get (listing_of Sample.unpriced_listing) (lit "listing_price")
  = JNum (Sample.Int 0)
  /\ Products.escapeCsv
       (js_coalesce
          (get (listing_of Sample.unpriced_listing) (lit "listing_price"))
          (JStr []))
     = [QUOTE; 48%N; QUOTE].
Proof.
  split; [reflexivity|].
  pose proof (proj1 (proj2 (ListingsFacts.normalize_listing_price
                              Sample.unpriced_listing
                              (listing_of Sample.unpriced_listing) eq_refl))
                eq_refl) as H.
  vm_compute in H |- *. exact H.
Defined.

Lemma filteredListings_throws_witness :
  exists e,
    Listings.filteredListings Sample.toLowerCase (lit "usb")
      [Sample.plain_listing; Sample.nameless_listing]
    = Throw e.
Proof.
  apply (ListingsFacts.filteredListings_throws Sample.toLowerCase (lit "usb")
           [Sample.plain_listing; Sample.nameless_listing]
           Sample.nameless_listing).
  - intros H. vm_compute in H. discriminate.
  - right; left; reflexivity.
  - intros s H. vm_compute in H. discriminate.
Defined.

(** A check that failed on the server reads as a clean ASIN. *)
Lemma handleCheckAsin_verdict_witness :
  BlacklistActions.handleCheckAsin (lit " B08N5WRWNW")
    (Return Sample.failed_check)
  = [ BlacklistActions.SetProcessingAction (Some (lit "check"));
      BlacklistActions.CheckAsin (trim (lit " B08N5WRWNW"));
      BlacklistActions.Toast (lit "確認")
        (lit "ASIN " ++ lit " B08N5WRWNW"
         ++ lit " はブラックリストに登録されていません") false;
      BlacklistActions.SetProcessingAction None ].
Proof.
  exact (BlacklistActionFacts.handleCheckAsin_verdict
           (lit " B08N5WRWNW") Sample.failed_check
           ltac:(intros H; vm_compute in H; discriminate) eq_refl).
Defined.

(** ** Runs *)

Example filteredListings_usb :
  Listings.filteredListings Sample.toLowerCase (lit "USB")
    [Sample.plain_listing; Sample.padded_listing;
     Sample.listing_with_title (lit "Adapter")]
  = Return [Sample.plain_listing; Sample.padded_listing].
Proof. vm_compute; reflexivity. Qed.

Example handleCheckAsin_found :
  BlacklistActions.handleCheckAsin (lit "B08N5WRWNW")
    (Return Sample.positive_check)
  = [ BlacklistActions.SetProcessingAction (Some (lit "check"));
      BlacklistActions.CheckAsin (lit "B08N5WRWNW");
      BlacklistActions.Toast (lit "警告")
        (lit "ASIN B08N5WRWNW はブラックリストに登録されています") true;
      BlacklistActions.SetProcessingAction None ].
Proof. vm_compute; reflexivity. Qed.

Example handleToggleStatus_unknown :
  Listings.handleToggleStatus (lit "L-1") (JStr (lit "error"))
    (Sample.accept_all 0 tt)
  = [ Listings.AddProcessing (lit "L-1");
      Listings.Update (lit "L-1") (JObj [(lit "status", JStr (lit "active"))]);
      Listings.Toast (lit "成功") (lit "商品を再開しました") false;
      Listings.LoadListings;
      Listings.RemoveProcessing (lit "L-1") ].
Proof. vm_compute; reflexivity. Qed.

End SampleFacts.
